(** * TrendZee: the live-data pipeline, its reconciliation command and the
      query service, embedded from the Python sources.

    Conventions of the embedding.
    - A Python [str] is a Stdlib [string]; one [ascii] stands for one
      character.  [lower], [strip] and the case-insensitive matches follow
      Python on ASCII text (bytes above 127 are left alone).
    - A Python [float] is an exact rational [Q]: binary rounding error, NaN
      and infinities are outside the model.  [round(x, 1)] rounds to the
      nearest tenth, ties to the even tenth.
    - A Python [int] is a [Z]; a loop index is a [nat].
    - An exception that [except Exception] catches is a value of [exn]
      (its message); code that can raise returns an [outcome]. *)

From Stdlib Require Import ZArith QArith Qround Lqa Lia List String Ascii Bool.
From Stdlib Require Import Qabs Permutation Sorted DecimalString.
Import ListNotations.

Local Open Scope string_scope.
Local Open Scope Z_scope.

(** ** Python text primitives *)

Module PyStr.

Definition code (c : ascii) : N := N_of_ascii c.

(** [c.lower()] for one ASCII character. *)
Definition lower_char (c : ascii) : ascii :=
  if ((65 <=? code c) && (code c <=? 90))%N
  then ascii_of_N (code c + 32) else c.

Fixpoint lower (s : string) : string :=
  match s with
  | EmptyString => EmptyString
  | String c r => String (lower_char c) (lower r)
  end.

(** [c.isspace()] on ASCII: tab, newline, VT, FF, CR, FS..US and space. *)
Definition isspace (c : ascii) : bool :=
  (((9 <=? code c) && (code c <=? 13)) ||
   ((28 <=? code c) && (code c <=? 32)))%N.

Fixpoint lstrip (s : string) : string :=
  match s with
  | EmptyString => EmptyString
  | String c r => if isspace c then lstrip r else s
  end.

Fixpoint rstrip (s : string) : string :=
  match s with
  | EmptyString => EmptyString
  | String c r =>
      match rstrip r with
      | EmptyString => if isspace c then EmptyString else String c EmptyString
      | r' => String c r'
      end
  end.

Definition strip (s : string) : string := rstrip (lstrip s).

(** [s[:n]] for [n >= 0]. *)
Fixpoint take (n : nat) (s : string) : string :=
  match n, s with
  | O, _ => EmptyString
  | _, EmptyString => EmptyString
  | S n', String c r => String c (take n' r)
  end.

(** [needle in hay]. *)
Fixpoint contains (needle hay : string) : bool :=
  prefix needle hay ||
  match hay with
  | EmptyString => false
  | String _ r => contains needle r
  end.

(** The [icontains] lookup: a case-insensitive substring test. *)
Definition icontains (hay needle : string) : bool :=
  contains (lower needle) (lower hay).

(** [s.replace(a, b)] for one-character [a] and [b]. *)
Fixpoint replace_char (a b : ascii) (s : string) : string :=
  match s with
  | EmptyString => EmptyString
  | String c r =>
      String (if Ascii.eqb c a then b else c) (replace_char a b r)
  end.

(** [bool(s)]: a string is falsy exactly when it is empty. *)
Definition truthy (s : string) : bool :=
  match s with EmptyString => false | _ => true end.

(** [str(n)] for an integer. *)
Definition of_Z (n : Z) : string := NilZero.string_of_int (Z.to_int n).

Definition of_nat (n : nat) : string := of_Z (Z.of_nat n).

(** [s.split()]: the maximal runs of characters that are not spaces;
    [cur] is the run being read. *)
Fixpoint split_from (cur s : string) : list string :=
  match s with
  | EmptyString => if truthy cur then [cur] else []
  | String c r =>
      if isspace c
      then (if truthy cur then cur :: split_from EmptyString r
            else split_from EmptyString r)
      else split_from (cur ++ String c EmptyString) r
  end.

Definition split (s : string) : list string := split_from EmptyString s.

(** [c.upper()] for one ASCII character. *)
Definition upper_char (c : ascii) : ascii :=
  if ((97 <=? code c) && (code c <=? 122))%N
  then ascii_of_N (code c - 32) else c.

(** [s.capitalize()]: the first character upper-cased, the rest
    lower-cased. *)
Definition capitalize (s : string) : string :=
  match s with
  | EmptyString => EmptyString
  | String c r => String (upper_char c) (lower r)
  end.

End PyStr.

(** ** Python numeric primitives on the rational model of floats *)

Module PyNum.

Local Open Scope Q_scope.

Definition Qlt_bool (x y : Q) : bool := negb (Qle_bool y x).

(** [max(a, b)] returns [a] unless [b > a]; [min(a, b)] returns [a] unless
    [b < a]. *)
Definition max (a b : Q) : Q := if Qlt_bool a b then b else a.
Definition min (a b : Q) : Q := if Qlt_bool b a then b else a.

Definition abs (x : Q) : Q := Qabs.Qabs x.

(** Nearest integer, ties to even. *)
Definition round_half_even (x : Q) : Z :=
  let f := Qfloor x in
  let r := x - inject_Z f in
  if Qlt_bool r (1 # 2) then f
  else if Qlt_bool (1 # 2) r then (f + 1)%Z
  else if Z.even f then f else (f + 1)%Z.

(** [round(x, n)]: rounding to [n] decimals. *)
Definition round (x : Q) (n : nat) : Q :=
  let p := (10 ^ Z.of_nat n)%Z in
  Qmake (round_half_even (x * inject_Z p)) (Z.to_pos p).

End PyNum.


(** ** [hashlib.md5]: the MD5 message digest (RFC 1321) on byte strings.
    Words are 32-bit integers held in [Z]; every sum is reduced modulo 2^32. *)

Module MD5.

Definition mask32 : Z := 0xFFFFFFFF.
Definition wrap32 (x : Z) : Z := Z.land x mask32.
Definition add32 (x y : Z) : Z := wrap32 (x + y).
Definition not32 (x : Z) : Z := Z.lxor (wrap32 x) mask32.
Definition rotl32 (x : Z) (n : Z) : Z :=
  Z.lor (wrap32 (Z.shiftl x n)) (Z.shiftr (wrap32 x) (32 - n)).

Definition shifts : list Z :=
  [7; 12; 17; 22; 7; 12; 17; 22; 7; 12; 17; 22; 7; 12; 17; 22;
   5; 9; 14; 20; 5; 9; 14; 20; 5; 9; 14; 20; 5; 9; 14; 20;
   4; 11; 16; 23; 4; 11; 16; 23; 4; 11; 16; 23; 4; 11; 16; 23;
   6; 10; 15; 21; 6; 10; 15; 21; 6; 10; 15; 21; 6; 10; 15; 21].

(** [K i = floor (2^32 * |sin (i + 1)|)]. *)
Definition K : list Z :=
  [0xd76aa478; 0xe8c7b756; 0x242070db; 0xc1bdceee;
   0xf57c0faf; 0x4787c62a; 0xa8304613; 0xfd469501;
   0x698098d8; 0x8b44f7af; 0xffff5bb1; 0x895cd7be;
   0x6b901122; 0xfd987193; 0xa679438e; 0x49b40821;
   0xf61e2562; 0xc040b340; 0x265e5a51; 0xe9b6c7aa;
   0xd62f105d; 0x02441453; 0xd8a1e681; 0xe7d3fbc8;
   0x21e1cde6; 0xc33707d6; 0xf4d50d87; 0x455a14ed;
   0xa9e3e905; 0xfcefa3f8; 0x676f02d9; 0x8d2a4c8a;
   0xfffa3942; 0x8771f681; 0x6d9d6122; 0xfde5380c;
   0xa4beea44; 0x4bdecfa9; 0xf6bb4b60; 0xbebfbc70;
   0x289b7ec6; 0xeaa127fa; 0xd4ef3085; 0x04881d05;
   0xd9d4d039; 0xe6db99e5; 0x1fa27cf8; 0xc4ac5665;
   0xf4292244; 0x432aff97; 0xab9423a7; 0xfc93a039;
   0x655b59c3; 0x8f0ccc92; 0xffeff47d; 0x85845dd1;
   0x6fa87e4f; 0xfe2ce6e0; 0xa3014314; 0x4e0811a1;
   0xf7537e82; 0xbd3af235; 0x2ad7d2bb; 0xeb86d391].

Record state := State { sa : Z; sb : Z; sc : Z; sd : Z }.

Definition init : state :=
  State 0x67452301 0xefcdab89 0x98badcfe 0x10325476.

(** Little-endian bytes of a word, and back. *)
Definition le_bytes (n : nat) (x : Z) : list Z :=
  map (fun i => Z.land (Z.shiftr x (8 * Z.of_nat i)) 0xFF) (seq 0 n).

Fixpoint le_word (bs : list Z) : Z :=
  match bs with
  | [] => 0
  | b :: r => Z.lor b (Z.shiftl (le_word r) 8)
  end.

(** Padding: a 1 bit, zeros up to 56 modulo 64, then the bit length on 64
    bits. *)
Definition pad (msg : list Z) : list Z :=
  let len := Z.of_nat (List.length msg) in
  let zeros := Z.to_nat ((55 - len) mod 64) in
  msg ++ [0x80] ++ repeat 0 zeros ++ le_bytes 8 (Z.land (8 * len) (2 ^ 64 - 1)).

Fixpoint words (n : nat) (block : list Z) : list Z :=
  match n with
  | O => []
  | S n' => le_word (firstn 4 block) :: words n' (skipn 4 block)
  end.

Definition step (M : list Z) (st : state) (i : nat) : state :=
  let '(State A B C D) := st in
  let iz := Z.of_nat i in
  let '(F, g) :=
    if iz <? 16 then (Z.lor (Z.land B C) (Z.land (not32 B) D), iz)
    else if iz <? 32 then
      (Z.lor (Z.land D B) (Z.land (not32 D) C), (5 * iz + 1) mod 16)
    else if iz <? 48 then (Z.lxor (Z.lxor B C) D, (3 * iz + 5) mod 16)
    else (Z.lxor C (Z.lor B (not32 D)), (7 * iz) mod 16) in
  let F' := add32 (add32 (add32 F A) (nth i K 0)) (nth (Z.to_nat g) M 0) in
  State D (add32 B (rotl32 F' (nth i shifts 0))) B C.

Definition compress (st : state) (block : list Z) : state :=
  let M := words 16 block in
  let '(State A B C D) := fold_left (step M) (seq 0 64) st in
  State (add32 (sa st) A) (add32 (sb st) B) (add32 (sc st) C) (add32 (sd st) D).

Fixpoint blocks (n : nat) (st : state) (bytes : list Z) : state :=
  match n with
  | O => st
  | S n' => blocks n' (compress st (firstn 64 bytes)) (skipn 64 bytes)
  end.

Definition digest (msg : list Z) : list Z :=
  let p := pad msg in
  let '(State A B C D) := blocks (List.length p / 64) init p in
  le_bytes 4 A ++ le_bytes 4 B ++ le_bytes 4 C ++ le_bytes 4 D.

Definition hex_digit (n : Z) : ascii :=
  if n <? 10 then ascii_of_N (Z.to_N (48 + n)) else ascii_of_N (Z.to_N (87 + n)).

Fixpoint hex (bs : list Z) : string :=
  match bs with
  | [] => EmptyString
  | b :: r => String (hex_digit (Z.shiftr b 4)) (String (hex_digit (Z.land b 15)) (hex r))
  end.

(** [s.encode()]: the bytes of a string. *)
Fixpoint encode (s : string) : list Z :=
  match s with
  | EmptyString => []
  | String c r => Z.of_N (N_of_ascii c) :: encode r
  end.

(** [hashlib.md5(b).hexdigest()]. *)
Definition hexdigest (msg : list Z) : string := hex (digest msg).

End MD5.

(** ** Format specifications of f-strings *)

Module PyFormat.

Local Open Scope Q_scope.

Fixpoint zfill (width : nat) (s : string) : string :=
  match width with
  | O => s
  | S w => if (String.length s <? S w)%nat then zfill w (String "0" s) else s
  end.

(** [f'{x:.df}']: fixed-point notation with [d] decimals. *)
Definition fixed (d : nat) (x : Q) : string :=
  let p := (10 ^ Z.of_nat d)%Z in
  let n := PyNum.round_half_even (PyNum.abs x * inject_Z p) in
  ((if PyNum.Qlt_bool x 0 then "-" else "") ++
   PyStr.of_Z (n / p) ++
   match d with
   | O => ""
   | _ => "." ++ zfill d (PyStr.of_Z (n mod p))
   end)%string.

(** Digits in groups of three, from the right. *)
Fixpoint group3 (fuel : nat) (rev_digits : list ascii) : list ascii :=
  match fuel, rev_digits with
  | S f, a :: b :: c :: ((_ :: _) as r) =>
      a :: b :: c :: ","%char :: group3 f r
  | _, _ => rev_digits
  end.

(** [f'{n:,}']: an integer with thousands separators. *)
Definition commas (n : Z) : string :=
  let ds := list_ascii_of_string (PyStr.of_Z (Z.abs n)) in
  ((if (n <? 0)%Z then "-" else "") ++
   string_of_list_ascii (rev (group3 (List.length ds) (rev ds))))%string.

End PyFormat.

(** ** Exceptions, logging, slices *)

Inductive exn : Type :=
| ImportError (msg : string)
| Exception (msg : string).

(** [str(e)]. *)
Definition exn_str (e : exn) : string :=
  match e with ImportError m => m | Exception m => m end.

Inductive outcome (A : Type) : Type :=
| Returns (a : A)
| Raises (e : exn).
Arguments Returns {A} a.
Arguments Raises {A} e.

Inductive level : Type := INFO | WARNING | ERROR.

Definition LogRecord : Type := level * string.

(** [l[:n]]: a negative [n] counts from the end. *)
Definition slice_to {A : Type} (n : Z) (l : list A) : list A :=
  if 0 <=? n then firstn (Z.to_nat n) l
  else firstn (Z.to_nat (Z.of_nat (List.length l) + n)) l.

Definition dquote : string := String (ascii_of_N 34) EmptyString.

(** A stable sort, largest key first: elements with equal keys keep their
    order.  It is [l.sort(key=key, reverse=True)] on a Python list. *)
Fixpoint insert_desc {A : Type} (key : A -> Q) (x : A) (l : list A) : list A :=
  match l with
  | [] => [x]
  | y :: r =>
      if PyNum.Qlt_bool (key x) (key y) then y :: insert_desc key x r
      else x :: l
  end.

Definition sort_desc {A : Type} (key : A -> Q) (l : list A) : list A :=
  fold_right (insert_desc key) [] l.

(** An insertion-ordered [dict] with string keys. *)
Definition dict (V : Type) : Type := list (string * V).

Fixpoint dict_get {V : Type} (k : string) (d : dict V) : option V :=
  match d with
  | [] => None
  | (k', v) :: r => if String.eqb k k' then Some v else dict_get k r
  end.

Fixpoint dict_set {V : Type} (k : string) (v : V) (d : dict V) : dict V :=
  match d with
  | [] => [(k, v)]
  | (k', v') :: r =>
      if String.eqb k k' then (k, v) :: r else (k', v') :: dict_set k v r
  end.

(** ** The trend dictionaries that fetchers build *)

Record Candidate : Type := mkCandidate {
  c_title : string;
  c_category : string;
  c_platform : string;
  c_description : string;
  c_score : Q;
  c_velocity : string;
  c_likes : Z;
  c_shares : Z;
  c_comments : Z;
  c_source : string;
  c_external_url : string;
  c_source_id : option string   (* [None]: the key is absent *)
}.

(** ** What the external providers answer during one run *)

Record TickerInfo : Type := mkTickerInfo {
  last_price : option Q;
  previous_close : option Q;
  market_cap : option Q
}.

Record Article : Type := mkArticle {
  a_title : string;          (* [article.get('title', '')] *)
  a_description : string;    (* [article.get('description', '') or ''] *)
  a_source_name : string;    (* [article.get('source', {}).get('name', 'News')] *)
  a_url : string             (* [article.get('url', '')] *)
}.

Record Entry : Type := mkEntry {
  e_title : string;
  e_link : string;
  e_summary : string
}.

Record Track : Type := mkTrack {
  t_name : string;
  t_artist : string;         (* [track.get('artist', {}).get('name', 'Unknown')] *)
  t_listeners : Z;
  t_playcount : Z;
  t_url : string
}.

(** A sequence element is [Raises e] when reading its fields raises. *)
Record World : Type := mkWorld {
  (** [TrendReq(...).trending_searches(pn=geo)]: column 0 of each row, as
      [str(row[0])]; the frame has the default index 0, 1, 2, ... *)
  pytrends_trending_searches : string -> outcome (list string);
  (** [yf.Tickers(...)], then [tickers.tickers.get(symbol)] and its
      [fast_info]: [None] when there is no ticker. *)
  yfinance_tickers : outcome (string -> option (outcome TickerInfo));
  GNEWS_API_KEY : string;
  LASTFM_API_KEY : string;
  (** [requests.get(url, timeout=10)], [raise_for_status()], [json()] and
      the list under ['articles'], respectively ['tracks']['track']. *)
  requests_get_articles : string -> outcome (list (outcome Article));
  requests_get_tracks : string -> outcome (list (outcome Track));
  (** [feedparser.parse(url).entries]. *)
  feedparser_parse : string -> outcome (list (outcome Entry))
}.

(** ** services/live_data_service.py *)

Module live_data_service.

Local Open Scope Q_scope.

(** Generate a unique source_id for deduplication. *)
Definition _make_source_id (source identifier : string) : string :=
  let raw := (source ++ ":" ++ identifier)%string in
  MD5.hexdigest (MD5.encode raw).

(** Normalize a value to a 0-100 score. *)
Definition _score_from_value (value max_value : Z) : Q :=
  if (max_value <=? 0)%Z then 50
  else PyNum.round
         (PyNum.min (inject_Z value / inject_Z max_value * 100) 100) 1.

(** Classify velocity based on score. *)
Definition _classify_velocity (score : Q) : string :=
  if Qle_bool 85 score then "exploding"
  else if Qle_bool 60 score then "rising"
  else if Qle_bool 30 score then "steady"
  else "declining".

(** The body of a [for idx, x in enumerate(items)] loop that appends to
    [trends] inside a [try]: the candidates appended so far, and the
    exception that ended the loop, if one did.  The body answers
    [Returns None] when it skips the element. *)
Fixpoint collect {A : Type} (body : nat -> A -> outcome (option Candidate))
    (idx : nat) (items : list A) : list Candidate * option exn :=
  match items with
  | [] => ([], None)
  | x :: rest =>
      match body idx x with
      | Raises e => ([], Some e)
      | Returns oc =>
          let '(trends, err) := collect body (S idx) rest in
          (match oc with Some c => c :: trends | None => trends end, err)
      end
  end.

(** A loop body over elements whose fields can fail to read. *)
Definition reading {A : Type} (mk : nat -> A -> Candidate)
    (idx : nat) (item : outcome A) : outcome (option Candidate) :=
  match item with
  | Returns a => Returns (Some (mk idx a))
  | Raises e => Raises e
  end.

Definition fetched (what : string) (n : nat) (unit : string) : LogRecord :=
  (INFO, (what ++ ": fetched " ++ PyStr.of_nat n ++ " " ++ unit)%string).

Definition rank (idx : nat) : Q := inject_Z (Z.of_nat idx).

Module GoogleTrendsFetcher.

Definition trend (idx : nat) (row : string) : outcome (option Candidate) :=
  let title := PyStr.strip row in
  if negb (PyStr.truthy title) then Returns None
  else
    let score := PyNum.round (95 - rank idx * (35 # 10)) 1 in
    let score := PyNum.max score 20 in
    Returns (Some {|
      c_title := title;
      c_category := "other";
      c_platform := "twitter";
      c_description := (dquote ++ title ++ dquote ++ " is currently trending on Google Search. This topic is generating significant search interest and social media discussion across platforms.")%string;
      c_score := score;
      c_velocity := _classify_velocity score;
      c_likes := 0;
      c_shares := 0;
      c_comments := 0;
      c_source := "google_trends";
      c_external_url := ("https://trends.google.com/trends/explore?q=" ++ PyStr.replace_char " " "+" title)%string;
      c_source_id := Some (_make_source_id "google_trends" (PyStr.lower title))
    |}).

Definition fetch (w : World) (geo : string) (count : Z)
  : list Candidate * list LogRecord :=
  match pytrends_trending_searches w geo with
  | Returns trending_df =>
      match collect trend 0 (slice_to count trending_df) with
      | (trends, None) =>
          (trends, [fetched "GoogleTrends" (List.length trends) "trends"])
      | (trends, Some (ImportError _)) =>
          (trends,
           [(WARNING, "pytrends not installed. Run: pip install pytrends")])
      | (trends, Some e) =>
          (trends, [(ERROR, ("GoogleTrends error: " ++ exn_str e)%string)])
      end
  | Raises (ImportError _) =>
      ([], [(WARNING, "pytrends not installed. Run: pip install pytrends")])
  | Raises e => ([], [(ERROR, ("GoogleTrends error: " ++ exn_str e)%string)])
  end.

End GoogleTrendsFetcher.

Record Mover : Type := mkMover {
  symbol : string;
  price : Q;
  change_pct : Q;
  m_market_cap : Q
}.

Module StockTrendsFetcher.

Definition WATCHLIST : list string :=
  ["AAPL"; "MSFT"; "GOOGL"; "AMZN"; "NVDA"; "META"; "TSLA";
   "BRK-B"; "JPM"; "V"; "JNJ"; "WMT"; "PG"; "MA"; "UNH";
   "HD"; "DIS"; "NFLX"; "PYPL"; "AMD"; "INTC"; "CRM"; "ORCL"; "CSCO"]%string.

(** [getattr(info, name, 0) or 0]. *)
Definition or0 (x : option Q) : Q :=
  match x with Some v => v | None => 0 end.

(** One turn of the loop over the watch-list; [None] is [continue]. *)
Definition mover (tickers : string -> option (outcome TickerInfo))
    (sym : string) : option Mover :=
  match tickers sym with
  | None => None
  | Some (Raises _) => None
  | Some (Returns info) =>
      let price := or0 (last_price info) in
      let prev_close := or0 (previous_close info) in
      let change_pct :=
        if PyNum.Qlt_bool 0 prev_close
        then ((price - prev_close) / prev_close) * 100
        else 0 in
      Some (mkMover sym price change_pct (or0 (market_cap info)))
  end.

Definition movers_of (tickers : string -> option (outcome TickerInfo))
  : list Mover :=
  flat_map (fun sym => match mover tickers sym with
                       | Some m => [m]
                       | None => []
                       end) WATCHLIST.

Definition sorted_movers (movers : list Mover) : list Mover :=
  sort_desc (fun x => PyNum.abs (change_pct x)) movers.

Definition trend (m : Mover) : Candidate :=
  let change := change_pct m in
  let direction := if PyNum.Qlt_bool 0 change then "📈 up" else "📉 down" in
  let score := PyNum.min (PyNum.abs change * 15 + 40) 99 in
  let velocity :=
    if PyNum.Qlt_bool 3 change then "exploding"
    else if PyNum.Qlt_bool 0 change then "rising"
    else if PyNum.Qlt_bool (-2) change then "steady"
    else "declining" in
  let moved :=
    (symbol m ++ " " ++ direction ++ " " ++
     PyFormat.fixed 1 (PyNum.abs change) ++ "%")%string in
  {|
    c_title := (moved ++ " — $" ++ PyFormat.fixed 2 (price m))%string;
    c_category := "business";
    c_platform := "twitter";
    c_description :=
      (symbol m ++ " stock is " ++ direction ++ " " ++
       PyFormat.fixed 1 (PyNum.abs change) ++ "% today, trading at $" ++
       PyFormat.fixed 2 (price m) ++ ". " ++
       "Market cap: $" ++
       PyFormat.fixed 1 (m_market_cap m / inject_Z (10 ^ 9)) ++ "B. " ++
       "This move is generating discussion across financial communities.")%string;
    c_score := PyNum.round score 1;
    c_velocity := velocity;
    c_likes := 0;
    c_shares := 0;
    c_comments := 0;
    c_source := "stocks";
    c_external_url :=
      ("https://finance.yahoo.com/quote/" ++ symbol m ++ "/")%string;
    c_source_id := Some (_make_source_id "stocks" (symbol m))
  |}.

Definition fetch (w : World) (count : Z) : list Candidate * list LogRecord :=
  match yfinance_tickers w with
  | Returns tickers =>
      let movers := sorted_movers (movers_of tickers) in
      let trends := map trend (slice_to count movers) in
      (trends, [fetched "Stocks" (List.length trends) "movers"])
  | Raises (ImportError _) =>
      ([], [(WARNING, "yfinance not installed. Run: pip install yfinance")])
  | Raises e => ([], [(ERROR, ("Stocks error: " ++ exn_str e)%string)])
  end.

End StockTrendsFetcher.

Module NewsTrendsFetcher.

Definition article_trend (idx : nat) (article : Article) : Candidate :=
  let title := PyStr.strip (a_title article) in
  let desc := a_description article in
  let source_name := a_source_name article in
  let score := PyNum.round (90 - rank idx * 3) 1 in
  let score := PyNum.max score 25 in
  {|
    c_title := title;
    c_category := "other";
    c_platform := "twitter";
    c_description :=
      (if PyStr.truthy desc then "[" ++ source_name ++ "] " ++ desc
       else "Breaking news from " ++ source_name ++ ".")%string;
    c_score := score;
    c_velocity := _classify_velocity score;
    c_likes := 0;
    c_shares := 0;
    c_comments := 0;
    c_source := "news";
    c_external_url := a_url article;
    c_source_id :=
      Some (_make_source_id "news" (PyStr.take 100 (PyStr.lower title)))
  |}.

Definition rss_trend (idx : nat) (entry : Entry) : Candidate :=
  let title := PyStr.strip (e_title entry) in
  let summary := e_summary entry in
  let score := PyNum.round (88 - rank idx * 4) 1 in
  let score := PyNum.max score 20 in
  {|
    c_title := title;
    c_category := "other";
    c_platform := "twitter";
    c_description :=
      if PyStr.truthy summary then PyStr.take 300 summary
      else "Top news story trending across platforms.";
    c_score := score;
    c_velocity := _classify_velocity score;
    c_likes := 0;
    c_shares := 0;
    c_comments := 0;
    c_source := "news";
    c_external_url := e_link entry;
    c_source_id :=
      Some (_make_source_id "news" (PyStr.take 100 (PyStr.lower title)))
  |}.

(** Fallback: fetch Google News RSS (no key needed). *)
Definition _fetch_rss_fallback (w : World) (count : Z)
  : list Candidate * list LogRecord :=
  match feedparser_parse w
          "https://news.google.com/rss?hl=en-US&gl=US&ceid=US:en" with
  | Returns entries =>
      match collect (reading rss_trend) 0 (slice_to count entries) with
      | (trends, None) =>
          (trends,
           [fetched "News (RSS fallback)" (List.length trends) "articles"])
      | (trends, Some e) =>
          (trends, [(ERROR, ("News RSS error: " ++ exn_str e)%string)])
      end
  | Raises e => ([], [(ERROR, ("News RSS error: " ++ exn_str e)%string)])
  end.

Definition fall_back (w : World) (count : Z) (line : LogRecord)
  : list Candidate * list LogRecord :=
  let '(trends, log) := _fetch_rss_fallback w count in (trends, line :: log).

Definition fetch (w : World) (count : Z) : list Candidate * list LogRecord :=
  let api_key := GNEWS_API_KEY w in
  if negb (PyStr.truthy api_key) then
    fall_back w count (INFO, "GNews: no API key set, using fallback RSS")
  else
    let url :=
      ("https://gnews.io/api/v4/top-headlines?category=general&lang=en&max="
       ++ PyStr.of_Z count ++ "&apikey=" ++ api_key)%string in
    match requests_get_articles w url with
    | Returns articles =>
        match collect (reading article_trend) 0 (slice_to count articles) with
        | (trends, None) =>
            (trends, [fetched "News (GNews)" (List.length trends) "articles"])
        | (_, Some e) =>
            fall_back w count (ERROR, ("News error: " ++ exn_str e)%string)
        end
    | Raises e =>
        fall_back w count (ERROR, ("News error: " ++ exn_str e)%string)
    end.

End NewsTrendsFetcher.

Module YouTubeTrendsFetcher.

Definition trend (idx : nat) (entry : Entry) : Candidate :=
  let title := PyStr.strip (e_title entry) in
  let summary := e_summary entry in
  let score := PyNum.round (85 - rank idx * (35 # 10)) 1 in
  let score := PyNum.max score 20 in
  {|
    c_title := title;
    c_category := "entertainment";
    c_platform := "youtube";
    c_description :=
      if PyStr.truthy summary then PyStr.take 300 summary
      else "This video is trending on YouTube with significant viewer engagement.";
    c_score := score;
    c_velocity := _classify_velocity score;
    c_likes := 0;
    c_shares := 0;
    c_comments := 0;
    c_source := "youtube";
    c_external_url := e_link entry;
    c_source_id :=
      Some (_make_source_id "youtube" (PyStr.take 100 (PyStr.lower title)))
  |}.

Definition fetch (w : World) (count : Z) : list Candidate * list LogRecord :=
  match feedparser_parse w
          "https://news.google.com/rss/search?q=site:youtube.com+trending&hl=en-US&gl=US&ceid=US:en" with
  | Returns entries =>
      match collect (reading trend) 0 (slice_to count entries) with
      | (trends, None) =>
          (trends, [fetched "YouTube" (List.length trends) "videos"])
      | (trends, Some (ImportError _)) =>
          (trends,
           [(WARNING, "feedparser not installed. Run: pip install feedparser")])
      | (trends, Some e) =>
          (trends, [(ERROR, ("YouTube error: " ++ exn_str e)%string)])
      end
  | Raises (ImportError _) =>
      ([], [(WARNING, "feedparser not installed. Run: pip install feedparser")])
  | Raises e => ([], [(ERROR, ("YouTube error: " ++ exn_str e)%string)])
  end.

End YouTubeTrendsFetcher.

Module MusicTrendsFetcher.

Definition track_trend (idx : nat) (track : Track) : Candidate :=
  let name := t_name track in
  let artist := t_artist track in
  let listeners := t_listeners track in
  let playcount := t_playcount track in
  let score := _score_from_value listeners 5000000 in
  let score := PyNum.max score 20 in
  {|
    c_title := ("🎵 " ++ name ++ " — " ++ artist)%string;
    c_category := "music";
    c_platform := "tiktok";
    c_description :=
      (dquote ++ name ++ dquote ++ " by " ++ artist ++
       " is trending in global music charts. " ++
       PyFormat.commas listeners ++ " listeners, " ++
       PyFormat.commas playcount ++ " plays. " ++
       "This track is driving engagement across streaming and social platforms.")%string;
    c_score := PyNum.round score 1;
    c_velocity := _classify_velocity score;
    c_likes := listeners;
    c_shares := (playcount / 10)%Z;
    c_comments := (playcount / 50)%Z;
    c_source := "music";
    c_external_url := t_url track;
    c_source_id :=
      Some (_make_source_id "music" (PyStr.lower (artist ++ ":" ++ name)))
  |}.

Definition rss_trend (idx : nat) (entry : Entry) : Candidate :=
  let title := PyStr.strip (e_title entry) in
  let score := PyNum.round (80 - rank idx * 4) 1 in
  let score := PyNum.max score 20 in
  {|
    c_title := ("🎵 " ++ title)%string;
    c_category := "music";
    c_platform := "tiktok";
    c_description := ("Music trend: " ++ title)%string;
    c_score := score;
    c_velocity := _classify_velocity score;
    c_likes := 0;
    c_shares := 0;
    c_comments := 0;
    c_source := "music";
    c_external_url := e_link entry;
    c_source_id :=
      Some (_make_source_id "music" (PyStr.take 100 (PyStr.lower title)))
  |}.

(** Fallback: fetch music news via RSS. *)
Definition _fetch_rss_fallback (w : World) (count : Z)
  : list Candidate * list LogRecord :=
  match feedparser_parse w
          "https://news.google.com/rss/search?q=trending+music+charts&hl=en-US&gl=US&ceid=US:en" with
  | Returns entries =>
      match collect (reading rss_trend) 0 (slice_to count entries) with
      | (trends, None) =>
          (trends, [fetched "Music (RSS fallback)" (List.length trends) "items"])
      | (trends, Some e) =>
          (trends, [(ERROR, ("Music RSS error: " ++ exn_str e)%string)])
      end
  | Raises e => ([], [(ERROR, ("Music RSS error: " ++ exn_str e)%string)])
  end.

Definition fall_back (w : World) (count : Z) (line : LogRecord)
  : list Candidate * list LogRecord :=
  let '(trends, log) := _fetch_rss_fallback w count in (trends, line :: log).

Definition fetch (w : World) (count : Z) : list Candidate * list LogRecord :=
  let api_key := LASTFM_API_KEY w in
  if negb (PyStr.truthy api_key) then
    fall_back w count (INFO, "Last.fm: no API key, using RSS fallback")
  else
    let url :=
      ("https://ws.audioscrobbler.com/2.0/?method=chart.gettoptracks&api_key="
       ++ api_key ++ "&format=json&limit=" ++ PyStr.of_Z count)%string in
    match requests_get_tracks w url with
    | Returns tracks =>
        match collect (reading track_trend) 0 (slice_to count tracks) with
        | (trends, None) =>
            (trends, [fetched "Music (Last.fm)" (List.length trends) "tracks"])
        | (_, Some e) =>
            fall_back w count (ERROR, ("Music error: " ++ exn_str e)%string)
        end
    | Raises e =>
        fall_back w count (ERROR, ("Music error: " ++ exn_str e)%string)
    end.

End MusicTrendsFetcher.

(** *** Master fetcher *)

(** Code that logs and may raise: its outcome and the lines it logged. *)
Definition M (A : Type) : Type := outcome A * list LogRecord.

Definition ret {A : Type} (a : A) : M A := (Returns a, []).

Definition bind {A B : Type} (m : M A) (k : A -> M B) : M B :=
  match m with
  | (Returns a, l) => let '(r, l') := k a in (r, (l ++ l')%list)
  | (Raises e, l) => (Raises e, l)
  end.

Definition logger (lvl : level) (msg : string) : M unit :=
  (Returns tt, [(lvl, msg)]).

(** [try: body / except Exception as e: handler e]. *)
Definition try_except {A : Type} (body : M A) (handler : exn -> M A) : M A :=
  match body with
  | (Raises e, l) => let '(r, l') := handler e in (r, (l ++ l')%list)
  | done => done
  end.

(** A fetcher class: what its [fetch()] does, called without arguments. *)
Definition Fetcher : Type := World -> M (list Candidate).

Definition never_raises (f : World -> list Candidate * list LogRecord)
  : Fetcher :=
  fun w => let '(trends, log) := f w in (Returns trends, log).

Definition FETCHERS : dict Fetcher :=
  [("google_trends",
    never_raises (fun w => GoogleTrendsFetcher.fetch w "united_states" 20));
   ("stocks", never_raises (fun w => StockTrendsFetcher.fetch w 15));
   ("news", never_raises (fun w => NewsTrendsFetcher.fetch w 15));
   ("youtube", never_raises (fun w => YouTubeTrendsFetcher.fetch w 15));
   ("music", never_raises (fun w => MusicTrendsFetcher.fetch w 15))].

(** Fetch trends from all (or specified) sources; the registry is the
    module's global [FETCHERS]. *)
Fixpoint fetch_loop (registry : dict Fetcher) (w : World)
    (sources : list string) (results : dict (list Candidate))
  : M (dict (list Candidate)) :=
  match sources with
  | [] => ret results
  | source :: rest =>
      bind
        (match dict_get source registry with
         | Some fetcher =>
             try_except
               (bind (fetcher w) (fun trends =>
                  ret (dict_set source trends results)))
               (fun e =>
                  bind (logger ERROR ("Error fetching " ++ source ++ ": "
                                      ++ exn_str e)%string) (fun _ =>
                  ret (dict_set source [] results)))
         | None =>
             bind (logger WARNING ("Unknown source: " ++ source)%string)
               (fun _ => ret results)
         end)
        (fetch_loop registry w rest)
  end.

Definition fetch_all_live_trends (registry : dict Fetcher) (w : World)
    (sources : option (list string)) : M (dict (list Candidate)) :=
  let sources :=
    match sources with
    | None => map fst registry
    | Some sources => sources
    end in
  fetch_loop registry w sources [].

End live_data_service.

(** ** trends/models.py, with the tables of the storage engine *)

Module models.

Record Trend : Type := mkTrend {
  pk : Z;
  title : string;
  category : string;
  platform : string;
  description : string;
  score : Q;
  velocity : string;
  embed_url : option string;
  likes : Z;
  shares : Z;
  comments : Z;
  source : string;
  external_url : option string;
  source_id : option string;      (* nullable, unique *)
  created_at : Z;                 (* auto_now_add *)
  updated_at : Z                  (* auto_now *)
}.

Definition total_engagement (t : Trend) : Z := likes t + shares t + comments t.

Definition CATEGORY_CHOICES : list (string * string) :=
  [("entertainment", "Entertainment"); ("technology", "Technology");
   ("sports", "Sports"); ("politics", "Politics"); ("fashion", "Fashion");
   ("music", "Music"); ("gaming", "Gaming"); ("food", "Food & Lifestyle");
   ("business", "Business"); ("science", "Science"); ("other", "Other")].

Definition PLATFORM_CHOICES : list (string * string) :=
  [("twitter", "Twitter/X"); ("tiktok", "TikTok"); ("instagram", "Instagram");
   ("youtube", "YouTube"); ("reddit", "Reddit"); ("linkedin", "LinkedIn");
   ("threads", "Threads")].

Definition VELOCITY_CHOICES : list (string * string) :=
  [("exploding", "Exploding"); ("rising", "Rising"); ("steady", "Steady");
   ("declining", "Declining")].

Definition SOURCE_CHOICES : list (string * string) :=
  [("manual", "Manual"); ("google_trends", "Google Trends"); ("news", "News");
   ("stocks", "Stocks"); ("youtube", "YouTube"); ("music", "Music")].

(** [velocity_color]: the colour of a velocity, grey for an unknown one. *)
(** [get_FOO_display()]: the label of the choice, or the value itself when
    it is none of the choices. *)
Definition get_display (choices : list (string * string)) (value : string)
  : string :=
  match dict_get value choices with
  | Some label => label
  | None => value
  end.

Definition get_category_display (t : Trend) : string :=
  get_display CATEGORY_CHOICES (category t).

Definition get_platform_display (t : Trend) : string :=
  get_display PLATFORM_CHOICES (platform t).

Definition velocity_color (t : Trend) : string :=
  match dict_get (velocity t)
          [("exploding", "#ff4444"); ("rising", "#ff8800");
           ("steady", "#00aa44"); ("declining", "#888888")] with
  | Some colour => colour
  | None => "#888888"
  end.

(** Rows that reference a [Trend] with [on_delete=CASCADE]. *)
Record SavedTrend : Type := mkSavedTrend {
  st_pk : Z;
  st_user : Z;
  st_trend : Z;
  saved_at : Z
}.

Record Comment : Type := mkComment {
  cm_pk : Z;
  cm_trend : Z;
  cm_author : Z;
  cm_text : string;
  cm_created_at : Z
}.

(** The tables.  [trends] lists the rows in the order in which the engine
    enumerates them: a query that asks for an order by score alone gets
    rows with equal scores in that order.  [next_pk] is the next value of
    the auto-increment key. *)
Record Database : Type := mkDatabase {
  trends : list Trend;
  saved_trends : list SavedTrend;
  trend_comments : list Comment;
  next_pk : Z
}.

(** [Trend.objects.count()]. *)
Definition count (db : Database) : Z := Z.of_nat (List.length (trends db)).

(** [qs.order_by('-score')]: this replaces the default ordering of [Meta],
    [['-score', '-created_at']]. *)
Definition order_by_score_desc (qs : list Trend) : list Trend :=
  sort_desc score qs.

(** [qs[:limit]] on a query set. *)
Definition limit_to (limit : Z) (qs : list Trend) : outcome (list Trend) :=
  if limit <? 0 then Raises (Exception "Negative indexing is not supported.")
  else Returns (firstn (Z.to_nat limit) qs).

Definition has_source_id (sid : string) (t : Trend) : bool :=
  match source_id t with
  | Some s => String.eqb s sid
  | None => false
  end.

Definition references (gone : list Trend) (trend_pk : Z) : bool :=
  existsb (fun t => pk t =? trend_pk) gone.

(** [Trend.objects.filter(doomed).delete()]: the rows go, and with them the
    rows of [SavedTrend] and [Comment] that reference them; the answer is
    the pair of the total number of rows deleted and the numbers per
    model. *)
Definition delete (doomed : Trend -> bool) (db : Database)
  : Database * (Z * dict Z) :=
  let gone := filter doomed (trends db) in
  let saved_gone :=
    filter (fun s => references gone (st_trend s)) (saved_trends db) in
  let comments_gone :=
    filter (fun c => references gone (cm_trend c)) (trend_comments db) in
  let n_trend := Z.of_nat (List.length gone) in
  let n_saved := Z.of_nat (List.length saved_gone) in
  let n_comment := Z.of_nat (List.length comments_gone) in
  ({| trends := filter (fun t => negb (doomed t)) (trends db);
      saved_trends :=
        filter (fun s => negb (references gone (st_trend s))) (saved_trends db);
      trend_comments :=
        filter (fun c => negb (references gone (cm_trend c)))
               (trend_comments db);
      next_pk := next_pk db |},
   (n_trend + n_saved + n_comment,
    [("trends.Comment", n_comment); ("trends.SavedTrend", n_saved);
     ("trends.Trend", n_trend)])).

(** The row that [Trend(source_id=sid, **defaults)] saves first. *)
Definition create_row (now : Z) (db : Database) (sid : string)
    (defaults : Candidate) : Trend :=
  {| pk := next_pk db;
     title := c_title defaults;
     category := c_category defaults;
     platform := c_platform defaults;
     description := c_description defaults;
     score := c_score defaults;
     velocity := c_velocity defaults;
     embed_url := None;
     likes := c_likes defaults;
     shares := c_shares defaults;
     comments := c_comments defaults;
     source := c_source defaults;
     external_url := Some (c_external_url defaults);
     source_id := Some sid;
     created_at := now;
     updated_at := now |}.

(** [setattr(obj, k, v)] for every key of [defaults], then [obj.save()]. *)
Definition update_row (now : Z) (obj : Trend) (defaults : Candidate) : Trend :=
  {| pk := pk obj;
     title := c_title defaults;
     category := c_category defaults;
     platform := c_platform defaults;
     description := c_description defaults;
     score := c_score defaults;
     velocity := c_velocity defaults;
     embed_url := embed_url obj;
     likes := c_likes defaults;
     shares := c_shares defaults;
     comments := c_comments defaults;
     source := c_source defaults;
     external_url := Some (c_external_url defaults);
     source_id := source_id obj;
     created_at := created_at obj;
     updated_at := now |}.

(** The outcome of [Trend.objects.get(...)]. *)
Inductive lookup : Type :=
| Found (t : Trend)
| DoesNotExist
| MultipleObjectsReturned (n : nat).

Definition get (passes : Trend -> bool) (d : Database) : lookup :=
  match filter passes (trends d) with
  | [] => DoesNotExist
  | [t] => Found t
  | (_ :: _ :: _) as found => MultipleObjectsReturned (List.length found)
  end.

Definition multiple_objects (model : string) (n : nat) : exn :=
  Exception ("get() returned more than one " ++ model ++ " -- it returned "
             ++ PyStr.of_nat n ++ "!").

Section Manager.

(** The engine's verdict on a row with these column values: the error it
    raises (a value too long for its column, say), or [None]. *)
Variable db_check : Candidate -> option exn.

(** [Trend.objects.update_or_create(source_id=sid, defaults=defaults)] at
    time [now]: the new tables, the object and whether it was created. *)
Definition update_or_create (now : Z) (db : Database) (sid : string)
    (defaults : Candidate) : outcome (Database * Trend * bool) :=
  match filter (has_source_id sid) (trends db) with
  | [] =>
      match db_check defaults with
      | Some e => Raises e
      | None =>
          let obj := create_row now db sid defaults in
          Returns ({| trends := trends db ++ [obj];
                      saved_trends := saved_trends db;
                      trend_comments := trend_comments db;
                      next_pk := next_pk db + 1 |}, obj, true)
      end
  | [old] =>
      match db_check defaults with
      | Some e => Raises e
      | None =>
          let obj := update_row now old defaults in
          Returns ({| trends :=
                        map (fun t => if has_source_id sid t then obj else t)
                            (trends db);
                      saved_trends := saved_trends db;
                      trend_comments := trend_comments db;
                      next_pk := next_pk db |}, obj, false)
      end
  | (_ :: _ :: _) as found =>
      Raises (Exception
                ("get() returned more than one Trend -- it returned "
                 ++ PyStr.of_nat (List.length found) ++ "!"))
  end.

End Manager.

End models.

(** ** services/trend_service.py *)

Module TrendService.

Import models.

(** Return top trending items by score. *)
Definition get_top_trends (db : Database) (limit : Z) : outcome (list Trend) :=
  limit_to limit (order_by_score_desc (trends db)).

(** Return filtered trends based on query params; an empty argument is
    falsy and adds no filter. *)
Definition get_filtered_trends (db : Database)
    (category_ search platform_ source_ : string) : list Trend :=
  let qs := trends db in
  let qs :=
    if PyStr.truthy category_
    then filter (fun t => String.eqb (category t) category_) qs else qs in
  let qs :=
    if PyStr.truthy platform_
    then filter (fun t => String.eqb (platform t) platform_) qs else qs in
  let qs :=
    if PyStr.truthy source_
    then filter (fun t => String.eqb (source t) source_) qs else qs in
  let qs :=
    if PyStr.truthy search
    then filter (fun t => PyStr.icontains (title t) search ||
                          PyStr.icontains (description t) search) qs
    else qs in
  order_by_score_desc qs.

(** The plain dicts handed to the chatbot. *)
Record ContextTrend : Type := mkContextTrend {
  x_title : string;
  x_category : string;
  x_platform : string;
  x_description : string;
  x_score : Q;
  x_velocity : string;
  x_likes : Z;
  x_shares : Z;
  x_comments : Z
}.

Definition context_of (t : Trend) : ContextTrend :=
  {| x_title := title t;
     x_category := category t;
     x_platform := platform t;
     x_description := PyStr.take 300 (description t);
     x_score := score t;
     x_velocity := velocity t;
     x_likes := likes t;
     x_shares := shares t;
     x_comments := comments t |}.

(** [query |= Q(title__icontains=kw) | Q(description__icontains=kw) |
    Q(category__icontains=kw)] for every keyword. *)
Definition keyword_query (keywords : list string) (t : Trend) : bool :=
  existsb (fun kw => PyStr.icontains (title t) kw ||
                     PyStr.icontains (description t) kw ||
                     PyStr.icontains (category t) kw) keywords.

(** Search trends by keyword list - used for chatbot context injection. *)
Definition search_trends_for_context (db : Database) (keywords : list string)
    (limit : Z) : outcome (list ContextTrend) :=
  match keywords with
  | [] => Returns []
  | _ :: _ =>
      match limit_to limit
              (order_by_score_desc (filter (keyword_query keywords) (trends db)))
      with
      | Returns found => Returns (map context_of found)
      | Raises e => Raises e
      end
  end.

(** Fetch a single trend by ID: [None] when there is none. *)
Definition get_trend_by_id (d : Database) (key : Z) : outcome (option Trend) :=
  match get (fun t => pk t =? key) d with
  | Found t => Returns (Some t)
  | DoesNotExist => Returns None
  | MultipleObjectsReturned n => Raises (multiple_objects "Trend" n)
  end.

(** Return related trends by category, excluding the current one. *)
Definition get_related_trends (d : Database) (trend : Trend) (limit : Z)
  : outcome (list Trend) :=
  limit_to limit
    (order_by_score_desc
       (filter (fun t => negb (pk t =? pk trend))
          (filter (fun t => String.eqb (category t) (category trend))
                  (trends d)))).

Definition trend_terms : list string :=
  ["trend"; "trending"; "viral"; "popular"; "hashtag"; "engagement";
   "platform"; "tiktok"; "instagram"; "twitter"; "youtube"; "reddit";
   "music"; "entertainment"; "sports"; "technology"; "fashion"; "gaming";
   "content"; "creator"; "post"; "reel"; "video"; "meme"].

Definition stopwords : list string :=
  ["what"; "how"; "why"; "when"; "where"; "is"; "are"; "the"; "a"; "an";
   "tell"; "me"; "about"; "show"; "can"; "you"; "give"; "your"; "its"; "of"].

(** [x in l]. *)
Definition mem (x : string) (l : list string) : bool :=
  existsb (String.eqb x) l.

Section Keywords.

(** [list(set(l))]: the distinct elements of [l], in the order in which
    the interpreter's hash table lists them. *)
Variable list_of_set : list string -> list string.

(** Simple keyword extraction from user question. *)
Definition extract_trend_keywords (question : string) : list string :=
  let question_lower := PyStr.lower question in
  let keywords :=
    filter (fun term => PyStr.contains term question_lower) trend_terms in
  let words := PyStr.split question_lower in
  let keywords :=
    (keywords ++
     filter (fun w => (3 <? String.length w)%nat && negb (mem w stopwords))
            words)%list in
  firstn 10 (list_of_set keywords).

End Keywords.

End TrendService.

(** ** trends/management/commands/fetch_live_trends.py *)

Module Command.

Import models live_data_service.

Record Options : Type := mkOptions {
  opt_source : option (list string);   (* [--source], repeated *)
  opt_clear : bool                      (* [--clear] *)
}.

(** The running state of [handle]: the tables, the number of writes tried
    so far (the clock is read once per write) and the lines written to
    standard output, without their colours. *)
Record Run : Type := mkRun {
  db : Database;
  tick : nat;
  stdout : list string
}.

Definition write (line : string) (r : Run) : Run :=
  mkRun (db r) (tick r) (stdout r ++ [line]).

(** [trend_data.pop('source_id', None)]: the value, and the dictionary
    without the key. *)
Definition pop_source_id (trend_data : Candidate)
  : option string * Candidate :=
  (c_source_id trend_data,
   {| c_title := c_title trend_data;
      c_category := c_category trend_data;
      c_platform := c_platform trend_data;
      c_description := c_description trend_data;
      c_score := c_score trend_data;
      c_velocity := c_velocity trend_data;
      c_likes := c_likes trend_data;
      c_shares := c_shares trend_data;
      c_comments := c_comments trend_data;
      c_source := c_source trend_data;
      c_external_url := c_external_url trend_data;
      c_source_id := None |}).

Section Handle.

Variable db_check : Candidate -> option exn.

(** The wall clock at the n-th write of the run. *)
Variable clock : nat -> Z.

(** One turn of the loop over [trend_list]: the state, the two counters
    of the source, and the dictionary as the turn leaves it. *)
Definition upsert (st : Run * Z * Z) (trend_data : Candidate)
  : (Run * Z * Z) * Candidate :=
  let '(r, created, updated) := st in
  let '(source_id, trend_data) := pop_source_id trend_data in
  match source_id with
  | None => (st, trend_data)
  | Some sid =>
      if negb (PyStr.truthy sid) then (st, trend_data)
      else
        match update_or_create db_check (clock (tick r)) (db r) sid trend_data
        with
        | Returns (db', obj, was_created) =>
            let r' := mkRun db' (S (tick r)) (stdout r) in
            if was_created
            then (write ("  ✓ NEW: " ++ PyStr.take 60 (title obj)) r',
                  created + 1, updated, trend_data)
            else (write ("  ↻ UPD: " ++ PyStr.take 60 (title obj)) r',
                  created, updated + 1, trend_data)
        | Raises e =>
            (write ("  ✗ Error: " ++ exn_str e)
                   (mkRun (db r) (S (tick r)) (stdout r)),
             created, updated, trend_data)
        end
  end.

Fixpoint upsert_all (st : Run * Z * Z) (trend_list : list Candidate)
  : (Run * Z * Z) * list Candidate :=
  match trend_list with
  | [] => (st, [])
  | trend_data :: rest =>
      let '(st', trend_data') := upsert st trend_data in
      let '(st'', rest') := upsert_all st' rest in
      (st'', trend_data' :: rest')
  end.

(** The loop over [results.items()]: the state, the two totals, and
    [results] as the loop leaves it. *)
Fixpoint reconcile (st : Run * Z * Z) (results : dict (list Candidate))
  : (Run * Z * Z) * dict (list Candidate) :=
  match results with
  | [] => (st, [])
  | (source_name, trend_list) :: rest =>
      let '(r, total_created, total_updated) := st in
      let '((r', created, updated), trend_list') :=
        upsert_all (r, 0, 0) trend_list in
      let r'' :=
        write ("  [" ++ source_name ++ "] " ++ PyStr.of_Z created
               ++ " created, " ++ PyStr.of_Z updated ++ " updated") r' in
      let '(st', rest') :=
        reconcile (r'', total_created + created, total_updated + updated) rest
      in (st', (source_name, trend_list') :: rest')
  end.

(** [Trend.objects.exclude(source='manual').delete()[0]]. *)
Definition clear (d : Database) : Database * Z :=
  let '(d', (deleted, _)) :=
    delete (fun t => negb (String.eqb (source t) "manual")) d in
  (d', deleted).

Definition handle (registry : dict Fetcher) (w : World) (options : Options)
    (d : Database) : M Run :=
  let sources :=
    match opt_source options with
    | Some ((_ :: _) as given) => given
    | _ => map fst registry
    end in
  let r := mkRun d 0 [] in
  let r :=
    if opt_clear options then
      let '(d', deleted) := clear d in
      write ("Cleared " ++ PyStr.of_Z deleted ++ " API-sourced trends.")
            (mkRun d' 0 [])
    else r in
  let r :=
    write (String "010" ("Fetching from: " ++ concat ", " sources
                         ++ String "010" "")) r in
  bind (fetch_all_live_trends registry w (Some sources)) (fun results =>
    let '((r, total_created, total_updated), _) :=
      reconcile (r, 0, 0) results in
    ret (write (String "010" ("✓ Done. " ++ PyStr.of_Z total_created
                              ++ " new, " ++ PyStr.of_Z total_updated
                              ++ " updated. Total in database: "
                              ++ PyStr.of_Z (count (db r)))) r)).

End Handle.

End Command.

(** * services/gemini_service.py *)

Module gemini_service.

Import models TrendService.

Definition nl : string := String "010" EmptyString.

(** [genai.GenerativeModel(model_name=..., system_instruction=...)
    .generate_content(prompt).text]: the text, or what one of the three
    steps raises. *)
Definition GenerativeModel : Type :=
  string -> option string -> string -> outcome string.

(** The setting and the library that the service reads: [genai] is what
    [import google.generativeai as genai] and [genai.configure(...)] leave,
    the library or the exception that one of them raises. *)
Record Gemini : Type := mkGemini {
  GEMINI_API_KEY : string;
  genai : outcome GenerativeModel
}.

(** Models to try in order of preference. *)
Definition models_to_try : list string :=
  ["gemini-2.0-flash"; "gemini-1.5-flash"; "gemini-pro"].

(** [str(last_error)]. *)
Definition str_last (last_error : option exn) : string :=
  match last_error with
  | Some e => exn_str e
  | None => "None"
  end.

(** The body of the inner [try]: gemini-pro doesn't support
    [system_instruction]. *)
Definition generate_content (generate : GenerativeModel)
    (sys_text prompt model_name : string) : outcome string :=
  if String.eqb model_name "gemini-pro"
  then generate model_name None
         ("System: " ++ sys_text ++ nl ++
          nl ++
          prompt)
  else generate model_name (Some sys_text) prompt.

(** ['resourceexhausted' in err_str or '429' in err_str]. *)
Definition quota_exhausted (model_err : exn) : bool :=
  let err_str := PyStr.lower (exn_str model_err) in
  PyStr.contains "resourceexhausted" err_str || PyStr.contains "429" err_str.

(** The loop over [models_to_try]. *)
Fixpoint try_models (generate : GenerativeModel) (sys_text prompt : string)
    (models : list string) (last_error : option exn)
  : option string * list LogRecord :=
  match models with
  | [] =>
      (None,
       [(ERROR, "All Gemini models failed. Last error: " ++ str_last last_error)])
  | model_name :: rest =>
      match generate_content generate sys_text prompt model_name with
      | Returns text => (Some text, [])
      | Raises model_err =>
          if quota_exhausted model_err
          then (Some "__QUOTA_EXHAUSTED__",
                [(WARNING,
                  "Gemini quota exhausted on " ++ model_name ++ ": " ++
                  exn_str model_err)])
          else
            let '(result, log) :=
              try_models generate sys_text prompt rest (Some model_err) in
            (result,
             (INFO,
              "Model " ++ model_name ++ " failed: " ++ exn_str model_err ++
              ", trying next...")
             :: log)
      end
  end.

(** [system_instruction or "You are a helpful trend intelligence
    assistant."]. *)
Definition sys_text_of (system_instruction : option string) : string :=
  match system_instruction with
  | Some s =>
      if PyStr.truthy s then s
      else "You are a helpful trend intelligence assistant."
  | None => "You are a helpful trend intelligence assistant."
  end.

(** Core Gemini API call. Returns response text or None on failure. *)
Definition _call_gemini (g : Gemini) (prompt : string)
    (system_instruction : option string) : option string * list LogRecord :=
  match genai g with
  | Returns generate =>
      let sys_text := sys_text_of system_instruction in
      try_models generate sys_text prompt models_to_try None
  | Raises (ImportError _) =>
      (None,
       [(WARNING,
         "google-generativeai not installed. Run: pip install google-generativeai")])
  | Raises e =>
      (None, [(ERROR, "Gemini API error: " ++ exn_str e)])
  end.

Definition TREND_ASSISTANT_SYSTEM : string :=
  nl ++
  "You are a Trend Intelligence Assistant for TrendZee." ++ nl ++
  "Your ONLY job is to analyze trend data provided to you." ++ nl ++
  "Do NOT answer questions unrelated to trends, social media, " ++
  "or the data provided." ++ nl ++
  "Be concise, insightful, and data-driven in your responses." ++ nl ++
  "Format your responses in clean readable paragraphs." ++ nl.

(** Mock responses for demo mode (no API key). *)
Definition _mock_trend_explanation (trend : Trend) (quota_exhausted : bool)
  : string :=
  let footer :=
    if quota_exhausted
    then nl ++
         nl ++
         "*(‚ö†Ô∏è Gemini API daily quota exhausted. Showing cached " ++
         "analysis. Quota resets within 24 hours.)*"
    else nl ++
         nl ++
         "*(AI-generated analysis ‚Äî powered by TrendZee " ++
         "Intelligence Engine)*" in
  "**" ++ title trend ++ "** is gaining significant traction across " ++
  get_platform_display trend ++ " with an engagement score of " ++
  PyFormat.fixed 1 (score trend) ++ ". The trend falls under the " ++
  get_category_display trend ++ " category, which is currently showing " ++
  velocity trend ++ " velocity." ++ nl ++
  nl ++
  "The content resonates strongly with its target audience due " ++
  "to its timely relevance and highly shareable nature. With " ++
  PyFormat.commas (likes trend) ++ " likes, " ++
  PyFormat.commas (shares trend) ++ " shares, and " ++
  PyFormat.commas (comments trend) ++
  " comments, the engagement rate suggests authentic audience " ++
  "connection rather than passive consumption." ++ nl ++
  nl ++
  "This trend is particularly effective because it taps into " ++
  "current cultural conversations and provides users with " ++
  "content they feel compelled to share within their own " ++
  "networks. The " ++ velocity trend ++
  " velocity indicator suggests this trend has significant " ++
  "staying power in the immediate term." ++ footer.

Definition _mock_creator_insights (trend : Trend) : string :=
  "## Creator Strategy Insights for " ++ dquote ++ title trend ++ dquote ++
  nl ++
  nl ++
  "**Suggested Hashtags**" ++ nl ++
  "#" ++ category trend ++ " #trending #viral #" ++ platform trend ++
  " #contentcreator #trending2025 " ++ nl ++
  "#socialmedia #engagement #" ++ category trend ++
  "content #trendalert #viralcontent #explore" ++ nl ++
  nl ++
  "**Caption Format**" ++ nl ++
  "Hook: Start with a bold statement or question that " ++
  "addresses the trend directly." ++ nl ++
  "Body: Share your unique angle or perspective on " ++ dquote ++
  title trend ++ dquote ++ " ‚Äî add value, humor, or education." ++ nl ++
  "CTA: " ++ dquote ++
  "Follow for more [category] trends | Drop your thoughts " ++ "below üëá" ++
  dquote ++ nl ++
  nl ++
  "**Target Audience**" ++ nl ++
  "Primary: 18-34 year-olds active on " ++ get_platform_display trend ++
  ", interested in " ++ get_category_display trend ++ " content." ++ nl ++
  "Secondary: Content creators and marketers looking to " ++
  "capitalize on trending topics." ++ nl ++
  nl ++
  "**Content Strategy**" ++ nl ++
  "- Format: Short-form video (15-60 seconds) performs best " ++
  "for this trend type" ++ nl ++
  "- Timing: Post between 6-9 PM local time for maximum " ++
  "initial reach" ++ nl ++
  "- Frequency: 1-2 posts per day while trend velocity is " ++
  velocity trend ++ nl ++
  "- Hook your audience in the first 3 seconds" ++ nl ++
  nl ++
  "**Engagement Tactics**" ++ nl ++
  "- Reply to every comment within the first hour of posting" ++ nl ++
  "- Use the trend's primary hashtag as the first comment" ++ nl ++
  "- Cross-post across platforms to maximize reach" ++ nl ++
  "- Collaborate with mid-tier creators in the " ++
  get_category_display trend ++ " space" ++ nl ++
  nl ++
  "*(AI-generated insights ‚Äî powered by TrendZee " ++
  "Intelligence Engine)*".

Definition _mock_chatbot_response (question : string)
    (trends : list ContextTrend) : string :=
  match trends with
  | _ :: _ =>
      let trend_names := String.concat ", " (map x_title (firstn 3 trends)) in
      "Based on current trend data, here's what I found relevant " ++
      "to your question:" ++ nl ++
      nl ++
      "The most relevant trending topics are: **" ++ trend_names ++
      "**. These are currently showing strong engagement signals " ++
      "on our platform. Would you like me to dive deeper into any " ++
      "of these specific trends, their engagement patterns, or " ++
      "content strategy recommendations?" ++ nl ++
      nl ++
      "*(AI analysis ‚Äî powered by TrendZee Intelligence Engine)*"
  | [] =>
      "I'm your Trend Intelligence Assistant. I can help you " ++
      "understand trending topics, analyze engagement patterns, " ++
      "and develop content strategies based on real trend data. " ++
      "Try asking me about specific categories like 'What's " ++
      "trending in tech?' or 'What makes gaming content go viral?'" ++ nl ++
      nl ++
      "*(AI analysis ‚Äî powered by TrendZee Intelligence Engine)*"
  end.

(** One message of the history that the client sends: [msg.get('role')] and
    [msg.get('content')], [None] for a missing key. *)
Record Message : Type := mkMessage {
  msg_role : option string;
  msg_content : option string
}.

Definition trend_related_terms : list string :=
  ["trend"; "viral"; "popular"; "hashtag"; "engagement"; "platform";
   "social"; "content"; "creator"; "post"; "reel"; "video"; "tiktok";
   "instagram"; "twitter"; "youtube"; "reddit"; "music"; "sports";
   "gaming"; "fashion"; "technology"; "entertainment"; "meme"; "marketing";
   "audience"; "reach"; "impressions"; "influencer"; "analytics"].

(** The three fixed answers of the chatbot. *)
Definition refusal : string :=
  "I can only answer questions related to trend data and " ++
  "social media intelligence available on this platform. " ++
  "Please ask me about trends, viral content, engagement " ++
  "strategies, or specific categories like entertainment, " ++
  "technology, sports, etc.".

Definition quota_message : string :=
  "‚ö†Ô∏è The AI service has reached its daily usage limit. " ++
  "Your Gemini API key is valid but the free tier quota is " ++
  "exhausted. Please wait for the quota to reset (usually " ++
  "within 24 hours), or enable billing at " ++
  "https://ai.google.dev/ for higher limits.".

Definition trouble : string :=
  "I'm having trouble processing your request right now. " ++
  "Please try again.".

Module GeminiService.

Section Service.

(** [str(x)] for a float, as an f-string prints it. *)
Variable repr : Q -> string.

(** [list(set(l))], for [TrendService.extract_trend_keywords]. *)
Variable list_of_set : list string -> list string.

(** [result or fallback]. *)
Definition or_else (result : option string) (fallback : string) : string :=
  match result with
  | Some text => if PyStr.truthy text then text else fallback
  | None => fallback
  end.

(** [result == '__QUOTA_EXHAUSTED__']. *)
Definition is_quota (result : option string) : bool :=
  match result with
  | Some text => String.eqb text "__QUOTA_EXHAUSTED__"
  | None => false
  end.

(** Generate AI explanation for why a trend is gaining traction. *)
Definition explain_trend (g : Gemini) (trend : Trend)
  : string * list LogRecord :=
  if negb (PyStr.truthy (GEMINI_API_KEY g))
  then (_mock_trend_explanation trend false, [])
  else
    let prompt :=
      nl ++
      "        Analyze this social media trend and explain why it " ++
      "is gaining traction:" ++ nl ++
      nl ++
      "        Title: " ++ title trend ++ nl ++
      "        Category: " ++ category trend ++ nl ++
      "        Platform: " ++ platform trend ++ nl ++
      "        Description: " ++ description trend ++ nl ++
      "        Engagement Score: " ++ repr (score trend) ++ nl ++
      "        Velocity: " ++ velocity trend ++ nl ++
      "        Likes: " ++ PyFormat.commas (likes trend) ++ nl ++
      "        Shares: " ++ PyFormat.commas (shares trend) ++ nl ++
      "        Comments: " ++ PyFormat.commas (comments trend) ++ nl ++
      nl ++
      "        Provide a clear, insightful analysis of:" ++ nl ++
      "        1. Why this trend is gaining momentum" ++ nl ++
      "        2. What audience it appeals to" ++ nl ++
      "        3. What makes it shareable/viral" ++ nl ++
      "        Keep your response to 3-4 concise paragraphs." ++ nl ++
      "        " in
    let '(result, log) :=
      _call_gemini g prompt (Some TREND_ASSISTANT_SYSTEM) in
    if is_quota result then (_mock_trend_explanation trend true, log)
    else (or_else result (_mock_trend_explanation trend false), log).

(** Generate creator strategy insights for premium users. *)
Definition get_creator_insights (g : Gemini) (trend : Trend)
  : string * list LogRecord :=
  if negb (PyStr.truthy (GEMINI_API_KEY g))
  then (_mock_creator_insights trend, [])
  else
    let prompt :=
      nl ++
      "        Generate comprehensive creator strategy insights " ++
      "for this trend:" ++ nl ++
      nl ++
      "        Title: " ++ title trend ++ nl ++
      "        Category: " ++ category trend ++ nl ++
      "        Platform: " ++ platform trend ++ nl ++
      "        Description: " ++ description trend ++ nl ++
      "        Engagement Score: " ++ repr (score trend) ++ nl ++
      "        Total Engagement: " ++
      PyFormat.commas (total_engagement trend) ++ nl ++
      "        Velocity: " ++ velocity trend ++ nl ++
      nl ++
      "        Provide:" ++ nl ++
      "        1. **Suggested Hashtags** (10-15 relevant hashtags)" ++ nl ++
      "        2. **Caption Format** (hook + body + CTA structure)" ++ nl ++
      "        3. **Target Audience** (demographics and " ++
      "psychographics)" ++ nl ++
      "        4. **Content Strategy** (format, timing, frequency " ++
      "recommendations)" ++ nl ++
      "        5. **Engagement Tactics** (specific actions to " ++
      "boost interaction)" ++ nl ++
      nl ++
      "        Format the response with clear headings for each " ++
      "section." ++ nl ++
      "        Be specific and actionable." ++ nl ++
      "        " in
    let '(result, log) :=
      _call_gemini g prompt (Some TREND_ASSISTANT_SYSTEM) in
    (or_else result (_mock_creator_insights trend), log).

(** [any(term in q_lower for term in trend_related_terms)]. *)
Definition is_relevant (question : string) : bool :=
  let q_lower := PyStr.lower question in
  existsb (fun term => PyStr.contains term q_lower) trend_related_terms.

(** Build context from relevant trends. *)
Definition context_of_trends (relevant_trends : list ContextTrend) : string :=
  match relevant_trends with
  | _ :: _ =>
      snd (fold_left
             (fun '(i, context_str) t =>
                (S i,
                 context_str ++
                 (PyStr.of_nat i ++ ". **" ++ x_title t ++ "** (" ++
                 x_platform t ++ " | " ++ x_category t ++ ")" ++ nl ++
                 "   Score: " ++ repr (x_score t) ++ " | Velocity: " ++
                 x_velocity t ++ nl ++
                 "   " ++ PyStr.take 200 (x_description t) ++ nl ++
                 nl)))
             relevant_trends
             (1%nat,
              "Here are the relevant trends from our platform:" ++ nl ++
              nl))
  | [] =>
      "No directly matching trends found for your query, but I can " ++
      "answer based on general trend intelligence." ++ nl
  end.

(** Build conversation history for multi-turn: the last 3 exchanges. *)
Definition history_of (history : list Message) : string :=
  fold_left
    (fun history_str msg =>
       let role := match msg_role msg with Some r => r | None => "user" end in
       let content :=
         match msg_content msg with Some c => c | None => "" end in
       history_str ++ (PyStr.capitalize role ++ ": " ++ content ++ nl))
    (skipn (List.length history - 6) history)
    "".

(** Restricted chatbot - only answers trend-related questions.  Injects
    relevant trend context before calling Gemini. *)
Definition chatbot_response (g : Gemini) (d : Database) (question : string)
    (history : list Message) : outcome string * list LogRecord :=
  let keywords := extract_trend_keywords list_of_set question in
  match search_trends_for_context d keywords 5 with
  | Raises e => (Raises e, [])
  | Returns relevant_trends =>
      if negb (is_relevant question) &&
         match relevant_trends with [] => true | _ :: _ => false end
      then
        (Returns refusal, [])
      else if negb (PyStr.truthy (GEMINI_API_KEY g))
      then (Returns (_mock_chatbot_response question relevant_trends), [])
      else
        let context_str := context_of_trends relevant_trends in
        let history_str := history_of history in
        let system :=
          nl ++
          "        You are TrendZee's Trend Intelligence Assistant." ++ nl ++
          "        You ONLY answer questions about social media " ++
          "trends, engagement, content strategy, and the data " ++
          "provided." ++ nl ++
          "        If asked about anything unrelated to trends, " ++
          "politely decline." ++ nl ++
          "        Be concise, insightful, and reference the provided " ++
          "trend data when relevant." ++ nl ++
          "        " in
        let prompt :=
          nl ++
          "        " ++ context_str ++ nl ++
          nl ++
          "        Previous conversation:" ++ nl ++
          "        " ++ history_str ++ nl ++
          nl ++
          "        User question: " ++ question ++ nl ++
          nl ++
          "        Answer based only on the trend data and your " ++
          "knowledge of social media trends." ++ nl ++
          "        " in
        let '(result, log) := _call_gemini g prompt (Some system) in
        if is_quota result then (Returns quota_message, log)
        else (Returns (or_else result trouble), log)
  end.

End Service.

End GeminiService.

End gemini_service.

(** * django.core.paginator, as [Paginator(object_list, per_page)] with its
    defaults [orphans=0] and [allow_empty_first_page=True] *)

Module Paginator.

Inductive invalid_page : Type := PageNotAnInteger | EmptyPage.

Record Page (A : Type) : Type := mkPage {
  object_list : list A;
  number : Z
}.
Arguments mkPage {A} object_list number.
Arguments object_list {A} p.
Arguments number {A} p.

Section Pages.

Context {A : Type}.
Variable objects : list A.
Variable per_page : Z.

Definition count : Z := Z.of_nat (List.length objects).

(** [ceil(hits / per_page)] with [hits = max(1, count - orphans)]. *)
Definition num_pages : Z :=
  let hits := Z.max 1 (count - 0) in
  (hits + per_page - 1) / per_page.

(** [number] is what [int(number)] makes of the argument, [None] when it
    raises. *)
Definition validate_number (number : option Z) : Z + invalid_page :=
  match number with
  | None => inr PageNotAnInteger
  | Some number =>
      if number <? 1 then inr EmptyPage
      else if num_pages <? number then inr EmptyPage
      else inl number
  end.

(** [object_list[bottom:top]] for indices that are not negative. *)
Definition slice (bottom top : Z) : list A :=
  firstn (Z.to_nat top - Z.to_nat bottom) (skipn (Z.to_nat bottom) objects).

Definition page (number : option Z) : Page A + invalid_page :=
  match validate_number number with
  | inr e => inr e
  | inl number =>
      let bottom := (number - 1) * per_page in
      let top := bottom + per_page in
      let top := if count <=? top + 0 then count else top in
      inl (mkPage (slice bottom top) number)
  end.

(** Return a valid page, even if the page argument isn't a number or isn't
    in range. *)
Definition get_page (number : option Z) : Page A + invalid_page :=
  let number :=
    match validate_number number with
    | inl number => number
    | inr PageNotAnInteger => 1
    | inr EmptyPage => num_pages
    end in
  page (Some number).

End Pages.

End Paginator.

(** * trends/views.py *)

Module views.

Import models TrendService gemini_service.

(** The user of a request: [None] is the anonymous user. *)
Record User : Type := mkUser {
  user_pk : Z;
  is_premium : bool
}.

(** The payload of a [JsonResponse]. *)
#[local] Set Warnings "-register-all".
Inductive json : Type :=
| JBool (b : bool)
| JInt (n : Z)
| JString (s : string)
| JObject (members : list (string * json)).
#[local] Set Warnings "register-all".

Inductive HttpResponse : Type :=
| JsonResponse (data : list (string * json)) (status : Z)
| HttpResponseNotAllowed (permitted_methods : list string)
| redirect_to_login
| Http404.

(** What [json.loads(request.body)] gives: no JSON at all, or an object with
    its members ['question'] and ['history']. *)
Inductive Body : Type :=
| JSONDecodeError
| Data (question : option string) (history : option (list Message)).

Record HttpRequest : Type := mkHttpRequest {
  method : string;
  user : option User;
  GET : dict string;
  POST : dict string;
  body : Body;
  (** [request.session.get('chatbot_timestamps', [])] *)
  chatbot_timestamps : list Q
}.

(** The tables and the keys that the two other tables hand out next. *)
Record Site : Type := mkSite {
  tables : Database;
  next_saved_pk : Z;
  next_comment_pk : Z
}.

Definition with_tables (site : Site) (d : Database) : Site :=
  {| tables := d;
     next_saved_pk := next_saved_pk site;
     next_comment_pk := next_comment_pk site |}.

(** [request.GET.get(key, '')]. *)
Definition get_or_empty (key : string) (query : dict string) : string :=
  match dict_get key query with
  | Some value => value
  | None => ""
  end.

(** [@login_required @require_POST def view(request, pk)], up to
    [get_object_or_404(Trend, pk=pk)]. *)
Definition post_on_trend (site : Site) (request : HttpRequest) (key : Z)
    (view : User -> Trend -> outcome HttpResponse * Site)
  : outcome HttpResponse * Site :=
  match user request with
  | None => (Returns redirect_to_login, site)
  | Some u =>
      if negb (String.eqb (method request) "POST")
      then (Returns (HttpResponseNotAllowed ["POST"]), site)
      else
        match get (fun t => pk t =? key) (tables site) with
        | DoesNotExist => (Returns Http404, site)
        | MultipleObjectsReturned n =>
            (Raises (multiple_objects "Trend" n), site)
        | Found trend => view u trend
        end
  end.

Definition saved_by (u : User) (trend : Trend) (s : SavedTrend) : bool :=
  (st_user s =? user_pk u) && (st_trend s =? pk trend).

Definition toggle_save_trend (now : Z) (site : Site) (request : HttpRequest)
    (key : Z) : outcome HttpResponse * Site :=
  post_on_trend site request key (fun u trend =>
    let d := tables site in
    (* SavedTrend.objects.get_or_create(user=request.user, trend=trend) *)
    match filter (saved_by u trend) (saved_trends d) with
    | [] =>
        let saved := mkSavedTrend (next_saved_pk site) (user_pk u) (pk trend)
                       now in
        (Returns (JsonResponse
                    [("saved", JBool true);
                     ("message", JString "Trend saved successfully")] 200),
         {| tables :=
              {| trends := trends d;
                 saved_trends := (saved_trends d ++ [saved])%list;
                 trend_comments := trend_comments d;
                 next_pk := next_pk d |};
            next_saved_pk := next_saved_pk site + 1;
            next_comment_pk := next_comment_pk site |})
    | [saved] =>
        (* saved.delete() *)
        (Returns (JsonResponse
                    [("saved", JBool false);
                     ("message", JString "Trend removed from saved")] 200),
         with_tables site
           {| trends := trends d;
              saved_trends :=
                filter (fun s => negb (st_pk s =? st_pk saved))
                       (saved_trends d);
              trend_comments := trend_comments d;
              next_pk := next_pk d |})
    | (_ :: _ :: _) as found =>
        (Raises (multiple_objects "SavedTrend" (List.length found)), site)
    end).

Section AddComment.

(** [user.display_name] and [created_at.strftime('%b %d, %Y %H:%M')]. *)
Variable display_name : Z -> string.
Variable strftime : Z -> string.

Definition add_comment (now : Z) (site : Site) (request : HttpRequest)
    (key : Z) : outcome HttpResponse * Site :=
  post_on_trend site request key (fun u trend =>
    let d := tables site in
    let text := PyStr.strip (get_or_empty "text" (POST request)) in
    if negb (PyStr.truthy text)
    then (Returns (JsonResponse
                     [("error", JString "Comment cannot be empty")] 400),
          site)
    else if (1000 <? String.length text)%nat
    then (Returns (JsonResponse
                     [("error",
                       JString "Comment too long (max 1000 characters)")]
                     400),
          site)
    else
      let comment := mkComment (next_comment_pk site) (pk trend) (user_pk u)
                       text now in
      (Returns (JsonResponse
                  [("success", JBool true);
                   ("comment",
                    JObject
                      [("id", JInt (cm_pk comment));
                       ("author", JString (display_name (cm_author comment)));
                       ("text", JString (cm_text comment));
                       ("created_at",
                        JString (strftime (cm_created_at comment)))])] 200),
       {| tables :=
            {| trends := trends d;
               saved_trends := saved_trends d;
               trend_comments := (trend_comments d ++ [comment])%list;
               next_pk := next_pk d |};
          next_saved_pk := next_saved_pk site;
          next_comment_pk := next_comment_pk site + 1 |})).

End AddComment.

Module ChatbotView.

(** max requests per minute *)
Definition RATE_LIMIT : nat := 20.

Section Post.

Variable repr : Q -> string.
Variable list_of_set : list string -> list string.

(** [post], behind the [login_required] of [dispatch]; [now] is
    [time.time()].  The second component is the session's
    ['chatbot_timestamps'] after the request. *)
Definition post (now : Q) (g : Gemini) (d : Database) (request : HttpRequest)
  : (outcome HttpResponse * list LogRecord) * list Q :=
  match user request with
  | None => ((Returns redirect_to_login, []), chatbot_timestamps request)
  | Some _ =>
      let timestamps :=
        filter (fun t => PyNum.Qlt_bool (now - t) 60)
               (chatbot_timestamps request) in
      if (RATE_LIMIT <=? List.length timestamps)%nat
      then
        ((Returns
            (JsonResponse
               [("error",
                 JString
                   "Rate limit exceeded. Please wait a moment before sending another message.")]
               429), []),
         chatbot_timestamps request)
      else
        let timestamps := (timestamps ++ [now])%list in
        match body request with
        | JSONDecodeError =>
            ((Returns (JsonResponse [("error", JString "Invalid request")]
                         400), []),
             timestamps)
        | Data question history =>
            let question :=
              PyStr.strip
                (match question with Some q => q | None => "" end) in
            let history :=
              match history with Some h => h | None => [] end in
            if negb (PyStr.truthy question)
            then
              ((Returns
                  (JsonResponse
                     [("error", JString "Question cannot be empty")] 400),
                []),
               timestamps)
            else
              match GeminiService.chatbot_response repr list_of_set g d
                      question history with
              | (Returns response, log) =>
                  ((Returns (JsonResponse [("response", JString response)]
                               200), log),
                   timestamps)
              | (Raises e, log) => ((Raises e, log), timestamps)
              end
        end
  end.

End Post.

End ChatbotView.

Module DashboardView.

Record Context : Type := mkContext {
  page_obj : Paginator.Page Trend;
  top_trends : list Trend;
  selected_category : string;
  selected_platform : string;
  selected_source : string;
  search_query : string;
  saved_ids : list Z
}.

Section Get.

(** [int(s)]: [None] when it raises [ValueError]. *)
Variable int : string -> option Z.

(** The context that [get] hands to the template; ['categories'],
    ['platforms'] and ['sources'] are the choices of the model. *)
Definition get (d : Database) (request : HttpRequest)
  : outcome Context :=
  let category := get_or_empty "category" (GET request) in
  let search := get_or_empty "search" (GET request) in
  let platform := get_or_empty "platform" (GET request) in
  let source := get_or_empty "source" (GET request) in
  let trends := get_filtered_trends d category search platform source in
  match get_top_trends d 10 with
  | Raises e => Raises e
  | Returns top_trends =>
      let page_number :=
        match dict_get "page" (GET request) with
        | Some s => int s
        | None => Some 1
        end in
      match Paginator.get_page trends 20 page_number with
      | inr Paginator.PageNotAnInteger =>
          Raises (Exception "That page number is not an integer")
      | inr Paginator.EmptyPage =>
          Raises (Exception "That page contains no results")
      | inl page_obj =>
          let saved_ids :=
            match user request with
            | Some u =>
                (* Meta.ordering of SavedTrend: ['-saved_at'] *)
                map st_trend
                  (sort_desc (fun s => inject_Z (saved_at s))
                     (filter (fun s => st_user s =? user_pk u)
                             (saved_trends d)))
            | None => []
            end in
          Returns {| page_obj := page_obj;
                     top_trends := top_trends;
                     selected_category := category;
                     selected_platform := platform;
                     selected_source := source;
                     search_query := search;
                     saved_ids := saved_ids |}
      end
  end.

End Get.

End DashboardView.

Module TrendDetailView.

Record Context : Type := mkContext {
  trend : Trend;
  ai_explanation : string;
  is_saved : bool;
  related_trends : list Trend;
  comments : list Comment
}.

Section Get.

Variable repr : Q -> string.

(** The context that [get] hands to the template, [None] when
    [get_object_or_404] raises [Http404]. *)
Definition get (g : Gemini) (d : Database) (request : HttpRequest) (key : Z)
  : outcome (option Context) * list LogRecord :=
  match models.get (fun t => pk t =? key) d with
  | DoesNotExist => (Returns None, [])
  | MultipleObjectsReturned n => (Raises (multiple_objects "Trend" n), [])
  | Found trend =>
      let '(ai_explanation, log) := GeminiService.explain_trend repr g trend in
      let is_saved :=
        match user request with
        | Some u => existsb (saved_by u trend) (saved_trends d)
        | None => false
        end in
      let related_trends :=
        firstn 5
          (order_by_score_desc
             (filter (fun t => negb (pk t =? key))
                (filter (fun t => String.eqb (category t) (category trend))
                        (trends d)))) in
      (* Meta.ordering of Comment: ['-created_at'] *)
      let comments :=
        firstn 50
          (sort_desc (fun c => inject_Z (cm_created_at c))
             (filter (fun c => cm_trend c =? pk trend) (trend_comments d))) in
      (Returns (Some {| trend := trend;
                        ai_explanation := ai_explanation;
                        is_saved := is_saved;
                        related_trends := related_trends;
                        comments := comments |}), log)
  end.

End Get.

End TrendDetailView.

Module CreatorInsightsView.

(** What [get] answers: a redirect, a 404, or the template with its
    context. *)
Inductive Response : Type :=
| login
| redirect (to : string)
| not_found
| render (trend : Trend) (insights : string).

Section Get.

Variable repr : Q -> string.

(** [get], behind the [login_required] of [dispatch]. *)
Definition get (g : Gemini) (d : Database) (request : HttpRequest) (key : Z)
  : outcome Response * list LogRecord :=
  match user request with
  | None => (Returns login, [])
  | Some u =>
      if negb (is_premium u) then (Returns (redirect "upgrade"), [])
      else
        match models.get (fun t => pk t =? key) d with
        | DoesNotExist => (Returns not_found, [])
        | MultipleObjectsReturned n =>
            (Raises (multiple_objects "Trend" n), [])
        | Found trend =>
            let '(insights, log) :=
              GeminiService.get_creator_insights repr g trend in
            (Returns (render trend insights), log)
        end
  end.

End Get.

End CreatorInsightsView.

End views.

(** * trends/management/commands/seed_trends.py *)

Module seed_trends.

Import models.

(** One dictionary of [SAMPLE_TRENDS]. *)
Record Sample : Type := mkSample {
  s_title : string;
  s_category : string;
  s_platform : string;
  s_description : string;
  s_score : Q;
  s_velocity : string;
  s_likes : Z;
  s_shares : Z;
  s_comments : Z
}.

Definition SAMPLE_TRENDS : list Sample :=
  [
    {| s_title := "AI-Generated Music Takes Over Streaming";
       s_category := "music"; s_platform := "tiktok";
       s_description :=
         "AI-composed tracks are dominating TikTok trends, with creators " ++
         "using tools like Suno and Udio to produce chart-ready music in " ++
         "minutes. The debate around authenticity vs. accessibility is " ++
         "splitting the creator community.";
       s_score := (982 # 10); s_velocity := "exploding";
       s_likes := 2400000; s_shares := 890000; s_comments := 340000 |};
    {| s_title := "Quiet Luxury Aesthetic Returns";
       s_category := "fashion"; s_platform := "instagram";
       s_description :=
         "Understated, high-quality fashion is back with force. Think " ++
         "neutral tones, minimal logos, and investment pieces. The " ++
         "anti-fast-fashion movement is driving this renewed interest in " ++
         "'old money' aesthetics.";
       s_score := (947 # 10); s_velocity := "rising";
       s_likes := 1800000; s_shares := 620000; s_comments := 280000 |};
    {| s_title := "Neural Interface Gaming Demos";
       s_category := "gaming"; s_platform := "youtube";
       s_description :=
         "Early demonstrations of brain-computer interface gaming are " ++
         "going viral. Companies like Neuralink adjacent startups are " ++
         "showcasing rudimentary but mind-bending gameplay controlled " ++
         "purely by thought.";
       s_score := (913 # 10); s_velocity := "exploding";
       s_likes := 3200000; s_shares := 1200000; s_comments := 560000 |};
    {| s_title := "Deinfluencing 2.0 — Anti-Haul Culture";
       s_category := "entertainment"; s_platform := "tiktok";
       s_description :=
         "Creators are doubling down on telling audiences what NOT to " ++
         "buy. The anti-haul genre is growing as consumers push back " ++
         "against overconsumption, with some creators gaining millions " ++
         "of followers for honest product reviews.";
       s_score := (879 # 10); s_velocity := "rising";
       s_likes := 1400000; s_shares := 780000; s_comments := 410000 |};
    {| s_title := "SpaceX Starship Commercial Launch Reaction";
       s_category := "science"; s_platform := "twitter";
       s_description :=
         "The first commercial passengers aboard Starship generated " ++
         "massive social media engagement. Live reactions, debate about " ++
         "democratizing space travel, and viral clips of the launch are " ++
         "dominating feeds across platforms.";
       s_score := (854 # 10); s_velocity := "rising";
       s_likes := 5600000; s_shares := 2100000; s_comments := 890000 |};
    {| s_title := "Microlearning Business Content";
       s_category := "business"; s_platform := "linkedin";
       s_description :=
         "60-second business strategy breakdowns are outperforming " ++
         "long-form LinkedIn posts. Creators who distill complex " ++
         "frameworks into tight visual formats are gaining massive " ++
         "professional following growth.";
       s_score := (821 # 10); s_velocity := "rising";
       s_likes := 890000; s_shares := 340000; s_comments := 120000 |};
    {| s_title := "Cottagecore Cuisine Revival";
       s_category := "food"; s_platform := "instagram";
       s_description :=
         "Rustic, homemade aesthetic cooking content is surging. Think " ++
         "sourdough, foraged ingredients, preserved goods, and " ++
         "farmhouse-style presentations. The movement represents a " ++
         "retreat from hypermodern food content.";
       s_score := (796 # 10); s_velocity := "steady";
       s_likes := 1100000; s_shares := 430000; s_comments := 195000 |};
    {| s_title := "Retro Tech Aesthetic — Landline Comeback";
       s_category := "technology"; s_platform := "tiktok";
       s_description :=
         "Gen Z ironic nostalgia for pre-smartphone technology is " ++
         "driving demand for vintage tech. Landline phones, film " ++
         "cameras, and early internet aesthetics are being rebranded as " ++
         "premium lifestyle choices.";
       s_score := (763 # 10); s_velocity := "steady";
       s_likes := 920000; s_shares := 380000; s_comments := 167000 |};
    {| s_title := "NBA Trade Deadline Reactions";
       s_category := "sports"; s_platform := "twitter";
       s_description :=
         "This year's deadline produced blockbuster moves that " ++
         "reshuffled title contenders overnight. Fan takes, analyst " ++
         "reactions, and highlight packages are generating record " ++
         "engagement in sports discourse.";
       s_score := (887 # 10); s_velocity := "exploding";
       s_likes := 4200000; s_shares := 1800000; s_comments := 920000 |};
    {| s_title := "Political Satire on Threads";
       s_category := "politics"; s_platform := "threads";
       s_description :=
         "Short-form political commentary is finding a new home on " ++
         "Threads. Satirical takes and meme formats are spreading " ++
         "rapidly, with several politically-neutral humor accounts " ++
         "reaching 1M+ followers within weeks.";
       s_score := (728 # 10); s_velocity := "rising";
       s_likes := 780000; s_shares := 290000; s_comments := 145000 |};
    {| s_title := "Open-Source AI Model Leaderboards";
       s_category := "technology"; s_platform := "reddit";
       s_description :=
         "Community-driven benchmarks for open source LLMs are becoming " ++
         "must-follow resources for developers and tech enthusiasts. " ++
         "Weekly model releases and benchmark comparisons drive massive " ++
         "Reddit and Twitter engagement.";
       s_score := (835 # 10); s_velocity := "rising";
       s_likes := 680000; s_shares := 420000; s_comments := 290000 |};
    {| s_title := "HIIT vs. Zone 2 Training Debate";
       s_category := "food"; s_platform := "youtube";
       s_description :=
         "Fitness content creators and sports scientists are debating " ++
         "optimal training methodologies. Zone 2 cardio advocates are " ++
         "gaining significant ground, with long-form explainer content " ++
         "accumulating millions of views.";
       s_score := (694 # 10); s_velocity := "steady";
       s_likes := 560000; s_shares := 180000; s_comments := 98000 |}
  ].

(** What a run has done so far: the tables, the rows created and the lines
    written to [stdout]. *)
Record Run : Type := mkRun {
  db : Database;
  created_count : Z;
  stdout : list string
}.

(** [Trend(title=..., **defaults)] saved at the time [now]: the fields that
    the sample does not give take the defaults of the model. *)
Definition create (now : Z) (d : Database) (trend_data : Sample) : Trend :=
  {| pk := next_pk d;
     title := s_title trend_data;
     category := s_category trend_data;
     platform := s_platform trend_data;
     description := s_description trend_data;
     score := s_score trend_data;
     velocity := s_velocity trend_data;
     embed_url := None;
     likes := s_likes trend_data;
     shares := s_shares trend_data;
     comments := s_comments trend_data;
     source := "manual";
     external_url := None;
     source_id := None;
     created_at := now;
     updated_at := now |}.

(** [Trend.objects.get_or_create(title=trend_data['title'],
    defaults=trend_data)]. *)
Definition get_or_create (now : Z) (d : Database) (trend_data : Sample)
  : outcome (Database * Trend * bool) :=
  match get (fun t => String.eqb (title t) (s_title trend_data)) d with
  | Found trend => Returns (d, trend, false)
  | DoesNotExist =>
      let trend := create now d trend_data in
      Returns ({| trends := (trends d ++ [trend])%list;
                  saved_trends := saved_trends d;
                  trend_comments := trend_comments d;
                  next_pk := next_pk d + 1 |}, trend, true)
  | MultipleObjectsReturned n => Raises (multiple_objects "Trend" n)
  end.

Section Handle.

(** The time at which the [n]-th sample is looked up. *)
Variable clock : nat -> Z.

(** The loop over [SAMPLE_TRENDS], from the [n]-th sample on.  An exception
    ends the command; what was written before it stays. *)
Fixpoint seed (n : nat) (samples : list Sample) (r : Run) : Run * option exn :=
  match samples with
  | [] => (r, None)
  | trend_data :: rest =>
      match get_or_create (clock n) (db r) trend_data with
      | Raises e => (r, Some e)
      | Returns (d, trend, created) =>
          seed (S n) rest
            (if created
             then {| db := d;
                     created_count := created_count r + 1;
                     stdout := (stdout r
                                ++ [("  ✓ Created: " ++ title trend)%string])%list |}
             else {| db := d;
                     created_count := created_count r;
                     stdout := (stdout r
                                ++ [("  — Already exists: "
                                    ++ title trend)%string])%list |})
      end
  end.

Definition handle (clear : bool) (d : Database) : Run * option exn :=
  let r :=
    if clear
    then {| db := fst (delete (fun _ => true) d);
            created_count := 0;
            stdout := ["Cleared existing trends."] |}
    else {| db := d; created_count := 0; stdout := [] |} in
  match seed 0 SAMPLE_TRENDS r with
  | (r, Some e) => (r, Some e)
  | (r, None) =>
      ({| db := db r;
          created_count := created_count r;
          stdout :=
            (stdout r
             ++ [String "010" ("Successfully seeded "
                   ++ PyStr.of_Z (created_count r)
                   ++ " new trends. Total in database: "
                   ++ PyStr.of_Z (count (db r)))%string])%list |}, None)
  end.

End Handle.

End seed_trends.

(** * Vocabulary of the properties *)

Section Vocabulary.

Import live_data_service.
Local Open Scope Q_scope.

Definition score_in_bounds (c : Candidate) : Prop :=
  0 <= c_score c /\ c_score c <= 100.

Definition velocity_consistent (c : Candidate) : Prop :=
  c_velocity c = _classify_velocity (c_score c).

(** Largest key first. *)
Definition key_desc {A : Type} (key : A -> Q) (a b : A) : Prop :=
  key b <= key a.






(** What the aggregator records for a source: the list its fetcher
    returns, the empty list when the fetcher raises, nothing when the
    registry does not know the name. *)
Definition recorded (registry : dict Fetcher) (w : World) (source : string)
  : option (list Candidate) :=
  match dict_get source registry with
  | Some fetcher =>
      match fst (fetcher w) with
      | Returns trends => Some trends
      | Raises _ => Some []
      end
  | None => None
  end.

End Vocabulary.

Section ReconcileVocabulary.

Import models Command.

(** How many stored rows carry the identifier. *)
Definition count_sid (sid : string) (d : Database) : nat :=
  List.length (filter (has_source_id sid) (trends d)).

(** What never changes in a stored row: its key, its creation time and
    its identifier, row by row. *)
Definition births (d : Database) : list (Z * Z * option string) :=
  map (fun t => (pk t, created_at t, source_id t)) (trends d).

(** The tables at the end of a loop of [handle]. *)
Definition db_of {X : Type} (res : (Run * Z * Z) * X) : Database :=
  db (fst (fst (fst res))).

(** What a turn of the loop reads and changes apart from its counters and
    its output: the tables and the number of writes tried. *)
Definition core (st : Run * Z * Z) : Database * nat :=
  (db (fst (fst st)), tick (fst (fst st))).

(** The identifier under which a candidate is written: it has one, the
    identifier is not empty, and the engine accepts the row. *)
Definition writes (db_check : Candidate -> option exn) (c : Candidate)
  : option string :=
  match c_source_id c with
  | Some sid =>
      if PyStr.truthy sid then
        match db_check (snd (pop_source_id c)) with
        | None => Some sid
        | Some _ => None
        end
      else None
  | None => None
  end.

(** The mutable fields of a row are those of the candidate. *)
Definition overwritten (c : Candidate) (t : Trend) : Prop :=
  title t = c_title c /\ category t = c_category c /\
  platform t = c_platform c /\ description t = c_description c /\
  score t = c_score c /\ velocity t = c_velocity c /\
  likes t = c_likes c /\ shares t = c_shares c /\
  comments t = c_comments c /\ source t = c_source c /\
  external_url t = Some (c_external_url c).


(** The candidates of all sources, in the order of the loop. *)
Definition all_candidates (results : dict (list Candidate)) : list Candidate :=
  flat_map snd results.


End ReconcileVocabulary.

Section ServiceVocabulary.

Import models TrendService.
Local Open Scope Q_scope.

(** A row passes all the filters that were supplied: an empty argument
    supplies none. *)
Definition matches (category_ search platform_ source_ : string) (t : Trend)
  : bool :=
  (negb (PyStr.truthy category_) || String.eqb (category t) category_) &&
  (negb (PyStr.truthy platform_) || String.eqb (platform t) platform_) &&
  (negb (PyStr.truthy source_) || String.eqb (source t) source_) &&
  (negb (PyStr.truthy search) ||
   PyStr.icontains (title t) search || PyStr.icontains (description t) search).


Definition blank_trend (key : Z) (source_ : string) (score_ : Q) (created : Z)
  : Trend :=
  {| pk := key; title := "t"; category := "other"; platform := "twitter";
     description := "d"; score := score_; velocity := "steady";
     embed_url := None; likes := 0; shares := 0; comments := 0;
     source := source_; external_url := None; source_id := None;
     created_at := created; updated_at := created |}.


(** Three manual trends and two fetched ones, none saved or commented. *)
Definition seeded_db : Database :=
  {| trends := [blank_trend 1 "manual" 10 1; blank_trend 2 "news" 20 2;
                blank_trend 3 "manual" 30 3; blank_trend 4 "stocks" 40 4;
                blank_trend 5 "manual" 50 5];
     saved_trends := []; trend_comments := []; next_pk := 6 |}.

(** One fetched trend that one user has saved. *)
Definition saved_db : Database :=
  {| trends := [blank_trend 1 "news" 20 1];
     saved_trends := [mkSavedTrend 1 7 1 2];
     trend_comments := []; next_pk := 2 |}.

Definition is_manual (t : Trend) : bool := String.eqb (source t) "manual".

(** The first sample of [seed_trends]. *)
Definition sample_db : Database :=
  {| trends :=
       [{| pk := 1; title := "AI-Generated Music Takes Over Streaming";
           category := "music"; platform := "tiktok";
           description := "AI-composed tracks are dominating TikTok trends.";
           score := 982 # 10; velocity := "exploding"; embed_url := None;
           likes := 2400000; shares := 890000; comments := 340000;
           source := "manual"; external_url := None; source_id := None;
           created_at := 1; updated_at := 1 |};
        blank_trend 2 "manual" 50 2];
     saved_trends := []; trend_comments := []; next_pk := 3 |}.

End ServiceVocabulary.

(** Concrete inputs on which the properties are exercised. *)
Section Samples.

Import models live_data_service Command.
Local Open Scope Q_scope.

Definition offline {A : Type} : outcome A := Raises (Exception "offline").

Definition example_tickers (sym : string) : option (outcome TickerInfo) :=
  if String.eqb sym "AAPL"
  then Some (Returns (mkTickerInfo (Some (1052 # 10)) (Some 100) None))
  else if String.eqb sym "MSFT"
  then Some (Returns (mkTickerInfo (Some 99) (Some 100) None))
  else if String.eqb sym "GOOGL"
  then Some (Returns (mkTickerInfo (Some (1003 # 10)) (Some 100) None))
  else if String.eqb sym "AMZN"
  then Some (Returns (mkTickerInfo (Some (952 # 10)) (Some 100) None))
  else if String.eqb sym "NVDA" then Some offline
  else None.

(** Only the stock quotes answer. *)
Definition example_world : World :=
  {| pytrends_trending_searches := fun _ => offline;
     yfinance_tickers := Returns example_tickers;
     GNEWS_API_KEY := "";
     LASTFM_API_KEY := "";
     requests_get_articles := fun _ => offline;
     requests_get_tracks := fun _ => offline;
     feedparser_parse := fun _ => offline |}.

(** Two headlines that agree, up to case, on their first 100 characters
    and differ after them. *)
Definition long_headline : string :=
  "Breaking: markets rally as central banks signal a pause in rate rises after months of steady tightening and investors cheer".

Definition long_headline_upper : string :=
  "BREAKING: MARKETS RALLY AS CENTRAL BANKS SIGNAL A PAUSE IN RATE RISES AFTER MONTHS OF STEADY TIGHTENING, analysts say".

Definition gnews_item : Candidate :=
  NewsTrendsFetcher.article_trend 0
    (mkArticle long_headline "Stocks up." "Wire" "https://example.org/a").

Definition rss_item : Candidate :=
  NewsTrendsFetcher.rss_trend 3
    (mkEntry long_headline_upper "https://example.org/b" "").

Definition empty_db : Database :=
  {| trends := []; saved_trends := []; trend_comments := []; next_pk := 1 |}.

Definition accept_all (c : Candidate) : option exn := None.

Definition stored_row : Trend :=
  {| pk := 4; title := "old title"; category := "other";
     platform := "twitter"; description := "old"; score := 30;
     velocity := "steady"; embed_url := Some "https://example.org/embed";
     likes := 1; shares := 2; comments := 3; source := "news";
     external_url := None; source_id := Some "abc";
     created_at := 1; updated_at := 2 |}.

Definition stored_db : Database :=
  {| trends := [blank_trend 1 "manual" 10 1; stored_row];
     saved_trends := []; trend_comments := []; next_pk := 5 |}.

(** A registry in which one fetcher raises and the other returns. *)
Definition raising_fetcher : Fetcher :=
  fun _ => (Raises (Exception "boom"), []).

Definition returning_fetcher : Fetcher :=
  fun _ => (Returns [gnews_item], []).

Definition two_fetchers : dict Fetcher :=
  [("A", raising_fetcher); ("B", returning_fetcher)].

End Samples.

(** * Vocabulary of further properties *)

Section FurtherVocabulary.

Import models live_data_service Command.
Local Open Scope Q_scope.

(** The candidate is written under the identifier. *)
Definition writes_sid (db_check : Candidate -> option exn) (s : string)
    (c : Candidate) : bool :=
  match writes db_check c with
  | Some s' => String.eqb s' s
  | None => false
  end.

(** A stored row that no candidate of the list can reach: it has no
    identifier, or an identifier that none of them writes. *)
Definition untouched (db_check : Candidate -> option exn)
    (l : list Candidate) (t : Trend) : bool :=
  match source_id t with
  | None => true
  | Some s => negb (existsb (writes_sid db_check s) l)
  end.

(** Keys are unique and below the next key to hand out. *)
Definition keys_ok (d : Database) : Prop :=
  NoDup (map pk (trends d)) /\
  Forall (fun t => (pk t < next_pk d)%Z) (trends d).

(** Every saved trend and every comment references a stored trend. *)
Definition references_ok (d : Database) : Prop :=
  Forall (fun s => references (trends d) (st_trend s) = true)
         (saved_trends d) /\
  Forall (fun c => references (trends d) (cm_trend c) = true)
         (trend_comments d).

(** The two tallies of a loop of [handle]. *)
Definition created_of {X : Type} (res : (Run * Z * Z) * X) : Z :=
  snd (fst (fst res)).

Definition updated_of {X : Type} (res : (Run * Z * Z) * X) : Z :=
  snd (fst res).

(** A trend entered by hand: its source is ['manual'] and it has no
    identifier. *)
Definition hand_made (t : Trend) : bool :=
  is_manual t && match source_id t with None => true | Some _ => false end.

(** The store with which the loop of [handle] starts. *)
Definition start_of (options : Options) (d : Database) : Database :=
  if opt_clear options then fst (clear d) else d.

(** The names that [handle] requests. *)
Definition requested (registry : dict Fetcher) (options : Options)
  : list string :=
  match opt_source options with
  | Some (name :: names) => name :: names
  | _ => map fst registry
  end.

(** The value is among the choices of a model field. *)
Definition valid_choice (choices : list (string * string)) (value : string)
  : bool :=
  existsb (fun choice => String.eqb (fst choice) value) choices.

(** What the [Trend] model asks of the fields of a candidate, and an
    identifier of 32 characters. *)
Definition well_formed (c : Candidate) : Prop :=
  valid_choice CATEGORY_CHOICES (c_category c) = true /\
  valid_choice PLATFORM_CHOICES (c_platform c) = true /\
  valid_choice VELOCITY_CHOICES (c_velocity c) = true /\
  valid_choice SOURCE_CHOICES (c_source c) = true /\
  exists sid, c_source_id c = Some sid /\ String.length sid = 32%nat.


End FurtherVocabulary.

(** * Vocabulary of the views *)

Section ViewVocabulary.

Import models TrendService gemini_service views.
Local Open Scope Q_scope.

(** The user has saved the trend. *)
Definition is_saved (site : Site) (u p : Z) : bool :=
  existsb (fun s => (st_user s =? u)%Z && (st_trend s =? p)%Z)
          (saved_trends (tables site)).

(** The table of saved trends is sound: keys are unique and below the next
    key, and, as [unique_together] asks, no user has saved a trend twice. *)
Definition saved_ok (site : Site) : Prop :=
  NoDup (map st_pk (saved_trends (tables site))) /\
  Forall (fun s => (st_pk s < next_saved_pk site)%Z)
         (saved_trends (tables site)) /\
  NoDup (map (fun s => (st_user s, st_trend s)) (saved_trends (tables site))).

(** The request passed the rate limiter of the chatbot: it was not sent to
    the login page and not answered with status 429. *)
Definition counted (r : outcome HttpResponse) : bool :=
  match r with
  | Returns redirect_to_login => false
  | Returns (JsonResponse _ status) => negb (status =? 429)%Z
  | _ => true
  end.

Definition with_session (request : HttpRequest) (timestamps : list Q)
  : HttpRequest :=
  {| method := method request; user := user request; GET := GET request;
     POST := POST request; body := body request;
     chatbot_timestamps := timestamps |}.

(** A conversation: posts to the chatbot, each at its time, the session
    handed from one to the next.  The result lists the times of the posts
    that passed the limiter. *)
Fixpoint admitted (repr : Q -> string)
    (list_of_set : list string -> list string)
    (calls : list (Q * Gemini * Database * HttpRequest)) (session : list Q)
  : list Q :=
  match calls with
  | [] => []
  | (now, g, d, request) :: rest =>
      let '(r, session') :=
        ChatbotView.post repr list_of_set now g d
          (with_session request session) in
      if counted (fst r) then now :: admitted repr list_of_set rest session'
      else admitted repr list_of_set rest session'
  end.

(** Younger than a minute at the time [now]. *)
Definition recent (now t : Q) : bool := PyNum.Qlt_bool (now - t) 60.

(** The [k]-th run of [p] elements of a list, counted from 0. *)
Definition chunk {A : Type} (p : nat) (l : list A) (k : nat) : list A :=
  firstn p (skipn (k * p) l).

Definition with_page (request : HttpRequest) (page : string) : HttpRequest :=
  {| method := method request; user := user request;
     GET := dict_set "page" page (GET request);
     POST := POST request; body := body request;
     chatbot_timestamps := chatbot_timestamps request |}.

(** The trends that the dashboard lists for the request. *)
Definition listed (int : string -> option Z) (d : Database)
    (request : HttpRequest) : list Trend :=
  match DashboardView.get int d request with
  | Returns context =>
      Paginator.object_list (DashboardView.page_obj context)
  | Raises _ => []
  end.

(** What [get_filtered_trends] finds for the query string of the
    request. *)
Definition filtered (d : Database) (request : HttpRequest) : list Trend :=
  get_filtered_trends d (get_or_empty "category" (GET request))
    (get_or_empty "search" (GET request))
    (get_or_empty "platform" (GET request))
    (get_or_empty "source" (GET request)).

(** The filters that the request selects. *)
Definition selected (request : HttpRequest) (t : Trend) : bool :=
  matches (get_or_empty "category" (GET request))
          (get_or_empty "search" (GET request))
          (get_or_empty "platform" (GET request))
          (get_or_empty "source" (GET request)) t.

Definition alice : User := {| user_pk := 7; is_premium := false |}.

Definition bob : User := {| user_pk := 8; is_premium := true |}.

Definition post_by (u : option User) (form : dict string) : HttpRequest :=
  {| method := "POST"; user := u; GET := []; POST := form;
     body := JSONDecodeError; chatbot_timestamps := [] |}.

Definition seeded_site : Site :=
  {| tables := seeded_db; next_saved_pk := 1; next_comment_pk := 1 |}.

(** A library in which only gemini-pro answers, and one whose quota is
    used up. *)
Definition pro_only : GenerativeModel :=
  fun model_name _ prompt =>
    if String.eqb model_name "gemini-pro" then Returns "An answer."
    else Raises (Exception ("404 model not found: " ++ model_name)).

Definition out_of_quota : GenerativeModel :=
  fun _ _ _ => Raises (Exception "429 ResourceExhausted: quota exceeded").

(** A question to the chatbot, sent by a user without an API key set. *)
Definition chat_request : HttpRequest :=
  {| method := "POST"; user := Some alice; GET := []; POST := [];
     body := Data (Some "What is trending in music?") None;
     chatbot_timestamps := [] |}.

Definition no_key : Gemini :=
  {| GEMINI_API_KEY := ""; genai := Raises (ImportError "No module") |}.

End ViewVocabulary.

(** * Vocabulary of the seeding command *)

Section SeedVocabulary.

Import models.

Definition has_title (s : string) (t : Trend) : bool :=
  String.eqb (title t) s.

(** No stored trend has the title of the sample. *)
Definition missing (d : Database) (sample : seed_trends.Sample) : bool :=
  negb (existsb (has_title (seed_trends.s_title sample)) (trends d)).

(** No title of a sample is stored twice. *)
Definition titles_unique (d : Database) : Prop :=
  forall sample, In sample seed_trends.SAMPLE_TRENDS ->
    (List.length (filter (has_title (seed_trends.s_title sample)) (trends d))
     <= 1)%nat.

End SeedVocabulary.

(** * Properties *)

Section Numbers.

Local Open Scope Q_scope.

Lemma Qlt_bool_iff (x y : Q) : PyNum.Qlt_bool x y = true <-> x < y.
Proof.
  unfold PyNum.Qlt_bool. rewrite negb_true_iff.
  split; intro H.
  - apply Qnot_le_lt. intro L. apply Qle_bool_iff in L. congruence.
  - destruct (Qle_bool y x) eqn:E; [|reflexivity].
    apply Qle_bool_iff in E. exfalso. apply (Qlt_not_le _ _ H E).
Qed.

Lemma Qlt_bool_false (x y : Q) : PyNum.Qlt_bool x y = false <-> y <= x.
Proof.
  unfold PyNum.Qlt_bool. rewrite negb_false_iff. apply Qle_bool_iff.
Qed.

Lemma Qle_bool_false (x y : Q) : Qle_bool x y = false -> y < x.
Proof.
  intro H. apply Qlt_bool_iff. unfold PyNum.Qlt_bool. now rewrite H.
Qed.

Lemma max_lower (a b : Q) : b <= PyNum.max a b.
Proof.
  unfold PyNum.max. destruct (PyNum.Qlt_bool a b) eqn:E.
  - apply Qle_refl.
  - now apply Qlt_bool_false.
Qed.

Lemma max_upper (a b c : Q) : a <= c -> b <= c -> PyNum.max a b <= c.
Proof. unfold PyNum.max. now destruct (PyNum.Qlt_bool a b). Qed.

Lemma min_upper (a b : Q) : PyNum.min a b <= b.
Proof.
  unfold PyNum.min. destruct (PyNum.Qlt_bool b a) eqn:E.
  - apply Qle_refl.
  - now apply Qlt_bool_false.
Qed.


(** The rounded value is the floor or the integer above it. *)
Lemma round_half_even_cases (x : Q) :
  PyNum.round_half_even x = Qfloor x \/
  (PyNum.round_half_even x = (Qfloor x + 1)%Z /\ inject_Z (Qfloor x) < x).
Proof.
  unfold PyNum.round_half_even.
  destruct (PyNum.Qlt_bool (x - inject_Z (Qfloor x)) (1 # 2)) eqn:E1; auto.
  apply Qlt_bool_false in E1.
  assert (inject_Z (Qfloor x) < x) by lra.
  destruct (PyNum.Qlt_bool (1 # 2) (x - inject_Z (Qfloor x))); auto.
  destruct (Z.even (Qfloor x)); auto.
Qed.

Lemma round_half_even_ge (x : Q) (k : Z) :
  inject_Z k <= x -> (k <= PyNum.round_half_even x)%Z.
Proof.
  intro H. apply Qfloor_resp_le in H. rewrite Qfloor_Z in H.
  destruct (round_half_even_cases x) as [-> | [-> _]]; lia.
Qed.

Lemma round_half_even_le (x : Q) (k : Z) :
  x <= inject_Z k -> (PyNum.round_half_even x <= k)%Z.
Proof.
  intro H.
  destruct (round_half_even_cases x) as [-> | [-> L]].
  - apply Qfloor_resp_le in H. now rewrite Qfloor_Z in H.
  - assert (inject_Z (Qfloor x) < inject_Z k) as L' by lra.
    rewrite <- Zlt_Qlt in L'. lia.
Qed.

Lemma round_half_even_Z (k : Z) : PyNum.round_half_even (inject_Z k) = k.
Proof.
  apply Z.le_antisymm.
  - apply round_half_even_le, Qle_refl.
  - apply round_half_even_ge, Qle_refl.
Qed.

(** [round(x, 1)] is [n / 10] for the integer [n] nearest to [10 x]. *)
Lemma round1_eq (x : Q) :
  PyNum.round x 1 == inject_Z (PyNum.round_half_even (x * 10)) * (1 # 10).
Proof. exact (Qmake_Qdiv (PyNum.round_half_even (x * 10)) 10). Qed.

Lemma round1_ge (x : Q) (k : Z) :
  inject_Z k * (1 # 10) <= x -> inject_Z k * (1 # 10) <= PyNum.round x 1.
Proof.
  intro H. rewrite round1_eq.
  assert (k <= PyNum.round_half_even (x * 10))%Z as L.
  { apply round_half_even_ge. lra. }
  rewrite Zle_Qle in L. lra.
Qed.

Lemma round1_le (x : Q) (k : Z) :
  x <= inject_Z k * (1 # 10) -> PyNum.round x 1 <= inject_Z k * (1 # 10).
Proof.
  intro H. rewrite round1_eq.
  assert (PyNum.round_half_even (x * 10) <= k)%Z as L.
  { apply round_half_even_le. lra. }
  rewrite Zle_Qle in L. lra.
Qed.

Lemma round1_upper (x hi : Q) (k : Z) :
  hi == inject_Z k * (1 # 10) -> x <= hi -> PyNum.round x 1 <= hi.
Proof. intros E H. rewrite E in *. now apply round1_le. Qed.


(** Rounding leaves a number of tenths as it is. *)
Lemma round1_tenths (k : Z) :
  PyNum.round (inject_Z k * (1 # 10)) 1 == inject_Z k * (1 # 10).
Proof.
  apply Qle_antisym.
  - apply round1_le, Qle_refl.
  - apply round1_ge, Qle_refl.
Qed.

Lemma round1_idem (x : Q) : PyNum.round (PyNum.round x 1) 1 == PyNum.round x 1.
Proof.
  apply Qle_antisym.
  - rewrite (round1_eq x) at 2. apply round1_le. rewrite round1_eq. apply Qle_refl.
  - rewrite (round1_eq x) at 1. apply round1_ge. rewrite round1_eq. apply Qle_refl.
Qed.

End Numbers.

(** ** Where the candidates of a fetcher come from *)

Section Provenance.

Import live_data_service.

Lemma collect_In {A : Type} (body : nat -> A -> outcome (option Candidate))
    (items : list A) :
  forall idx c, In c (fst (collect body idx items)) ->
    exists i x, In x items /\ body i x = Returns (Some c).
Proof.
  induction items as [|x rest IH]; intros idx c H; simpl in H.
  - contradiction.
  - destruct (body idx x) as [oc|e] eqn:E; [|contradiction].
    destruct (collect body (S idx) rest) as [trends err] eqn:C.
    assert (In c trends -> exists i y, In y (x :: rest) /\ body i y = Returns (Some c)) as K.
    { intro Hc. destruct (IH (S idx) c) as (i & y & Hy & Hb).
      - now rewrite C.
      - exists i, y. split; [now right | exact Hb]. }
    destruct oc as [c'|]; simpl in H; [|now apply K].
    destruct H as [<- | H]; [|now apply K].
    exists idx, x. split; [now left | exact E].
Qed.

Lemma reading_In {A : Type} (mk : nat -> A -> Candidate)
    (items : list (outcome A)) (idx : nat) (c : Candidate) :
  In c (fst (collect (reading mk) idx items)) -> exists i a, c = mk i a.
Proof.
  intro H. apply collect_In in H. destruct H as (i & [a|e] & _ & Hb).
  - exists i, a. simpl in Hb. congruence.
  - discriminate.
Qed.

Ltac into_collect H :=
  match type of H with
  | context [collect ?b ?i ?l] =>
      let T := fresh "trends" in
      let E := fresh "E" in
      destruct (collect b i l) as [T [[?|?]|]] eqn:E;
      simpl in H;
      try (apply (f_equal fst) in E; simpl in E; subst T)
  end.

Lemma google_built (w : World) (geo : string) (count : Z) (c : Candidate) :
  In c (fst (GoogleTrendsFetcher.fetch w geo count)) ->
  exists idx row, GoogleTrendsFetcher.trend idx row = Returns (Some c).
Proof.
  unfold GoogleTrendsFetcher.fetch. intro H.
  destruct (pytrends_trending_searches w geo) as [df|[m|m]];
    try contradiction.
  into_collect H; apply collect_In in H;
    destruct H as (i & x & _ & Hb); eauto.
Qed.

Lemma stocks_built (w : World) (count : Z) (c : Candidate) :
  In c (fst (StockTrendsFetcher.fetch w count)) ->
  exists m, c = StockTrendsFetcher.trend m.
Proof.
  unfold StockTrendsFetcher.fetch. intro H.
  destruct (yfinance_tickers w) as [tickers|[m|m]]; try contradiction.
  simpl in H. apply in_map_iff in H. destruct H as (m & <- & _). now exists m.
Qed.

Lemma news_rss_built (w : World) (count : Z) (c : Candidate) :
  In c (fst (NewsTrendsFetcher._fetch_rss_fallback w count)) ->
  exists idx entry, c = NewsTrendsFetcher.rss_trend idx entry.
Proof.
  unfold NewsTrendsFetcher._fetch_rss_fallback. intro H.
  destruct (feedparser_parse w _) as [entries|e]; try contradiction.
  into_collect H; now apply reading_In in H.
Qed.

Lemma news_built (w : World) (count : Z) (c : Candidate) :
  In c (fst (NewsTrendsFetcher.fetch w count)) ->
  (exists idx article, c = NewsTrendsFetcher.article_trend idx article) \/
  (exists idx entry, c = NewsTrendsFetcher.rss_trend idx entry).
Proof.
  unfold NewsTrendsFetcher.fetch, NewsTrendsFetcher.fall_back. intro H.
  pose proof (news_rss_built w count c) as R.
  destruct (NewsTrendsFetcher._fetch_rss_fallback w count) as [ft fl].
  destruct (negb (PyStr.truthy (GNEWS_API_KEY w))); [right; auto|].
  destruct (requests_get_articles w _) as [articles|e]; [|right; auto].
  into_collect H; try (right; now auto).
  left. now apply reading_In in H.
Qed.

Lemma youtube_built (w : World) (count : Z) (c : Candidate) :
  In c (fst (YouTubeTrendsFetcher.fetch w count)) ->
  exists idx entry, c = YouTubeTrendsFetcher.trend idx entry.
Proof.
  unfold YouTubeTrendsFetcher.fetch. intro H.
  destruct (feedparser_parse w _) as [entries|[m|m]]; try contradiction.
  into_collect H; now apply reading_In in H.
Qed.

Lemma music_rss_built (w : World) (count : Z) (c : Candidate) :
  In c (fst (MusicTrendsFetcher._fetch_rss_fallback w count)) ->
  exists idx entry, c = MusicTrendsFetcher.rss_trend idx entry.
Proof.
  unfold MusicTrendsFetcher._fetch_rss_fallback. intro H.
  destruct (feedparser_parse w _) as [entries|e]; try contradiction.
  into_collect H; now apply reading_In in H.
Qed.

Lemma music_built (w : World) (count : Z) (c : Candidate) :
  In c (fst (MusicTrendsFetcher.fetch w count)) ->
  (exists idx track, c = MusicTrendsFetcher.track_trend idx track) \/
  (exists idx entry, c = MusicTrendsFetcher.rss_trend idx entry).
Proof.
  unfold MusicTrendsFetcher.fetch, MusicTrendsFetcher.fall_back. intro H.
  pose proof (music_rss_built w count c) as R.
  destruct (MusicTrendsFetcher._fetch_rss_fallback w count) as [ft fl].
  destruct (negb (PyStr.truthy (LASTFM_API_KEY w))); [right; auto|].
  destruct (requests_get_tracks w _) as [tracks|e]; [|right; auto].
  into_collect H; try (right; now auto).
  left. now apply reading_In in H.
Qed.

End Provenance.

(** ** Scores and velocities of the candidates *)

Section Scores.

Import live_data_service.
Local Open Scope Q_scope.

Lemma rank_nonneg (idx : nat) : 0 <= rank idx.
Proof.
  unfold rank. change 0 with (inject_Z 0). rewrite <- Zle_Qle. lia.
Qed.

(** A rank-decay score [max(round(x, 1), floor)] with [x <= 100]. *)
Lemma decay_in_bounds (x floor : Q) :
  x <= 100 -> 0 <= floor -> floor <= 100 ->
  0 <= PyNum.max (PyNum.round x 1) floor /\
  PyNum.max (PyNum.round x 1) floor <= 100.
Proof.
  intros Hx H0 H1. split.
  - apply Qle_trans with floor; [exact H0 | apply max_lower].
  - apply max_upper; [|exact H1].
    now apply (round1_upper x 100 1000).
Qed.

Lemma _score_from_value_le (value max_value : Z) :
  _score_from_value value max_value <= 100.
Proof.
  unfold _score_from_value. destruct (max_value <=? 0)%Z; [lra|].
  apply (round1_upper _ 100 1000); [reflexivity | apply min_upper].
Qed.


Lemma music_score_bounds (listeners : Z) :
  let score := PyNum.max (_score_from_value listeners 5000000) 20 in
  20 <= score /\ score <= 100 /\ PyNum.round score 1 == score.
Proof.
  intro score. subst score.
  repeat split.
  - apply max_lower.
  - apply max_upper; [apply _score_from_value_le | lra].
  - unfold PyNum.max.
    destruct (PyNum.Qlt_bool (_score_from_value listeners 5000000) 20).
    + reflexivity.
    + unfold _score_from_value.
      change (5000000 <=? 0)%Z with false. cbv iota.
      apply round1_idem.
Qed.

Global Instance _classify_velocity_Proper :
  Proper (Qeq ==> eq) _classify_velocity.
Proof.
  intros x y E. unfold _classify_velocity.
  assert (forall k, Qle_bool k x = Qle_bool k y) as K.
  { intro k. now rewrite E. }
  now rewrite !K.
Qed.

Lemma google_trend_ok (idx : nat) (row : string) (c : Candidate) :
  GoogleTrendsFetcher.trend idx row = Returns (Some c) ->
  score_in_bounds c /\ velocity_consistent c.
Proof.
  unfold GoogleTrendsFetcher.trend.
  destruct (negb (PyStr.truthy (PyStr.strip row))); [discriminate|].
  intro H. injection H as <-. split; [|reflexivity].
  apply decay_in_bounds; try lra.
  pose proof (rank_nonneg idx). lra.
Qed.

Lemma article_trend_ok (idx : nat) (a : Article) :
  score_in_bounds (NewsTrendsFetcher.article_trend idx a) /\
  velocity_consistent (NewsTrendsFetcher.article_trend idx a).
Proof.
  split; [|reflexivity].
  apply decay_in_bounds; try lra. pose proof (rank_nonneg idx). lra.
Qed.

Lemma news_rss_trend_ok (idx : nat) (e : Entry) :
  score_in_bounds (NewsTrendsFetcher.rss_trend idx e) /\
  velocity_consistent (NewsTrendsFetcher.rss_trend idx e).
Proof.
  split; [|reflexivity].
  apply decay_in_bounds; try lra. pose proof (rank_nonneg idx). lra.
Qed.

Lemma youtube_trend_ok (idx : nat) (e : Entry) :
  score_in_bounds (YouTubeTrendsFetcher.trend idx e) /\
  velocity_consistent (YouTubeTrendsFetcher.trend idx e).
Proof.
  split; [|reflexivity].
  apply decay_in_bounds; try lra. pose proof (rank_nonneg idx). lra.
Qed.

Lemma music_rss_trend_ok (idx : nat) (e : Entry) :
  score_in_bounds (MusicTrendsFetcher.rss_trend idx e) /\
  velocity_consistent (MusicTrendsFetcher.rss_trend idx e).
Proof.
  split; [|reflexivity].
  apply decay_in_bounds; try lra. pose proof (rank_nonneg idx). lra.
Qed.

Lemma track_trend_ok (idx : nat) (t : Track) :
  score_in_bounds (MusicTrendsFetcher.track_trend idx t) /\
  velocity_consistent (MusicTrendsFetcher.track_trend idx t).
Proof.
  destruct (music_score_bounds (t_listeners t)) as (L & U & R).
  unfold score_in_bounds, velocity_consistent; simpl.
  rewrite R. repeat split; try reflexivity; lra.
Qed.


End Scores.

Section FetcherClaims.

Import live_data_service.
Local Open Scope Q_scope.


(** C4. Velocity consistency: every candidate of a fetcher other than the
    market-movers fetcher carries the velocity that [_classify_velocity]
    gives to its score, and [_classify_velocity] follows the thresholds
    85, 60 and 30. *)
Theorem velocity_consistency (w : World) (geo : string) (count : Z) :
  (Forall velocity_consistent (fst (GoogleTrendsFetcher.fetch w geo count)) /\
   Forall velocity_consistent (fst (NewsTrendsFetcher.fetch w count)) /\
   Forall velocity_consistent (fst (NewsTrendsFetcher._fetch_rss_fallback w count)) /\
   Forall velocity_consistent (fst (YouTubeTrendsFetcher.fetch w count)) /\
   Forall velocity_consistent (fst (MusicTrendsFetcher.fetch w count)) /\
   Forall velocity_consistent (fst (MusicTrendsFetcher._fetch_rss_fallback w count))) /\
  (forall score : Q,
     (85 <= score -> _classify_velocity score = "exploding"%string) /\
     (60 <= score -> score < 85 -> _classify_velocity score = "rising"%string) /\
     (30 <= score -> score < 60 -> _classify_velocity score = "steady"%string) /\
     (score < 30 -> _classify_velocity score = "declining"%string)).
Proof.
  split.
  - repeat split; apply Forall_forall; intros c H.
    + apply google_built in H. destruct H as (i & row & H).
      now apply google_trend_ok in H.
    + apply news_built in H. destruct H as [(i & a & ->) | (i & e & ->)].
      * apply article_trend_ok.
      * apply news_rss_trend_ok.
    + apply news_rss_built in H. destruct H as (i & e & ->).
      apply news_rss_trend_ok.
    + apply youtube_built in H. destruct H as (i & e & ->).
      apply youtube_trend_ok.
    + apply music_built in H. destruct H as [(i & t & ->) | (i & e & ->)].
      * apply track_trend_ok.
      * apply music_rss_trend_ok.
    + apply music_rss_built in H. destruct H as (i & e & ->).
      apply music_rss_trend_ok.
  - intro score. unfold _classify_velocity.
    destruct (Qle_bool 85 score) eqn:E85;
      [apply Qle_bool_iff in E85 | apply Qle_bool_false in E85 ];
    (destruct (Qle_bool 60 score) eqn:E60;
      [apply Qle_bool_iff in E60 | apply Qle_bool_false in E60 ]);
    (destruct (Qle_bool 30 score) eqn:E30;
      [apply Qle_bool_iff in E30 | apply Qle_bool_false in E30 ]);
    repeat split; intros; try reflexivity; exfalso; lra.
Qed.

End FetcherClaims.

(** ** The stable sort *)

Section Sorting.

Local Open Scope Q_scope.

Context {A : Type} (key : A -> Q).

Lemma insert_desc_perm (x : A) (l : list A) :
  Permutation (insert_desc key x l) (x :: l).
Proof.
  induction l as [|y r IH]; simpl.
  - apply Permutation_refl.
  - destruct (PyNum.Qlt_bool (key x) (key y)).
    + apply perm_trans with (y :: x :: r).
      * now apply perm_skip.
      * apply perm_swap.
    + apply Permutation_refl.
Qed.

Lemma sort_desc_perm (l : list A) : Permutation (sort_desc key l) l.
Proof.
  induction l as [|x r IH]; simpl.
  - apply perm_nil.
  - apply perm_trans with (x :: sort_desc key r).
    + apply insert_desc_perm.
    + now apply perm_skip.
Qed.

Lemma insert_desc_sorted (x : A) (l : list A) :
  StronglySorted (key_desc key) l -> StronglySorted (key_desc key) (insert_desc key x l).
Proof.
  induction l as [|y r IH]; intro S; simpl.
  - constructor; constructor.
  - inversion S as [|? ? Sr Fr]; subst.
    destruct (PyNum.Qlt_bool (key x) (key y)) eqn:E.
    + apply Qlt_bool_iff in E. constructor; [now apply IH|].
      apply Forall_forall. intros z Hz.
      apply (Permutation_in _ (insert_desc_perm x r)) in Hz.
      destruct Hz as [<- | Hz].
      * unfold key_desc. now apply Qlt_le_weak.
      * rewrite Forall_forall in Fr. now apply Fr.
    + apply Qlt_bool_false in E. constructor; [exact S|].
      constructor; [exact E|].
      apply Forall_forall. intros z Hz. rewrite Forall_forall in Fr.
      unfold key_desc in *. apply Qle_trans with (key y); auto.
Qed.

Lemma sort_desc_sorted (l : list A) : StronglySorted (key_desc key) (sort_desc key l).
Proof.
  induction l as [|x r IH]; simpl.
  - constructor.
  - now apply insert_desc_sorted.
Qed.



Lemma firstn_incl (n : nat) (l : list A) (x : A) :
  In x (firstn n l) -> In x l.
Proof.
  intro H. rewrite <- (firstn_skipn n l). apply in_or_app. now left.
Qed.

Lemma firstn_sorted (R : A -> A -> Prop) (n : nat) (l : list A) :
  StronglySorted R l -> StronglySorted R (firstn n l).
Proof.
  revert n. induction l as [|x r IH]; intros n S.
  - now rewrite firstn_nil.
  - destruct n; simpl; [constructor|].
    inversion S as [|? ? Sr Fr]; subst. constructor; [now apply IH|].
    apply Forall_forall. intros z Hz. rewrite Forall_forall in Fr.
    apply Fr. now apply firstn_incl in Hz.
Qed.



Lemma slice_to_incl (n : Z) (l : list A) (x : A) :
  In x (slice_to n l) -> In x l.
Proof.
  unfold slice_to. destruct (0 <=? n)%Z; apply firstn_incl.
Qed.


End Sorting.

Section MarketMovers.

Import live_data_service.
Local Open Scope Q_scope.

Lemma round_half_even_floor_le (x : Q) : (Qfloor x <= PyNum.round_half_even x)%Z.
Proof. destruct (round_half_even_cases x) as [-> | [-> _]]; lia. Qed.

Lemma round_half_even_mono (x y : Q) :
  x <= y -> (PyNum.round_half_even x <= PyNum.round_half_even y)%Z.
Proof.
  intro H. pose proof (Qfloor_resp_le _ _ H) as F.
  destruct (Z.eq_dec (Qfloor x) (Qfloor y)) as [E|N].
  - unfold PyNum.round_half_even. rewrite <- E.
    destruct (PyNum.Qlt_bool (x - inject_Z (Qfloor x)) (1 # 2)) eqn:X1;
    destruct (PyNum.Qlt_bool (y - inject_Z (Qfloor x)) (1 # 2)) eqn:Y1;
    destruct (PyNum.Qlt_bool (1 # 2) (x - inject_Z (Qfloor x))) eqn:X2;
    destruct (PyNum.Qlt_bool (1 # 2) (y - inject_Z (Qfloor x))) eqn:Y2;
    destruct (Z.even (Qfloor x));
    try lia;
    repeat match goal with
           | H : PyNum.Qlt_bool _ _ = true |- _ => apply Qlt_bool_iff in H
           | H : PyNum.Qlt_bool _ _ = false |- _ => apply Qlt_bool_false in H
           end;
    exfalso; lra.
  - pose proof (round_half_even_floor_le y).
    destruct (round_half_even_cases x) as [-> | [-> _]]; lia.
Qed.

Lemma round1_mono (x y : Q) : x <= y -> PyNum.round x 1 <= PyNum.round y 1.
Proof.
  intro H. rewrite !round1_eq.
  assert (PyNum.round_half_even (x * 10) <= PyNum.round_half_even (y * 10))%Z
    as L by (apply round_half_even_mono; lra).
  rewrite Zle_Qle in L. lra.
Qed.





End MarketMovers.

(** ** Identifiers *)

Section Identifiers.

Import live_data_service.

Lemma encode_inj (s s' : string) : MD5.encode s = MD5.encode s' -> s = s'.
Proof.
  revert s'. induction s as [|c r IH]; intros [|c' r']; simpl; try discriminate.
  - reflexivity.
  - intro H. injection H as Hc Hr. f_equal; [|now apply IH].
    apply N2Z.inj in Hc.
    rewrite <- (ascii_N_embedding c), <- (ascii_N_embedding c'). now rewrite Hc.
Qed.


Lemma length_hex (bs : list Z) :
  String.length (MD5.hex bs) = (2 * List.length bs)%nat.
Proof. induction bs; simpl; lia. Qed.

Lemma length_le_bytes (n : nat) (x : Z) : List.length (MD5.le_bytes n x) = n.
Proof. unfold MD5.le_bytes. now rewrite length_map, length_seq. Qed.

Lemma length_hexdigest (msg : list Z) : String.length (MD5.hexdigest msg) = 32%nat.
Proof.
  unfold MD5.hexdigest, MD5.digest. rewrite length_hex.
  destruct (MD5.blocks _ _ _). rewrite !length_app, !length_le_bytes.
  reflexivity.
Qed.



End Identifiers.

(** ** Reconciliation *)

Section Reconciliation.

Import models live_data_service Command.

Variable db_check : Candidate -> option exn.

Lemma count_sid_births (s : string) (d d' : Database) :
  births d = births d' -> count_sid s d = count_sid s d'.
Proof.
  unfold births, count_sid. generalize (trends d) (trends d').
  induction l as [|t r IH]; intros [|t' r'] H; simpl in *; try discriminate.
  - reflexivity.
  - injection H as _ _ Hs Hr. specialize (IH r' Hr).
    assert (has_source_id s t = has_source_id s t') as ->
      by (unfold has_source_id; now rewrite Hs).
    destruct (has_source_id s t'); simpl; congruence.
Qed.

Lemma found_is_old (sid : string) (rows : list Trend) (old t : Trend) :
  filter (has_source_id sid) rows = [old] ->
  In t rows -> has_source_id sid t = true -> t = old.
Proof.
  intros F Ht Hs.
  assert (In t (filter (has_source_id sid) rows)) as H
    by (apply filter_In; now split).
  rewrite F in H. destruct H as [<- | []]. reflexivity.
Qed.

Lemma update_keeps_births (now : Z) (sid : string) (rows : list Trend)
    (old : Trend) (defaults : Candidate) :
  filter (has_source_id sid) rows = [old] ->
  map (fun t => (pk t, created_at t, source_id t))
      (map (fun t => if has_source_id sid t
                     then update_row now old defaults else t) rows)
  = map (fun t => (pk t, created_at t, source_id t)) rows.
Proof.
  intro F. rewrite map_map. apply map_ext_in. intros t Ht.
  destruct (has_source_id sid t) eqn:E; [|reflexivity].
  now rewrite (found_is_old sid rows old t F Ht E).
Qed.

(** The tables after one turn of the loop. *)
Lemma upsert_db (clock : nat -> Z) (st : Run * Z * Z) (c : Candidate) :
  db_of (upsert db_check clock st c)
  = match writes db_check c with
    | None => db (fst (fst st))
    | Some sid =>
        let d := db (fst (fst st)) in
        let now := clock (tick (fst (fst st))) in
        let defaults := snd (pop_source_id c) in
        match filter (has_source_id sid) (trends d) with
        | [] =>
            {| trends := trends d ++ [create_row now d sid defaults];
               saved_trends := saved_trends d;
               trend_comments := trend_comments d;
               next_pk := next_pk d + 1 |}
        | [old] =>
            {| trends :=
                 map (fun t => if has_source_id sid t
                               then update_row now old defaults else t)
                     (trends d);
               saved_trends := saved_trends d;
               trend_comments := trend_comments d;
               next_pk := next_pk d |}
        | _ => d
        end
    end.
Proof.
  destruct st as [[r created] updated].
  unfold upsert, writes, db_of, update_or_create. simpl.
  destruct (c_source_id c) as [sid|]; [|reflexivity].
  destruct (PyStr.truthy sid); simpl; [|reflexivity].
  destruct (db_check _);
    destruct (filter (has_source_id sid) (trends (db r))) as [|old [|? ?]];
    reflexivity.
Qed.

Lemma count_created (now : Z) (d : Database) (s sid : string)
    (defaults : Candidate) :
  List.length (filter (has_source_id s)
                 (trends d ++ [create_row now d sid defaults]))
  = (count_sid s d + if String.eqb sid s then 1 else 0)%nat.
Proof.
  rewrite filter_app, length_app. unfold count_sid. f_equal.
  simpl. unfold has_source_id. simpl. now destruct (String.eqb sid s).
Qed.

(** One turn keeps every count of identifiers, except that it can take the
    count of the identifier it writes from 0 to 1. *)
Lemma upsert_count (clock : nat -> Z) (st : Run * Z * Z) (c : Candidate)
    (s : string) :
  count_sid s (db_of (upsert db_check clock st c)) = count_sid s (db (fst (fst st))) \/
  (count_sid s (db (fst (fst st))) = 0%nat /\
   count_sid s (db_of (upsert db_check clock st c)) = 1%nat /\
   writes db_check c = Some s).
Proof.
  rewrite upsert_db.
  destruct (writes db_check c) as [sid|] eqn:W; [|now left]. cbv zeta.
  destruct (filter (has_source_id sid) (trends (db (fst (fst st)))))
    as [|old [|? ?]] eqn:F; [| |now left].
  - match goal with |- context [count_sid s ?d'] =>
      assert (count_sid s d'
              = (count_sid s (db (fst (fst st)))
                 + if String.eqb sid s then 1 else 0)%nat) as K
        by (unfold count_sid at 1; cbn [trends]; apply count_created)
    end.
    rewrite K. destruct (String.eqb sid s) eqn:E.
    + apply String.eqb_eq in E. subst s. right.
      unfold count_sid. rewrite F. now repeat split.
    + left. lia.
  - left. apply count_sid_births. unfold births. simpl.
    now apply update_keeps_births.
Qed.



Section Loops.

Variable clock : nat -> Z.

Lemma upsert_core (st st' : Run * Z * Z) (c : Candidate) :
  core st = core st' ->
  core (fst (upsert db_check clock st c))
  = core (fst (upsert db_check clock st' c)).
Proof.
  destruct st as [[r cr] up], st' as [[r' cr'] up'].
  unfold core. simpl. intro H. injection H as Hd Ht.
  unfold upsert. simpl. destruct (c_source_id c) as [sid|]; simpl;
    [|congruence].
  destruct (PyStr.truthy sid); simpl; [|congruence].
  rewrite Hd, Ht.
  destruct (update_or_create _ _ _ _ _) as [[[d' obj] [|]]|e]; reflexivity.
Qed.

Lemma upsert_all_cons (st : Run * Z * Z) (c : Candidate)
    (rest : list Candidate) :
  fst (upsert_all db_check clock st (c :: rest))
  = fst (upsert_all db_check clock (fst (upsert db_check clock st c)) rest).
Proof.
  cbn [upsert_all]. destruct (upsert db_check clock st c) as [st1 c1].
  cbn [fst]. now destruct (upsert_all db_check clock st1 rest).
Qed.

Lemma upsert_all_core (l : list Candidate) :
  forall st st', core st = core st' ->
    core (fst (upsert_all db_check clock st l))
    = core (fst (upsert_all db_check clock st' l)).
Proof.
  induction l as [|c rest IH]; intros st st' H; [exact H|].
  rewrite !upsert_all_cons. now apply IH, upsert_core.
Qed.

Lemma upsert_all_app (l1 l2 : list Candidate) :
  forall st,
    fst (upsert_all db_check clock st (l1 ++ l2))
    = fst (upsert_all db_check clock
             (fst (upsert_all db_check clock st l1)) l2).
Proof.
  induction l1 as [|c rest IH]; intro st; [reflexivity|].
  rewrite <- app_comm_cons, !upsert_all_cons. apply IH.
Qed.

(** For the tables, the loop over the sources is one loop over all their
    candidates. *)
Lemma reconcile_core (results : dict (list Candidate)) :
  forall st,
    core (fst (reconcile db_check clock st results))
    = core (fst (upsert_all db_check clock st (all_candidates results))).
Proof.
  induction results as [|[source_name trend_list] rest IH]; intro st;
    [reflexivity|].
  unfold all_candidates. simpl flat_map. rewrite upsert_all_app.
  fold (all_candidates rest).
  destruct st as [[r tc] tu]. simpl reconcile.
  pose proof (upsert_all_core trend_list (r, 0, 0) (r, tc, tu) eq_refl) as K.
  destruct (upsert_all db_check clock (r, 0, 0) trend_list)
    as [[[r' created] updated] trend_list'].
  match goal with
  | |- context [reconcile db_check clock ?s rest] =>
      specialize (IH s); destruct (reconcile db_check clock s rest) as [st' rest']
  end.
  cbn [fst] in *. rewrite IH. apply upsert_all_core.
  rewrite <- K. reflexivity.
Qed.

Lemma reconcile_db (results : dict (list Candidate)) (st : Run * Z * Z) :
  db_of (reconcile db_check clock st results)
  = db_of (upsert_all db_check clock st (all_candidates results)).
Proof. exact (f_equal fst (reconcile_core results st)). Qed.

Lemma db_of_cons (st : Run * Z * Z) (c : Candidate) (rest : list Candidate) :
  db_of (upsert_all db_check clock st (c :: rest))
  = db_of (upsert_all db_check clock (fst (upsert db_check clock st c)) rest).
Proof. unfold db_of. now rewrite upsert_all_cons. Qed.



Lemma upsert_all_at_most_one (l : list Candidate) (s : string) :
  forall st, (count_sid s (db (fst (fst st))) <= 1)%nat ->
    (count_sid s (db_of (upsert_all db_check clock st l)) <= 1)%nat.
Proof.
  induction l as [|c rest IH]; intros st H; [exact H|].
  rewrite db_of_cons. apply IH.
  destruct (upsert_count clock st c s) as [E | (_ & E & _)];
    unfold db_of in E; rewrite E; lia.
Qed.









(** The unique constraint on [source_id] survives the loop. *)
Lemma reconcile_keeps_unique (results : dict (list Candidate))
    (st : Run * Z * Z) :
  (forall s, (count_sid s (db (fst (fst st))) <= 1)%nat) ->
  forall s, (count_sid s (db_of (reconcile db_check clock st results)) <= 1)%nat.
Proof.
  intros U s. rewrite reconcile_db. apply upsert_all_at_most_one, U.
Qed.

End Loops.



End Reconciliation.

Section ReconciliationClaims.

Import models live_data_service Command.

Variable db_check : Candidate -> option exn.


End ReconciliationClaims.

(** ** Truncated identifiers of the news fetcher *)

Section NewsIdentifiers.

Import models live_data_service Command.




End NewsIdentifiers.

(** ** The aggregator *)

Section Aggregator.

Import live_data_service.

Variable registry : dict Fetcher.
Variable w : World.

Lemma dict_get_set {V : Type} (s k : string) (v : V) (d : dict V) :
  dict_get s (dict_set k v d)
  = if String.eqb s k then Some v else dict_get s d.
Proof.
  induction d as [|[k' v'] r IH]; simpl.
  - now destruct (String.eqb s k).
  - destruct (String.eqb k k') eqn:E; simpl.
    + apply String.eqb_eq in E. subst k'. now destruct (String.eqb s k).
    + rewrite IH. destruct (String.eqb s k) eqn:E'; [|reflexivity].
      apply String.eqb_eq in E'. subst s. now rewrite E.
Qed.

(** One turn of the loop never raises. *)
Lemma fetch_loop_cons (source : string) (rest : list string)
    (results : dict (list Candidate)) :
  exists log,
    fetch_loop registry w (source :: rest) results
    = (fst (fetch_loop registry w rest
              (match recorded registry w source with
               | Some trends => dict_set source trends results
               | None => results
               end)),
       (log ++ snd (fetch_loop registry w rest
                      (match recorded registry w source with
                       | Some trends => dict_set source trends results
                       | None => results
                       end)))%list) /\
    (dict_get source registry = None ->
     In (WARNING, ("Unknown source: " ++ source)%string) log) /\
    (forall fetcher e,
       dict_get source registry = Some fetcher ->
       fst (fetcher w) = Raises e ->
       In (ERROR, ("Error fetching " ++ source ++ ": " ++ exn_str e)%string)
          log).
Proof.
  cbn [fetch_loop]. unfold recorded.
  destruct (dict_get source registry) as [fetcher|].
  - destruct (fetcher w) as [[trends|e] l] eqn:F; cbn [fst];
      unfold try_except, bind, ret, logger; cbn;
      match goal with
      | |- context [fetch_loop registry w rest ?r] =>
          destruct (fetch_loop registry w rest r) as [o l']
      end; cbn.
    + exists l. rewrite app_nil_r.
      split; [reflexivity|]. split; [discriminate|].
      intros f e' H. injection H as <-. rewrite F. discriminate.
    + eexists. split; [reflexivity|]. split; [discriminate|].
      intros f e' H. injection H as <-. rewrite F. cbn. intro H.
      injection H as <-. apply in_or_app. right. now left.
  - unfold bind, ret, logger; cbn.
    destruct (fetch_loop registry w rest results) as [o l']. cbn.
    exists [(WARNING, ("Unknown source: " ++ source)%string)].
    split; [reflexivity|]. split; [now left | discriminate].
Qed.

Lemma fetch_loop_spec (sources : list string) :
  forall results0,
  exists results log,
    fetch_loop registry w sources results0 = (Returns results, log) /\
    (forall s, ~ In s sources -> dict_get s results = dict_get s results0) /\
    (forall s, In s sources ->
       dict_get s results
       = match recorded registry w s with
         | Some trends => Some trends
         | None => dict_get s results0
         end) /\
    (forall s, In s sources -> dict_get s registry = None ->
       In (WARNING, ("Unknown source: " ++ s)%string) log) /\
    (forall s fetcher e, In s sources ->
       dict_get s registry = Some fetcher -> fst (fetcher w) = Raises e ->
       In (ERROR, ("Error fetching " ++ s ++ ": " ++ exn_str e)%string) log).
Proof.
  induction sources as [|source rest IH]; intro results0.
  - exists results0, []. repeat split; intros; try contradiction; reflexivity.
  - destruct (fetch_loop_cons source rest results0) as (l & E & Lw & Le).
    set (results1 := match recorded registry w source with
                     | Some trends => dict_set source trends results0
                     | None => results0
                     end) in *.
    destruct (IH results1) as (results & log & E' & Hout & Hin & Hw & He).
    rewrite E' in E. cbn [fst snd] in E.
    assert (forall s, dict_get s results1
                      = if String.eqb s source
                        then match recorded registry w source with
                             | Some trends => Some trends
                             | None => dict_get s results0
                             end
                        else dict_get s results0) as G.
    { intro s. subst results1.
      destruct (recorded registry w source) as [trends|].
      - apply dict_get_set.
      - now destruct (String.eqb s source). }
    exists results, (l ++ log)%list. split; [exact E|].
    assert (forall s, dict_get s results
                      = if existsb (String.eqb s) (source :: rest)
                        then match recorded registry w s with
                             | Some trends => Some trends
                             | None => dict_get s results0
                             end
                        else dict_get s results0) as Full.
    { intro s. cbn [existsb].
      destruct (existsb (String.eqb s) rest) eqn:X.
      - rewrite orb_true_r. apply existsb_exists in X.
        destruct X as (x & Hx & Ex). apply String.eqb_eq in Ex. subst x.
        rewrite (Hin s Hx), G.
        destruct (recorded registry w s) as [trends|] eqn:R; [reflexivity|].
        destruct (String.eqb s source) eqn:Es; [|reflexivity].
        apply String.eqb_eq in Es. subst s. now rewrite R.
      - rewrite orb_false_r.
        assert (~ In s rest) as N.
        { intro Hs. assert (existsb (String.eqb s) rest = true) as Y.
          { apply existsb_exists. exists s. split; [exact Hs|].
            apply String.eqb_refl. }
          congruence. }
        rewrite (Hout s N), G.
        destruct (String.eqb s source) eqn:Es; [|reflexivity].
        apply String.eqb_eq in Es. now subst s. }
    repeat split.
    + intros s N. rewrite Full.
      destruct (existsb (String.eqb s) (source :: rest)) eqn:X;
        [|reflexivity].
      exfalso. apply N. apply existsb_exists in X.
      destruct X as (x & Hx & Ex). apply String.eqb_eq in Ex. now subst x.
    + intros s Hs. rewrite Full.
      assert (existsb (String.eqb s) (source :: rest) = true) as ->;
        [|reflexivity].
      apply existsb_exists. exists s. split; [exact Hs|].
      apply String.eqb_refl.
    + intros s [<- | Hs] U; apply in_or_app; [left | right]; auto.
    + intros s f e [<- | Hs] Hf Hr; apply in_or_app; [left | right]; eauto.
Qed.

End Aggregator.

Section AggregatorClaims.

Import live_data_service.

(** C2. Aggregator isolation: for any registry of fetchers and any list of
    requested names the aggregator returns (it does not raise).  Its result
    holds, for a requested name, the list its fetcher returned, or the
    empty list when the fetcher raised, whatever the other fetchers did;
    an unknown name gets no entry and a warning is logged; a name that was
    not requested gets no entry.  Without a list of names, all the names
    of the registry are requested. *)
Theorem aggregator_isolation (registry : dict Fetcher) (w : World)
    (sources : list string) :
  (exists results log,
     fetch_all_live_trends registry w (Some sources) = (Returns results, log) /\
     (forall s, ~ In s sources -> dict_get s results = None) /\
     (forall s, In s sources ->
        dict_get s results = recorded registry w s) /\
     (forall s fetcher e, In s sources ->
        dict_get s registry = Some fetcher -> fst (fetcher w) = Raises e ->
        dict_get s results = Some [] /\
        In (ERROR, ("Error fetching " ++ s ++ ": " ++ exn_str e)%string) log) /\
     (forall s, In s sources -> dict_get s registry = None ->
        dict_get s results = None /\
        In (WARNING, ("Unknown source: " ++ s)%string) log)) /\
  fetch_all_live_trends registry w None
  = fetch_all_live_trends registry w (Some (map fst registry)).
Proof.
  split; [|reflexivity].
  unfold fetch_all_live_trends.
  destruct (fetch_loop_spec registry w sources [])
    as (results & log & E & Hout & Hin & Hw & He).
  exists results, log. split; [exact E|].
  assert (forall s, In s sources -> dict_get s results = recorded registry w s)
    as R.
  { intros s Hs. rewrite (Hin s Hs). now destruct (recorded registry w s). }
  repeat split.
  - intros s N. now rewrite (Hout s N).
  - exact R.
  - rewrite (R s H). unfold recorded. now rewrite H0, H1.
  - eauto.
  - rewrite (R s H). unfold recorded. now rewrite H0.
  - auto.
Qed.

(** The five fetchers of the registry catch what they raise: called by
    the aggregator, each returns a list. *)
Lemma FETCHERS_never_raise (name : string) (fetcher : Fetcher) (w : World) :
  dict_get name FETCHERS = Some fetcher ->
  exists trends log, fetcher w = (Returns trends, log).
Proof.
  unfold FETCHERS, never_raises. cbn [dict_get].
  repeat match goal with
         | |- context [String.eqb name ?k] => destruct (String.eqb name k)
         end;
    intro H; try discriminate; injection H as <-;
    match goal with
    | |- context [let '(_, _) := ?f in _] => destruct f as [trends log]
    end; now exists trends, log.
Qed.

(** The command returns for every registry, world, store and option. *)
Lemma handle_never_raises (db_check : Candidate -> option exn)
    (clock : nat -> Z) (registry : dict Fetcher) (w : World)
    (options : Command.Options) (d : models.Database) :
  exists r log,
    Command.handle db_check clock registry w options d = (Returns r, log).
Proof.
  unfold Command.handle, fetch_all_live_trends.
  match goal with
  | |- context [fetch_loop registry w ?l []] =>
      destruct (fetch_loop_spec registry w l []) as (results & log & E & _)
  end.
  rewrite E. unfold bind, ret.
  match goal with
  | |- context [Command.reconcile ?c ?k ?s results] =>
      destruct (Command.reconcile c k s results) as [[[r tc] tu] left]
  end.
  eexists. eexists. reflexivity.
Qed.

End AggregatorClaims.

(** ** The query service *)

Section Service.

Import models TrendService.
Local Open Scope Q_scope.

Lemma filter_filter {A : Type} (f g : A -> bool) (l : list A) :
  filter f (filter g l) = filter (fun x => g x && f x) l.
Proof.
  induction l as [|x r IH]; [reflexivity|]. simpl.
  destruct (g x); simpl; [destruct (f x)|]; now rewrite IH.
Qed.

Lemma filter_all {A : Type} (l : list A) : filter (fun _ => true) l = l.
Proof. induction l; simpl; congruence. Qed.

Lemma cond_filter {A : Type} (b : bool) (f : A -> bool) (l : list A) :
  (if b then filter f l else l) = filter (fun x => negb b || f x) l.
Proof.
  destruct b; cbn [negb orb]; [reflexivity | now rewrite filter_all].
Qed.

(** The filters of [get_filtered_trends], applied one after the other,
    keep the rows that pass them all. *)
Lemma get_filtered_trends_eq (d : Database)
    (category_ search platform_ source_ : string) :
  get_filtered_trends d category_ search platform_ source_
  = order_by_score_desc
      (filter (matches category_ search platform_ source_) (trends d)).
Proof.
  unfold get_filtered_trends, matches. f_equal.
  rewrite !cond_filter, !filter_filter. apply filter_ext. intro t.
  now rewrite !andb_assoc, orb_assoc.
Qed.

Lemma length_take (n : nat) (s : string) :
  (String.length (PyStr.take n s) <= n)%nat.
Proof.
  revert s. induction n as [|n IH]; intros [|c r]; simpl; try lia.
  specialize (IH r). lia.
Qed.


Lemma length_firstn_Z {A : Type} (limit : Z) (l : list A) :
  (0 <= limit)%Z ->
  (Z.of_nat (List.length (firstn (Z.to_nat limit) l)) <= limit)%Z.
Proof. intro H. pose proof (firstn_le_length (Z.to_nat limit) l). lia. Qed.

End Service.

Section ServiceClaims.

Import models TrendService Command.
Local Open Scope Q_scope.



(** C9. Context search: with no keyword the result is empty, whatever the
    limit and the table.  With keywords and a limit that is not negative,
    the search returns at most [limit] records of nine fields, made from
    stored rows that match a keyword, each with a description of at most
    300 characters.  (A negative limit makes the query set raise.) *)
Theorem context_search_guard (d : Database) (keywords : list string)
    (limit : Z) :
  search_trends_for_context d [] limit = Returns [] /\
  (keywords <> [] -> (0 <= limit)%Z ->
   exists found rows,
     search_trends_for_context d keywords limit = Returns found /\
     (Z.of_nat (List.length found) <= limit)%Z /\
     Forall (fun x => (String.length (x_description x) <= 300)%nat) found /\
     found = map context_of rows /\
     Forall (fun t => In t (trends d) /\ keyword_query keywords t = true)
            rows) /\
  (keywords <> [] -> (limit < 0)%Z ->
   exists e, search_trends_for_context d keywords limit = Raises e).
Proof.
  split; [reflexivity|]. split.
  - intros N L. destruct keywords as [|kw kws]; [now elim N|].
    unfold search_trends_for_context, limit_to.
    assert ((limit <? 0)%Z = false) as -> by lia.
    set (qs := order_by_score_desc _).
    exists (map context_of (firstn (Z.to_nat limit) qs)),
           (firstn (Z.to_nat limit) qs).
    split; [reflexivity|]. split; [|split; [|split; [reflexivity|]]].
    + rewrite length_map. now apply length_firstn_Z.
    + apply Forall_forall. intros x H. apply in_map_iff in H.
      destruct H as (t & <- & _). apply length_take.
    + apply Forall_forall. intros t H. apply firstn_incl in H.
      subst qs. unfold order_by_score_desc in H.
      apply (Permutation_in _ (sort_desc_perm score _)) in H.
      now apply filter_In in H.
  - intros N L. destruct keywords as [|kw kws]; [now elim N|].
    unfold search_trends_for_context, limit_to.
    assert ((limit <? 0)%Z = true) as -> by lia. eexists. reflexivity.
Qed.

(** C7, on the code.  [clear] removes the rows whose source is not
    ['manual'] and keeps the others as they are, in their order.  The
    number it returns counts, besides these rows, the [SavedTrend] and
    [Comment] rows that reference them and go with them.  With three
    manual and two fetched trends and nothing else it is 2; with one
    fetched trend that one user has saved it is 2 as well, for one trend
    deleted. *)
Theorem clear_counts_cascade (d : Database) :
  let gone := filter (fun t => negb (is_manual t)) (trends d) in
  trends (fst (clear d)) = filter is_manual (trends d) /\
  snd (clear d)
  = (Z.of_nat (List.length gone)
     + Z.of_nat (List.length
                   (filter (fun s => references gone (st_trend s))
                           (saved_trends d)))
     + Z.of_nat (List.length
                   (filter (fun c => references gone (cm_trend c))
                           (trend_comments d))))%Z /\
  (snd (clear seeded_db) = 2%Z /\
   map pk (trends (fst (clear seeded_db))) = [1; 3; 5]%Z) /\
  (snd (clear saved_db) = 2%Z /\
   List.length (trends saved_db) = 1%nat /\
   trends (fst (clear saved_db)) = [] /\
   snd (clear saved_db)
   <> Z.of_nat (List.length
                  (filter (fun t => negb (is_manual t)) (trends saved_db)))).
Proof.
  intro gone. subst gone. unfold clear, delete, is_manual.
  cbn [fst snd trends]. repeat split.
  - apply filter_ext. intro t. apply negb_involutive.
  - vm_compute. discriminate.
Qed.

End ServiceClaims.

(** ** The definitions at work on concrete inputs *)

Section Examples.

Import models live_data_service TrendService Command.
Local Open Scope Q_scope.

(** The test suite of RFC 1321. *)
Example md5_test_suite :
  MD5.hexdigest (MD5.encode "") = "d41d8cd98f00b204e9800998ecf8427e"%string /\
  MD5.hexdigest (MD5.encode "a") = "0cc175b9c0f1b6a831c399e269772661"%string /\
  MD5.hexdigest (MD5.encode "abc") = "900150983cd24fb0d6963f7d28e17f72"%string /\
  MD5.hexdigest (MD5.encode "message digest")
  = "f96b697d7cb7938d525a2f31aaf161d0"%string /\
  MD5.hexdigest (MD5.encode "abcdefghijklmnopqrstuvwxyz")
  = "c3fcd3d76192e4007dfb496cca67e13b"%string.
Proof. vm_compute. repeat split. Qed.

Example stock_identifier :
  _make_source_id "stocks" "AAPL" = "55ad23bb3aef7ac1973e3fbf843cd49b"%string.
Proof. vm_compute. reflexivity. Qed.

Example text_primitives :
  PyStr.strip "  Rocq  " = "Rocq"%string /\
  PyStr.lower "AI-Generated" = "ai-generated"%string /\
  PyStr.icontains "AI-Generated Music Takes Over Streaming" "ai" = true /\
  PyStr.icontains "Quiet Luxury" "AI" = false /\
  PyFormat.fixed 2 (1052 # 10) = "105.20"%string /\
  PyFormat.commas 1234567 = "1,234,567"%string.
Proof. vm_compute. repeat split. Qed.

(** [filter(search='AI')] finds the sample titled "AI-Generated Music Takes
    Over Streaming", and [filter(category='music', platform='tiktok')]
    only rows that match both. *)
Example search_sample :
  map pk (get_filtered_trends sample_db "" "AI" "" "") = [1%Z] /\
  map pk (get_filtered_trends sample_db "music" "" "tiktok" "") = [1%Z] /\
  map pk (get_filtered_trends sample_db "music" "" "twitter" "") = [].
Proof. vm_compute. repeat split. Qed.

(** The market-movers fetcher gives a falling stock a high score and the
    velocity "declining": its velocities do not follow
    [_classify_velocity]. *)
Example stock_velocity_is_sign_aware :
  let c := StockTrendsFetcher.trend (mkMover "AMZN" (952 # 10) (- (48 # 10)) 0) in
  c_velocity c = "declining"%string /\
  _classify_velocity (c_score c) = "exploding"%string.
Proof. vm_compute. split; reflexivity. Qed.

(** A whole run of [handle] on an empty store, then a second one. *)
Example handle_twice :
  let run d := handle accept_all (fun n => Z.of_nat n) FETCHERS example_world
                 (mkOptions (Some ["stocks"%string]) false) d in
  match fst (run empty_db) with
  | Returns r =>
      count (db r) = 4%Z /\
      match fst (run (db r)) with
      | Returns r' =>
          count (db r') = 4%Z /\
          map created_at (trends (db r')) = map created_at (trends (db r)) /\
          map updated_at (trends (db r)) = [0; 1; 2; 3]%Z
      | Raises _ => False
      end
  | Raises _ => False
  end.
Proof. vm_compute. repeat split. Qed.

End Examples.

Section Witnesses.

Import models live_data_service TrendService Command.
Local Open Scope Q_scope.


Lemma aggregator_isolation_witness :
  exists results log,
    fetch_all_live_trends two_fetchers example_world
      (Some ["A"; "B"; "C"]%string) = (Returns results, log) /\
    dict_get "A" results = Some [] /\
    dict_get "B" results = Some [gnews_item] /\
    dict_get "C" results = None /\
    In (WARNING, "Unknown source: C"%string) log.
Proof.
  destruct (aggregator_isolation two_fetchers example_world
              ["A"; "B"; "C"]%string)
    as ((results & log & E & _ & Hin & Hr & Hu) & _).
  exists results, log. split; [exact E|].
  split.
  { apply (Hr "A"%string raising_fetcher (Exception "boom"));
      [simpl; auto | reflexivity | reflexivity]. }
  split.
  { rewrite Hin; [reflexivity | simpl; auto]. }
  apply Hu; [simpl; auto | reflexivity].
Defined.


Lemma velocity_consistency_witness :
  _classify_velocity 85 = "exploding"%string /\
  _classify_velocity (849 # 10) = "rising"%string /\
  _classify_velocity 30 = "steady"%string /\
  _classify_velocity (299 # 10) = "declining"%string.
Proof.
  destruct (velocity_consistency example_world "united_states" 20) as [_ T].
  destruct (T 85) as (A & _).
  destruct (T (849 # 10)) as (_ & B & _).
  destruct (T 30) as (_ & _ & C & _).
  destruct (T (299 # 10)) as (_ & _ & _ & D).
  split; [apply A; lra|].
  split; [apply B; lra|].
  split; [apply C; lra | apply D; lra].
Defined.


Lemma context_search_guard_witness :
  exists found,
    search_trends_for_context seeded_db ["d"; "news"]%string 2 = Returns found /\
    (List.length found <= 2)%nat.
Proof.
  destruct (context_search_guard seeded_db ["d"; "news"]%string 2)
    as (_ & H & _).
  destruct H as (found & rows & E & L & _); [discriminate | lia |].
  exists found. split; [exact E | lia].
Defined.


End Witnesses.

(** * Further properties *)

(** ** What reconciliation leaves alone, and what it counts *)

Section ReconcileFrame.

Import models live_data_service Command.

Variable db_check : Candidate -> option exn.
Variable clock : nat -> Z.

Lemma untouched_has_sid (l : list Candidate) (c : Candidate) (s : string)
    (t : Trend) :
  In c l -> writes db_check c = Some s -> untouched db_check l t = true ->
  has_source_id s t = false.
Proof.
  intros Hc W U. unfold untouched, has_source_id in *.
  destruct (source_id t) as [s'|]; [|reflexivity].
  destruct (String.eqb s' s) eqn:E; [|reflexivity].
  apply String.eqb_eq in E. subst s'.
  apply negb_true_iff in U.
  assert (existsb (writes_sid db_check s) l = true) as X; [|congruence].
  apply existsb_exists. exists c. split; [exact Hc|].
  unfold writes_sid. rewrite W. apply String.eqb_refl.
Qed.

Lemma untouched_cons (c : Candidate) (l : list Candidate) (t : Trend) :
  untouched db_check (c :: l) t = true -> untouched db_check l t = true.
Proof.
  unfold untouched. destruct (source_id t) as [s|]; [|reflexivity].
  cbn [existsb]. rewrite negb_orb. intro H.
  now apply andb_prop in H.
Qed.

(** One turn keeps, in their order, the rows that satisfy [keep], when
    [keep] holds of no row with the identifier it writes. *)
Lemma upsert_keeps (keep : Trend -> bool) (st : Run * Z * Z) (c : Candidate) :
  (forall s t, writes db_check c = Some s -> keep t = true ->
               has_source_id s t = false) ->
  filter keep (trends (db_of (upsert db_check clock st c)))
  = filter keep (trends (db (fst (fst st)))).
Proof.
  intro K. rewrite upsert_db.
  destruct (writes db_check c) as [sid|] eqn:W; [|reflexivity]. cbv zeta.
  destruct (filter (has_source_id sid) (trends (db (fst (fst st)))))
    as [|old [|? ?]] eqn:F; [| |reflexivity]; cbn [trends].
  - rewrite filter_app. cbn [filter].
    destruct (keep (create_row _ _ _ _)) eqn:E; [|apply app_nil_r].
    specialize (K sid _ eq_refl E). unfold has_source_id in K.
    cbn [source_id create_row] in K. now rewrite String.eqb_refl in K.
  - generalize (trends (db (fst (fst st)))). intro rows.
    induction rows as [|t r IH]; [reflexivity|]. cbn [map filter].
    destruct (has_source_id sid t) eqn:E.
    + destruct (keep t) eqn:Kt.
      * specialize (K sid t eq_refl Kt). congruence.
      * destruct (keep (update_row _ old _)) eqn:Ku; [|exact IH].
        specialize (K sid _ eq_refl Ku). unfold has_source_id in K, E.
        cbn [source_id update_row] in K.
        assert (In old (filter (has_source_id sid)
                          (trends (db (fst (fst st)))))) as Ho
          by (rewrite F; now left).
        apply filter_In in Ho. destruct Ho as [_ Ho].
        unfold has_source_id in Ho. congruence.
    + destruct (keep t); [now rewrite IH | exact IH].
Qed.

Lemma upsert_all_keeps (l : list Candidate) (keep : Trend -> bool) :
  (forall c s t, In c l -> writes db_check c = Some s -> keep t = true ->
                 has_source_id s t = false) ->
  forall st,
    filter keep (trends (db_of (upsert_all db_check clock st l)))
    = filter keep (trends (db (fst (fst st)))).
Proof.
  induction l as [|c rest IH]; intros K st; [reflexivity|].
  rewrite db_of_cons, IH.
  - apply upsert_keeps. intros s t. apply K. now left.
  - intros c' s t Hc. apply K. now right.
Qed.

(** One turn changes neither the saved trends nor the comments. *)
Lemma upsert_other_tables (st : Run * Z * Z) (c : Candidate) :
  saved_trends (db_of (upsert db_check clock st c))
  = saved_trends (db (fst (fst st))) /\
  trend_comments (db_of (upsert db_check clock st c))
  = trend_comments (db (fst (fst st))).
Proof.
  rewrite upsert_db.
  destruct (writes db_check c) as [sid|]; [|now split]. cbv zeta.
  destruct (filter (has_source_id sid) (trends (db (fst (fst st)))))
    as [|old [|? ?]]; now split.
Qed.

Lemma upsert_all_other_tables (l : list Candidate) :
  forall st,
    saved_trends (db_of (upsert_all db_check clock st l))
    = saved_trends (db (fst (fst st))) /\
    trend_comments (db_of (upsert_all db_check clock st l))
    = trend_comments (db (fst (fst st))).
Proof.
  induction l as [|c rest IH]; intro st; [now split|].
  rewrite db_of_cons. destruct (IH (fst (upsert db_check clock st c))) as [A B].
  destruct (upsert_other_tables st c) as [A' B']. unfold db_of in *.
  split; congruence.
Qed.

(** X1. Frame of reconciliation: the loop of [handle] leaves every row
    without identifier (a manually entered trend), and every row whose
    identifier no accepted candidate carries, exactly as it was and in its
    place among such rows; it never touches the saved trends and the
    comments. *)
Theorem reconcile_frame (st : Run * Z * Z) (results : dict (list Candidate)) :
  let after := db_of (reconcile db_check clock st results) in
  let before := db (fst (fst st)) in
  filter (untouched db_check (all_candidates results)) (trends after)
  = filter (untouched db_check (all_candidates results)) (trends before) /\
  filter (fun t => match source_id t with None => true | Some _ => false end)
         (trends after)
  = filter (fun t => match source_id t with None => true | Some _ => false end)
           (trends before) /\
  saved_trends after = saved_trends before /\
  trend_comments after = trend_comments before.
Proof.
  intros after before. subst after before. rewrite reconcile_db.
  split; [|split].
  - apply upsert_all_keeps. intros c s t Hc W U.
    now apply (untouched_has_sid (all_candidates results) c).
  - apply upsert_all_keeps. intros c s t _ _ U. unfold has_source_id.
    now destruct (source_id t).
  - apply upsert_all_other_tables.
Qed.

End ReconcileFrame.

Section ReconcileTallies.

Import models live_data_service Command.

Variable db_check : Candidate -> option exn.
Variable clock : nat -> Z.

(** One turn adds one to a counter at most, and to [created] exactly when
    it adds a row. *)
Lemma upsert_tally (r : Run) (created updated : Z) (c : Candidate) :
  let res := upsert db_check clock (r, created, updated) c in
  (count (db_of res) - count (db r) = created_of res - created)%Z /\
  (0 <= created_of res - created)%Z /\
  (0 <= updated_of res - updated)%Z /\
  ((created_of res - created) + (updated_of res - updated) <= 1)%Z.
Proof.
  unfold upsert, db_of, created_of, updated_of, update_or_create, count.
  cbn [pop_source_id fst snd].
  destruct (c_source_id c) as [sid|]; [|cbn; lia].
  destruct (PyStr.truthy sid); cbn [negb]; [|cbn; lia].
  destruct (filter (has_source_id sid) (trends (db r))) as [|old [|? ?]];
    try destruct (db_check _); cbn [fst snd db write trends]; try lia.
  - rewrite length_app. cbn [List.length]. lia.
  - rewrite length_map. lia.
Qed.

Lemma upsert_all_tally (l : list Candidate) :
  forall (r : Run) (created updated : Z),
    let res := upsert_all db_check clock (r, created, updated) l in
    (count (db_of res) - count (db r) = created_of res - created)%Z /\
    (0 <= created_of res - created)%Z /\
    (0 <= updated_of res - updated)%Z /\
    ((created_of res - created) + (updated_of res - updated)
     <= Z.of_nat (List.length l))%Z.
Proof.
  induction l as [|c rest IH]; intros r created updated res.
  - subst res. unfold db_of, created_of, updated_of. cbn. lia.
  - subst res. cbn [upsert_all].
    pose proof (upsert_tally r created updated c) as S. cbv zeta in S.
    destruct (upsert db_check clock (r, created, updated) c)
      as [[[r1 c1] u1] c'].
    specialize (IH r1 c1 u1). cbv zeta in IH.
    destruct (upsert_all db_check clock (r1, c1, u1) rest)
      as [[[r2 c2] u2] rest'].
    unfold db_of, created_of, updated_of in *. cbn [fst snd] in *.
    cbn [List.length]. lia.
Qed.

(** X2. The tallies of reconciliation: over the whole loop of [handle] the
    number of rows grows by exactly the number reported as created; both
    tallies only grow, and together they count at most one per
    candidate. *)
Theorem reconcile_tallies (results : dict (list Candidate)) :
  forall (r : Run) (total_created total_updated : Z),
    let res :=
      reconcile db_check clock (r, total_created, total_updated) results in
    (count (db_of res) = count (db r) + (created_of res - total_created))%Z /\
    (total_created <= created_of res)%Z /\
    (total_updated <= updated_of res)%Z /\
    ((created_of res - total_created) + (updated_of res - total_updated)
     <= Z.of_nat (List.length (all_candidates results)))%Z.
Proof.
  induction results as [|[source_name trend_list] rest IH];
    intros r tc tu res.
  - subst res. unfold db_of, created_of, updated_of. cbn. lia.
  - subst res. cbn [reconcile].
    pose proof (upsert_all_tally trend_list r 0 0) as S. cbv zeta in S.
    destruct (upsert_all db_check clock (r, 0%Z, 0%Z) trend_list)
      as [[[r1 created] updated] trend_list'].
    match goal with
    | |- context [reconcile db_check clock (?r', ?a, ?b) rest] =>
        specialize (IH r' a b); cbv zeta in IH;
        destruct (reconcile db_check clock (r', a, b) rest)
          as [[[r2 c2] u2] rest']
    end.
    unfold db_of, created_of, updated_of, all_candidates in *.
    cbn [fst snd db write flat_map] in *.
    rewrite length_app. lia.
Qed.

End ReconcileTallies.

Section ReconcileKeys.

Import models live_data_service Command.

Variable db_check : Candidate -> option exn.
Variable clock : nat -> Z.

Lemma keys_ok_pks (d : Database) :
  keys_ok d <->
  NoDup (map pk (trends d)) /\
  Forall (fun p => (p < next_pk d)%Z) (map pk (trends d)).
Proof. unfold keys_ok. now rewrite Forall_map. Qed.

Lemma births_pks (rows rows' : list Trend) :
  map (fun t => (pk t, created_at t, source_id t)) rows
  = map (fun t => (pk t, created_at t, source_id t)) rows' ->
  map pk rows = map pk rows'.
Proof.
  intro E. apply (f_equal (map (fun x => fst (fst x)))) in E.
  now rewrite !map_map in E.
Qed.

Lemma upsert_keeps_keys (st : Run * Z * Z) (c : Candidate) :
  keys_ok (db (fst (fst st))) -> keys_ok (db_of (upsert db_check clock st c)).
Proof.
  intro K. rewrite upsert_db.
  destruct (writes db_check c) as [sid|]; [|exact K]. cbv zeta.
  destruct (filter (has_source_id sid) (trends (db (fst (fst st)))))
    as [|old [|? ?]] eqn:F; [| |exact K];
    apply keys_ok_pks in K; destruct K as [N B]; apply keys_ok_pks;
    cbn [trends next_pk].
  - rewrite map_app. cbn [map pk create_row]. split.
    + apply NoDup_app; [exact N | repeat constructor; auto |].
      intros x Hx [<- | []].
      rewrite Forall_forall in B. specialize (B _ Hx). lia.
    + apply Forall_app. split.
      * eapply Forall_impl; [|exact B]. cbv beta. intros; lia.
      * repeat constructor. lia.
  - rewrite (births_pks _ _ (update_keeps_births _ _ _ _ _ F)). now split.
Qed.

Lemma upsert_all_keeps_keys (l : list Candidate) :
  forall st, keys_ok (db (fst (fst st))) ->
             keys_ok (db_of (upsert_all db_check clock st l)).
Proof.
  induction l as [|c rest IH]; intros st K; [exact K|].
  rewrite db_of_cons. apply IH. now apply upsert_keeps_keys.
Qed.

(** X3. Keys stay sound: if the stored keys are pairwise different and
    below the next key of the table, they still are after the loop of
    [handle]; a created row gets a key that no row had. *)
Theorem reconcile_keeps_keys (st : Run * Z * Z)
    (results : dict (list Candidate)) :
  keys_ok (db (fst (fst st))) ->
  keys_ok (db_of (reconcile db_check clock st results)).
Proof. intro K. rewrite reconcile_db. now apply upsert_all_keeps_keys. Qed.

Lemma filter_replace (p : Trend -> bool) (obj : Trend) (rows : list Trend) :
  p obj = true ->
  filter p (map (fun t => if p t then obj else t) rows)
  = map (fun _ => obj) (filter p rows).
Proof.
  intro P. induction rows as [|t r IH]; [reflexivity|]. cbn [map filter].
  destruct (p t) eqn:E.
  - rewrite P. cbn [map]. now rewrite IH.
  - now rewrite E.
Qed.

(** After its turn, the row of an accepted candidate carries its fields. *)
Lemma upsert_overwrites (st : Run * Z * Z) (c : Candidate) (s : string) :
  writes db_check c = Some s ->
  (count_sid s (db (fst (fst st))) <= 1)%nat ->
  exists t,
    filter (has_source_id s) (trends (db_of (upsert db_check clock st c)))
    = [t] /\
    overwritten (snd (pop_source_id c)) t.
Proof.
  intros W U. rewrite upsert_db, W. cbv zeta. unfold count_sid in U.
  destruct (filter (has_source_id s) (trends (db (fst (fst st)))))
    as [|old [|? ?]] eqn:F; [| |cbn in U; lia]; cbn [trends].
  - eexists. split.
    + rewrite filter_app, F. cbn [filter app]. unfold has_source_id at 1.
      cbn [source_id create_row]. rewrite String.eqb_refl. reflexivity.
    + unfold overwritten. cbn. now repeat split.
  - eexists. split.
    + rewrite filter_replace, F; [reflexivity|].
      assert (In old (filter (has_source_id s)
                        (trends (db (fst (fst st)))))) as Ho
        by (rewrite F; now left).
      apply filter_In in Ho. destruct Ho as [_ Ho].
      unfold has_source_id in *. exact Ho.
    + unfold overwritten. cbn. now repeat split.
Qed.

(** X4. The last writer wins: when the candidates of a run are
    [l1 ++ c :: l2], the engine accepts [c] under the identifier [s], no
    candidate of [l2] is written under [s], and at most one row carried [s]
    before, then after the run exactly one row carries [s], with the
    fields of [c]. *)
Theorem last_writer_wins (st : Run * Z * Z) (results : dict (list Candidate))
    (l1 l2 : list Candidate) (c : Candidate) (s : string) :
  all_candidates results = (l1 ++ c :: l2)%list ->
  writes db_check c = Some s ->
  (forall c', In c' l2 -> writes db_check c' <> Some s) ->
  (count_sid s (db (fst (fst st))) <= 1)%nat ->
  exists t,
    filter (has_source_id s)
           (trends (db_of (reconcile db_check clock st results))) = [t] /\
    overwritten (snd (pop_source_id c)) t.
Proof.
  intros E W L U. rewrite reconcile_db, E.
  unfold db_of. rewrite upsert_all_app, upsert_all_cons.
  set (st1 := fst (upsert_all db_check clock st l1)).
  assert (count_sid s (db (fst (fst st1))) <= 1)%nat as U1
    by (apply (upsert_all_at_most_one db_check clock l1 s st U)).
  destruct (upsert_overwrites st1 c s W U1) as (t & F & O).
  exists t. split; [|exact O].
  fold (db_of (upsert_all db_check clock
                 (fst (upsert db_check clock st1 c)) l2)).
  rewrite upsert_all_keeps; [exact F|].
  intros c' s' t' Hc W' H. unfold has_source_id in *.
  destruct (source_id t') as [x|]; [|reflexivity].
  apply String.eqb_eq in H. subst x.
  destruct (String.eqb s s') eqn:X; [|reflexivity].
  apply String.eqb_eq in X. subst s'. now elim (L c' Hc).
Qed.

End ReconcileKeys.

(** ** Clearing the fetched trends *)

Section Clearing.

Import models live_data_service Command.

Lemma references_In (rows : list Trend) (key : Z) :
  references rows key = true <-> exists t, In t rows /\ pk t = key.
Proof.
  unfold references. rewrite existsb_exists.
  split; intros (t & H & E); exists t; (split; [exact H|]);
    [now apply Z.eqb_eq | now apply Z.eqb_eq].
Qed.

Lemma delete_keeps_reference (doomed : Trend -> bool) (rows : list Trend)
    (key : Z) :
  references rows key = true ->
  references (filter doomed rows) key = false ->
  references (filter (fun t => negb (doomed t)) rows) key = true.
Proof.
  intros R G. apply references_In in R. destruct R as (t & Ht & E).
  apply references_In. exists t. split; [|exact E].
  apply filter_In. split; [exact Ht|].
  destruct (doomed t) eqn:D; [|reflexivity].
  assert (references (filter doomed rows) key = true) as X; [|congruence].
  apply references_In. exists t. split; [|exact E].
  apply filter_In. now split.
Qed.

(** X5. Deleting trends keeps the references sound: when every saved trend
    and every comment referenced a stored trend before [delete], for
    whatever rows it removes, each one that is left references a trend that
    is left.  So it is after [clear]. *)
Theorem delete_keeps_references (doomed : Trend -> bool) (d : Database) :
  references_ok d ->
  references_ok (fst (delete doomed d)) /\ references_ok (fst (clear d)).
Proof.
  assert (forall p, references_ok d -> references_ok (fst (delete p d))) as K.
  { intros p [S C]. unfold references_ok, delete. cbn [fst trends saved_trends
      trend_comments]. split; apply Forall_forall; intros x Hx;
      apply filter_In in Hx; destruct Hx as [Hx G];
      apply negb_true_iff in G; apply delete_keeps_reference; try exact G.
    - rewrite Forall_forall in S. now apply S.
    - rewrite Forall_forall in C. now apply C. }
  intro R. split; [now apply K|].
  unfold clear.
  specialize (K (fun t => negb (String.eqb (source t) "manual")) R).
  now destruct (delete _ d) as [d' [deleted per_model]].
Qed.

Lemma filter_idem {A : Type} (p : A -> bool) (l : list A) :
  filter p (filter p l) = filter p l.
Proof.
  induction l as [|x r IH]; [reflexivity|]. cbn [filter].
  destruct (p x) eqn:E; cbn [filter]; [rewrite E|]; now rewrite ?IH.
Qed.

Lemma filter_none {A : Type} (p : A -> bool) (l : list A) :
  filter p (filter (fun x => negb (p x)) l) = [].
Proof.
  induction l as [|x r IH]; [reflexivity|]. cbn [filter].
  destruct (p x) eqn:E; cbn [negb filter]; [|rewrite E]; exact IH.
Qed.

(** X6. A second [clear] finds nothing to delete: it answers 0 and leaves
    the three tables as the first left them; what the first leaves are the
    rows whose source is ['manual']. *)
Theorem clear_twice (d : Database) :
  clear (fst (clear d)) = (fst (clear d), 0%Z) /\
  Forall (fun t => is_manual t = true) (trends (fst (clear d))).
Proof.
  unfold clear, delete, is_manual. cbn [fst snd trends saved_trends
    trend_comments next_pk]. split.
  - rewrite filter_none. cbn [references existsb negb List.length].
    rewrite filter_idem, !filter_all.
    assert (forall (A : Type) (l : list A), filter (fun _ => false) l = [])
      as Z0 by (intros A l; induction l; auto).
    rewrite !Z0. reflexivity.
  - apply Forall_forall. intros t H. apply filter_In in H.
    destruct H as [_ H]. now apply negb_true_iff, negb_false_iff in H.
Qed.

End Clearing.

(** ** What the fetchers return *)

Section FetcherShapes.

Import models live_data_service.
Local Open Scope Q_scope.

Lemma collect_length {A : Type} (body : nat -> A -> outcome (option Candidate))
    (items : list A) :
  forall idx,
    (List.length (fst (collect body idx items)) <= List.length items)%nat.
Proof.
  induction items as [|x rest IH]; intro idx; cbn [collect]; [cbn; lia|].
  destruct (body idx x) as [oc|e]; [|cbn; lia].
  specialize (IH (S idx)).
  destruct (collect body (S idx) rest) as [trends err].
  destruct oc; cbn [fst List.length] in *; lia.
Qed.

Lemma slice_to_length {A : Type} (n : Z) (l : list A) :
  (0 <= n)%Z -> (Z.of_nat (List.length (slice_to n l)) <= n)%Z.
Proof.
  intro H. unfold slice_to.
  assert ((0 <=? n)%Z = true) as -> by lia.
  pose proof (firstn_le_length (Z.to_nat n) l). lia.
Qed.

Lemma slice_to_shorter {A : Type} (n : Z) (l : list A) :
  (List.length (slice_to n l) <= List.length l)%nat.
Proof.
  unfold slice_to. destruct (0 <=? n)%Z; rewrite length_firstn; lia.
Qed.

Lemma collected_at_most {A : Type}
    (body : nat -> A -> outcome (option Candidate)) (count : Z)
    (items : list A) :
  (0 <= count)%Z ->
  (Z.of_nat (List.length (fst (collect body 0 (slice_to count items))))
   <= count)%Z.
Proof.
  intro H. pose proof (collect_length body (slice_to count items) 0).
  pose proof (slice_to_length count items H). lia.
Qed.

Lemma movers_of_length (tickers : string -> option (outcome TickerInfo)) :
  (List.length (StockTrendsFetcher.movers_of tickers)
   <= List.length StockTrendsFetcher.WATCHLIST)%nat.
Proof.
  unfold StockTrendsFetcher.movers_of.
  induction StockTrendsFetcher.WATCHLIST as [|sym r IH]; [cbn; lia|].
  cbn [flat_map]. rewrite length_app.
  destruct (StockTrendsFetcher.mover tickers sym); cbn [List.length]; lia.
Qed.

Ltac open_collect :=
  match goal with
  | |- context [collect ?b ?i (slice_to ?n ?l)] =>
      let K := fresh "K" in
      pose proof (collected_at_most b n l) as K;
      destruct (collect b i (slice_to n l)) as [? [[?|?]|]];
      cbn [fst List.length] in *
  end.

(** X7. No fetcher returns more than it was asked for: for a [count] that
    is not negative each of the five fetchers, and each RSS fallback,
    returns at most [count] candidates, whatever the providers answer; the
    stock fetcher never returns more than the 24 symbols of its
    watch-list. *)
Theorem fetch_at_most_count (w : World) (geo : string) (count : Z) :
  (0 <= count)%Z ->
  let at_most (r : list Candidate * list LogRecord) :=
    (Z.of_nat (List.length (fst r)) <= count)%Z in
  at_most (GoogleTrendsFetcher.fetch w geo count) /\
  at_most (StockTrendsFetcher.fetch w count) /\
  at_most (NewsTrendsFetcher.fetch w count) /\
  at_most (NewsTrendsFetcher._fetch_rss_fallback w count) /\
  at_most (YouTubeTrendsFetcher.fetch w count) /\
  at_most (MusicTrendsFetcher.fetch w count) /\
  at_most (MusicTrendsFetcher._fetch_rss_fallback w count) /\
  (List.length (fst (StockTrendsFetcher.fetch w count)) <= 24)%nat.
Proof.
  intros H at_most. subst at_most. cbv beta.
  assert (Z.of_nat (List.length
            (fst (NewsTrendsFetcher._fetch_rss_fallback w count))) <= count)%Z
    as N.
  { unfold NewsTrendsFetcher._fetch_rss_fallback.
    destruct (feedparser_parse w _) as [entries|e]; [|cbn; lia].
    open_collect; auto. }
  assert (Z.of_nat (List.length
            (fst (MusicTrendsFetcher._fetch_rss_fallback w count))) <= count)%Z
    as M.
  { unfold MusicTrendsFetcher._fetch_rss_fallback.
    destruct (feedparser_parse w _) as [entries|e]; [|cbn; lia].
    open_collect; auto. }
  repeat split; try assumption.
  - unfold GoogleTrendsFetcher.fetch.
    destruct (pytrends_trending_searches w geo) as [df|[m|m]];
      [|cbn; lia|cbn; lia].
    open_collect; auto.
  - unfold StockTrendsFetcher.fetch.
    destruct (yfinance_tickers w) as [tickers|[m|m]]; [|cbn; lia|cbn; lia].
    cbn [fst]. rewrite length_map. now apply slice_to_length.
  - unfold NewsTrendsFetcher.fetch, NewsTrendsFetcher.fall_back.
    destruct (NewsTrendsFetcher._fetch_rss_fallback w count) as [ft fl].
    cbn [fst] in N.
    destruct (negb (PyStr.truthy (GNEWS_API_KEY w))); [exact N|].
    destruct (requests_get_articles w _) as [articles|e]; [|exact N].
    open_collect; auto.
  - unfold YouTubeTrendsFetcher.fetch.
    destruct (feedparser_parse w _) as [entries|[m|m]]; [|cbn; lia|cbn; lia].
    open_collect; auto.
  - unfold MusicTrendsFetcher.fetch, MusicTrendsFetcher.fall_back.
    destruct (MusicTrendsFetcher._fetch_rss_fallback w count) as [ft fl].
    cbn [fst] in M.
    destruct (negb (PyStr.truthy (LASTFM_API_KEY w))); [exact M|].
    destruct (requests_get_tracks w _) as [tracks|e]; [|exact M].
    open_collect; auto.
  - unfold StockTrendsFetcher.fetch.
    destruct (yfinance_tickers w) as [tickers|[m|m]]; [|cbn; lia|cbn; lia].
    cbn [fst]. rewrite length_map.
    pose proof (slice_to_shorter count
                  (StockTrendsFetcher.sorted_movers
                     (StockTrendsFetcher.movers_of tickers))) as S.
    unfold StockTrendsFetcher.sorted_movers in S at 2.
    rewrite (Permutation_length (sort_desc_perm _ _)) in S.
    pose proof (movers_of_length tickers) as L.
    change (List.length StockTrendsFetcher.WATCHLIST) with 24%nat in L. lia.
Qed.

End FetcherShapes.

Section FetcherCandidates.

Import models live_data_service.
Local Open Scope Q_scope.

Lemma _classify_velocity_valid (score : Q) :
  valid_choice VELOCITY_CHOICES (_classify_velocity score) = true.
Proof.
  unfold _classify_velocity.
  destruct (Qle_bool 85 score), (Qle_bool 60 score), (Qle_bool 30 score);
    reflexivity.
Qed.

Lemma identifier_32 (source identifier : string) :
  exists sid, Some (_make_source_id source identifier) = Some sid /\
              String.length sid = 32%nat.
Proof. eexists. split; [reflexivity | apply length_hexdigest]. Qed.

Ltac shape :=
  unfold well_formed;
  cbn [c_category c_platform c_velocity c_source c_source_id];
  repeat split; try reflexivity; try apply _classify_velocity_valid;
  try apply identifier_32.

Lemma google_trend_shape (idx : nat) (row : string) (c : Candidate) :
  GoogleTrendsFetcher.trend idx row = Returns (Some c) ->
  c_source c = "google_trends"%string /\ well_formed c.
Proof.
  unfold GoogleTrendsFetcher.trend.
  destruct (negb (PyStr.truthy (PyStr.strip row))); [discriminate|].
  intro H. injection H as <-. split; [reflexivity | shape].
Qed.

Lemma stock_trend_shape (m : Mover) :
  c_source (StockTrendsFetcher.trend m) = "stocks"%string /\
  well_formed (StockTrendsFetcher.trend m).
Proof.
  split; [reflexivity|]. unfold StockTrendsFetcher.trend. shape.
  destruct (PyNum.Qlt_bool 3 (change_pct m)),
    (PyNum.Qlt_bool 0 (change_pct m)), (PyNum.Qlt_bool (-2) (change_pct m));
    reflexivity.
Qed.

(** X8. The candidates fit the model and their source: in the list that a
    fetcher of the registry returns under its name, every candidate has
    that name as its source, a category, a platform, a velocity and a
    source among the choices of the [Trend] model, and an identifier of 32
    characters; so [handle] skips none of them for a missing or empty
    identifier. *)
Theorem fetched_candidates_well_formed (name : string) (fetcher : Fetcher)
    (w : World) (trends : list Candidate) (log : list LogRecord) :
  dict_get name FETCHERS = Some fetcher ->
  fetcher w = (Returns trends, log) ->
  Forall (fun c => c_source c = name /\ well_formed c) trends.
Proof.
  unfold FETCHERS, never_raises. cbn [dict_get].
  destruct (String.eqb name "google_trends") eqn:E1;
    [|destruct (String.eqb name "stocks") eqn:E2;
      [|destruct (String.eqb name "news") eqn:E3;
        [|destruct (String.eqb name "youtube") eqn:E4;
          [|destruct (String.eqb name "music") eqn:E5;
            [|discriminate]]]]];
    intro H; injection H as <-;
    match goal with
    | E : String.eqb name _ = true |- _ => apply String.eqb_eq in E; subst name
    end;
    match goal with
    | |- context [let '(_, _) := ?f in _] =>
        let R := fresh "R" in destruct f as [ts lg] eqn:R;
        apply (f_equal fst) in R; cbn [fst] in R
    end;
    intro H; injection H as <- _; subst ts;
    apply Forall_forall; intros c Hc.
  - apply google_built in Hc. destruct Hc as (i & row & Hc).
    now apply google_trend_shape in Hc.
  - apply stocks_built in Hc. destruct Hc as (m & ->).
    apply stock_trend_shape.
  - apply news_built in Hc.
    destruct Hc as [(i & a & ->) | (i & e & ->)];
      (split; [reflexivity|]);
      unfold NewsTrendsFetcher.article_trend, NewsTrendsFetcher.rss_trend;
      shape.
  - apply youtube_built in Hc. destruct Hc as (i & e & ->).
    split; [reflexivity|]. unfold YouTubeTrendsFetcher.trend. shape.
  - apply music_built in Hc.
    destruct Hc as [(i & t & ->) | (i & e & ->)];
      (split; [reflexivity|]);
      unfold MusicTrendsFetcher.track_trend, MusicTrendsFetcher.rss_trend;
      shape.
Qed.

End FetcherCandidates.

Section RankDecay.

Import models live_data_service.
Local Open Scope Q_scope.

Lemma max_mono (a b c : Q) : a <= b -> PyNum.max a c <= PyNum.max b c.
Proof.
  intro H. unfold PyNum.max.
  destruct (PyNum.Qlt_bool a c) eqn:E1; destruct (PyNum.Qlt_bool b c) eqn:E2;
    repeat match goal with
           | H : PyNum.Qlt_bool _ _ = true |- _ => apply Qlt_bool_iff in H
           | H : PyNum.Qlt_bool _ _ = false |- _ => apply Qlt_bool_false in H
           end; lra.
Qed.

Lemma rank_mono (i j : nat) : (i <= j)%nat -> rank i <= rank j.
Proof. intro H. unfold rank. rewrite <- Zle_Qle. lia. Qed.

Lemma decay_antitone (top step floor : Q) (i j : nat) :
  0 <= step -> (i <= j)%nat ->
  PyNum.max (PyNum.round (top - rank j * step) 1) floor
  <= PyNum.max (PyNum.round (top - rank i * step) 1) floor.
Proof.
  intros S H. apply max_mono, round1_mono.
  pose proof (rank_mono i j H). nra.
Qed.

Lemma collect_In_from {A : Type}
    (body : nat -> A -> outcome (option Candidate)) (items : list A) :
  forall idx c, In c (fst (collect body idx items)) ->
    exists i x, (idx <= i)%nat /\ body i x = Returns (Some c).
Proof.
  induction items as [|x rest IH]; intros idx c H; cbn [collect] in H.
  - contradiction.
  - destruct (body idx x) as [oc|e] eqn:E; [|contradiction].
    destruct (collect body (S idx) rest) as [trends err] eqn:C.
    assert (In c trends ->
            exists i y, (idx <= i)%nat /\ body i y = Returns (Some c)) as K.
    { intro Hc. destruct (IH (S idx) c) as (i & y & Hi & Hb).
      - now rewrite C.
      - exists i, y. split; [lia | exact Hb]. }
    destruct oc as [c'|]; cbn [fst] in H; [|now apply K].
    destruct H as [<- | H]; [|now apply K].
    exists idx, x. split; [lia | exact E].
Qed.

(** A loop whose score at position [i] is [f i], with [f] descending,
    appends candidates in descending order of score. *)
Lemma collect_sorted {A : Type}
    (body : nat -> A -> outcome (option Candidate)) (f : nat -> Q) :
  (forall i x c, body i x = Returns (Some c) -> c_score c = f i) ->
  (forall i j, (i <= j)%nat -> f j <= f i) ->
  forall items idx,
    StronglySorted (key_desc c_score) (fst (collect body idx items)).
Proof.
  intros Hf Ha. induction items as [|x rest IH]; intro idx; cbn [collect].
  - constructor.
  - destruct (body idx x) as [oc|e] eqn:E; [|constructor].
    specialize (IH (S idx)).
    pose proof (collect_In_from body rest (S idx)) as From.
    destruct (collect body (S idx) rest) as [trends err].
    cbn [fst] in *. destruct oc as [c|]; [|exact IH].
    constructor; [exact IH|].
    apply Forall_forall. intros c' Hc'.
    destruct (From c' Hc') as (i & y & Hi & Hb).
    unfold key_desc. rewrite (Hf _ _ _ Hb), (Hf _ _ _ E). apply Ha. lia.
Qed.

Lemma reading_sorted {A : Type} (mk : nat -> A -> Candidate) (f : nat -> Q) :
  (forall i a, c_score (mk i a) = f i) ->
  (forall i j, (i <= j)%nat -> f j <= f i) ->
  forall items idx,
    StronglySorted (key_desc c_score) (fst (collect (reading mk) idx items)).
Proof.
  intros Hf Ha. apply (collect_sorted _ f); [|exact Ha].
  intros i [a|e] c H; cbn in H; [|discriminate].
  injection H as <-. apply Hf.
Qed.

Lemma news_rss_sorted (w : World) (count : Z) :
  StronglySorted (key_desc c_score)
    (fst (NewsTrendsFetcher._fetch_rss_fallback w count)).
Proof.
  unfold NewsTrendsFetcher._fetch_rss_fallback.
  destruct (feedparser_parse w _) as [entries|e]; [|constructor].
  pose proof (reading_sorted NewsTrendsFetcher.rss_trend
                (fun i => PyNum.max (PyNum.round (88 - rank i * 4) 1) 20)
                (fun i a => eq_refl)
                (fun i j H => decay_antitone 88 4 20 i j ltac:(lra) H)
                (slice_to count entries) 0%nat) as S.
  now destruct (collect _ _ _) as [ts [e|]].
Qed.

(** X9. Rank order is kept: the search, news and video fetchers and the
    RSS fallback of the music fetcher return their candidates in
    descending order of score, so the provider's first item has the
    largest score, whatever was skipped or cut. *)
Theorem ranked_fetchers_descend (w : World) (geo : string) (count : Z) :
  StronglySorted (key_desc c_score)
    (fst (GoogleTrendsFetcher.fetch w geo count)) /\
  StronglySorted (key_desc c_score) (fst (NewsTrendsFetcher.fetch w count)) /\
  StronglySorted (key_desc c_score)
    (fst (NewsTrendsFetcher._fetch_rss_fallback w count)) /\
  StronglySorted (key_desc c_score) (fst (YouTubeTrendsFetcher.fetch w count)) /\
  StronglySorted (key_desc c_score)
    (fst (MusicTrendsFetcher._fetch_rss_fallback w count)).
Proof.
  split; [|split; [|split; [apply news_rss_sorted|split]]].
  - unfold GoogleTrendsFetcher.fetch.
    destruct (pytrends_trending_searches w geo) as [df|[m|m]];
      try constructor.
    pose proof (collect_sorted GoogleTrendsFetcher.trend
                  (fun i => PyNum.max
                              (PyNum.round (95 - rank i * (35 # 10)) 1) 20))
      as S.
    specialize (S ltac:(intros i x c; unfold GoogleTrendsFetcher.trend;
                        destruct (negb _); [discriminate|];
                        intro H; now injection H as <-)
                  (fun i j H => decay_antitone 95 (35 # 10) 20 i j
                                  ltac:(lra) H)
                  (slice_to count df) 0%nat).
    now destruct (collect _ _ _) as [ts [[?|?]|]].
  - unfold NewsTrendsFetcher.fetch, NewsTrendsFetcher.fall_back.
    pose proof (news_rss_sorted w count) as R.
    destruct (NewsTrendsFetcher._fetch_rss_fallback w count) as [ft fl].
    destruct (negb (PyStr.truthy (GNEWS_API_KEY w))); [exact R|].
    destruct (requests_get_articles w _) as [articles|e]; [|exact R].
    pose proof (reading_sorted NewsTrendsFetcher.article_trend
                  (fun i => PyNum.max (PyNum.round (90 - rank i * 3) 1) 25)
                  (fun i a => eq_refl)
                  (fun i j H => decay_antitone 90 3 25 i j ltac:(lra) H)
                  (slice_to count articles) 0%nat) as S.
    now destruct (collect _ _ _) as [ts [e|]].
  - unfold YouTubeTrendsFetcher.fetch.
    destruct (feedparser_parse w _) as [entries|[m|m]]; try constructor.
    pose proof (reading_sorted YouTubeTrendsFetcher.trend
                  (fun i => PyNum.max
                              (PyNum.round (85 - rank i * (35 # 10)) 1) 20)
                  (fun i a => eq_refl)
                  (fun i j H => decay_antitone 85 (35 # 10) 20 i j
                                  ltac:(lra) H)
                  (slice_to count entries) 0%nat) as S.
    now destruct (collect _ _ _) as [ts [[?|?]|]].
  - unfold MusicTrendsFetcher._fetch_rss_fallback.
    destruct (feedparser_parse w _) as [entries|e]; [|constructor].
    pose proof (reading_sorted MusicTrendsFetcher.rss_trend
                  (fun i => PyNum.max (PyNum.round (80 - rank i * 4) 1) 20)
                  (fun i a => eq_refl)
                  (fun i j H => decay_antitone 80 4 20 i j ltac:(lra) H)
                  (slice_to count entries) 0%nat) as S.
    now destruct (collect _ _ _) as [ts [e|]].
Qed.

End RankDecay.

Section ScoreRanges.

Import models live_data_service.
Local Open Scope Q_scope.




End ScoreRanges.

(** ** The keys of the aggregator's result *)

Section AggregatorKeys.

Import models live_data_service Command.

Lemma dict_get_In {V : Type} (k : string) (d : dict V) :
  In k (map fst d) <-> dict_get k d <> None.
Proof.
  induction d as [|[k' v] r IH]; cbn [map fst dict_get In].
  - split; [contradiction | congruence].
  - destruct (String.eqb k k') eqn:E.
    + apply String.eqb_eq in E. subst k'. split; [discriminate | now left].
    + rewrite <- IH. split; [|now right].
      intros [<- | H]; [|exact H]. now rewrite String.eqb_refl in E.
Qed.

Lemma dict_set_keys {V : Type} (k : string) (v : V) (d : dict V) :
  NoDup (map fst d) -> NoDup (map fst (dict_set k v d)).
Proof.
  induction d as [|[k' v'] r IH]; cbn [map fst dict_set]; intro N.
  - repeat constructor. auto.
  - inversion N as [|? ? Hn Nr]; subst.
    destruct (String.eqb k k') eqn:E; cbn [map fst].
    + apply String.eqb_eq in E. subst k'. now constructor.
    + constructor; [|now apply IH].
      intro H. apply dict_get_In in H. rewrite dict_get_set in H.
      rewrite String.eqb_sym, E in H. now apply dict_get_In in H.
Qed.

Lemma fetch_loop_keys (registry : dict Fetcher) (w : World)
    (sources : list string) :
  forall results0 results log,
    fetch_loop registry w sources results0 = (Returns results, log) ->
    NoDup (map fst results0) -> NoDup (map fst results).
Proof.
  induction sources as [|source rest IH]; intros results0 results log E N.
  - cbn in E. now injection E as <- _.
  - destruct (fetch_loop_cons registry w source rest results0)
      as (l & E' & _).
    rewrite E in E'. injection E' as E1 _.
    destruct (fetch_loop registry w rest _) as [o l'] eqn:F.
    cbn [fst] in E1. subst o. apply (IH _ _ _ F).
    destruct (recorded registry w source); [now apply dict_set_keys | exact N].
Qed.

(** X12. The result of the aggregator has one entry per requested name
    that the registry knows, and no other: its keys are pairwise
    different, whatever names are repeated in the request, and a name is a
    key exactly when it was requested and has a fetcher. *)
Theorem aggregator_keys (registry : dict Fetcher) (w : World)
    (sources : list string) (results : dict (list Candidate))
    (log : list LogRecord) :
  fetch_all_live_trends registry w (Some sources) = (Returns results, log) ->
  NoDup (map fst results) /\
  (forall name, In name (map fst results) <->
                In name sources /\ dict_get name registry <> None).
Proof.
  unfold fetch_all_live_trends. intro E. split.
  - apply (fetch_loop_keys registry w sources [] results log E). constructor.
  - intro name.
    destruct (fetch_loop_spec registry w sources [])
      as (results' & log' & E' & Hout & Hin & _).
    rewrite E in E'. injection E' as <- <-.
    rewrite dict_get_In. split.
    + intro H. destruct (in_dec string_dec name sources) as [I|I].
      * split; [exact I|]. rewrite (Hin name I) in H. unfold recorded in H.
        destruct (dict_get name registry); [discriminate | now elim H].
      * rewrite (Hout name I) in H. now elim H.
    + intros [I K]. rewrite (Hin name I). unfold recorded.
      destruct (dict_get name registry) as [f|]; [|now elim K].
      now destruct (fst (f w)).
Qed.

End AggregatorKeys.

(** ** A whole run of the command *)

Section WholeRun.

Import models live_data_service Command.

Variable db_check : Candidate -> option exn.
Variable clock : nat -> Z.

(** [handle] is the aggregator followed by the loop over its result. *)
Lemma handle_unfold (registry : dict Fetcher) (w : World) (options : Options)
    (d : Database) (r : Run) (log : list LogRecord) :
  handle db_check clock registry w options d = (Returns r, log) ->
  exists results out,
    fetch_all_live_trends registry w (Some (requested registry options))
    = (Returns results, log) /\
    db r = db_of (reconcile db_check clock
                    (mkRun (start_of options d) 0 out, 0%Z, 0%Z) results).
Proof.
  unfold handle, requested, start_of.
  set (sources := match opt_source options with
                  | Some (name :: names) => name :: names
                  | _ => map fst registry
                  end).
  assert (match opt_source options with
          | Some ((_ :: _) as given) => given
          | _ => map fst registry
          end = sources) as ->.
  { subst sources. destruct (opt_source options) as [[|? ?]|]; reflexivity. }
  unfold fetch_all_live_trends.
  destruct (fetch_loop_spec registry w sources []) as (results & lg & E & _).
  rewrite E. unfold bind, ret.
  match goal with
  | |- context [reconcile db_check clock (?s, 0%Z, 0%Z) results] =>
      set (r0 := s);
      assert (db r0 = if opt_clear options then fst (clear d) else d) as D
  end.
  { subst r0. destruct (opt_clear options); [|reflexivity].
    now destruct (clear d). }
  pose proof (reconcile_core db_check clock results (r0, 0%Z, 0%Z)) as C1.
  pose proof (reconcile_core db_check clock results
                (mkRun (db r0) 0 (stdout r0), 0%Z, 0%Z)) as C2.
  assert (tick r0 = 0%nat) as T.
  { subst r0. now destruct (opt_clear options); [destruct (clear d)|]. }
  clearbody r0.
  destruct (reconcile db_check clock (r0, 0%Z, 0%Z) results)
    as [[[r' tc] tu] left] eqn:R.
  intro H. injection H as <- <-.
  exists results, (stdout r0). split; [now rewrite app_nil_r|].
  rewrite <- D. unfold db_of. cbn [db write fst].
  apply (f_equal fst) in C1, C2. unfold core in C1, C2. cbn [fst] in C1, C2.
  rewrite C2, C1.
  assert (core (mkRun (db r0) 0 (stdout r0), 0%Z, 0%Z) = core (r0, 0%Z, 0%Z))
    as K by (unfold core; cbn [fst db tick]; now rewrite T).
  pose proof (upsert_all_core db_check clock (all_candidates results) _ _ K)
    as U.
  apply (f_equal fst) in U. unfold core in U. cbn [fst] in U.
  now rewrite U.
Qed.

Lemma upsert_written_rows (L : list Candidate) (st : Run * Z * Z)
    (c : Candidate) :
  In c L ->
  let fetched t :=
    is_manual t = true \/
    exists c' s, In c' L /\ writes db_check c' = Some s /\
                 source_id t = Some s in
  Forall fetched (trends (db (fst (fst st)))) ->
  Forall fetched (trends (db_of (upsert db_check clock st c))).
Proof.
  intros Hc fetched P. rewrite upsert_db.
  destruct (writes db_check c) as [sid|] eqn:W; [|exact P]. cbv zeta.
  destruct (filter (has_source_id sid) (trends (db (fst (fst st)))))
    as [|old [|? ?]] eqn:F; [| |exact P]; cbn [trends].
  - apply Forall_app. split; [exact P|]. constructor; [|constructor].
    right. exists c, sid. now repeat split.
  - apply Forall_forall. intros t Ht. apply in_map_iff in Ht.
    destruct Ht as (t0 & <- & Ht0).
    destruct (has_source_id sid t0) eqn:E.
    + right. exists c, sid. repeat split; try assumption.
      cbn [source_id update_row].
      assert (In old (filter (has_source_id sid)
                        (trends (db (fst (fst st)))))) as Ho
        by (rewrite F; now left).
      apply filter_In in Ho. destruct Ho as [_ Ho].
      unfold has_source_id in Ho. destruct (source_id old) as [x|];
        [|discriminate]. apply String.eqb_eq in Ho. now subst.
    + rewrite Forall_forall in P. now apply P.
Qed.

Lemma upsert_all_written_rows (L l : list Candidate) :
  incl l L ->
  let fetched t :=
    is_manual t = true \/
    exists c' s, In c' L /\ writes db_check c' = Some s /\
                 source_id t = Some s in
  forall st,
    Forall fetched (trends (db (fst (fst st)))) ->
    Forall fetched (trends (db_of (upsert_all db_check clock st l))).
Proof.
  intros I fetched. induction l as [|c rest IH]; intros st P; [exact P|].
  rewrite db_of_cons. apply IH.
  - intros x Hx. apply I. now right.
  - apply (upsert_written_rows L st c); [apply I; now left | exact P].
Qed.

(** X13. A run with [--clear] purges what is stale: when [handle] is run
    with the option, every trend left in the store whose source is not
    ['manual'] carries the identifier of a candidate that this run fetched
    and the engine accepted. *)
Theorem handle_clear_purges (registry : dict Fetcher) (w : World)
    (options : Options) (d : Database) (r : Run) (log : list LogRecord) :
  opt_clear options = true ->
  handle db_check clock registry w options d = (Returns r, log) ->
  exists results,
    fetch_all_live_trends registry w (Some (requested registry options))
    = (Returns results, log) /\
    Forall (fun t =>
              is_manual t = true \/
              exists c s, In c (all_candidates results) /\
                          writes db_check c = Some s /\
                          source_id t = Some s)
           (trends (db r)).
Proof.
  intros C H. destruct (handle_unfold _ _ _ _ _ _ H) as (results & out & E & D).
  exists results. split; [exact E|]. rewrite D, reconcile_db.
  apply (upsert_all_written_rows (all_candidates results));
    [apply incl_refl|].
  cbn [fst db]. unfold start_of. rewrite C.
  unfold clear, delete. cbn [fst trends].
  apply Forall_forall. intros t Ht. apply filter_In in Ht.
  destruct Ht as [_ Ht]. left. unfold is_manual.
  now apply negb_true_iff, negb_false_iff in Ht.
Qed.

(** X14. What a run never touches: whatever the options, the providers
    and the engine do, [handle] leaves the trends entered by hand (source
    ['manual'], no identifier) exactly as they were; it keeps the keys of
    the store sound; and without [--clear] it changes neither the saved
    trends nor the comments. *)
Theorem handle_frame (registry : dict Fetcher) (w : World)
    (options : Options) (d : Database) (r : Run) (log : list LogRecord) :
  handle db_check clock registry w options d = (Returns r, log) ->
  filter hand_made (trends (db r)) = filter hand_made (trends d) /\
  (keys_ok d -> keys_ok (db r)) /\
  (opt_clear options = false ->
   saved_trends (db r) = saved_trends d /\
   trend_comments (db r) = trend_comments d).
Proof.
  intro H. destruct (handle_unfold _ _ _ _ _ _ H) as (results & out & E & D).
  rewrite D. split; [|split].
  - rewrite reconcile_db, upsert_all_keeps.
    + cbn [fst db]. unfold start_of, clear, delete.
      destruct (opt_clear options); [|reflexivity].
      cbn [fst trends]. rewrite filter_filter. apply filter_ext.
      intro t. unfold hand_made, is_manual.
      destruct (String.eqb (source t) "manual"); reflexivity.
    + intros c s t _ _ K. unfold hand_made in K.
      apply andb_prop in K. destruct K as [_ K]. unfold has_source_id.
      now destruct (source_id t).
  - intro K. rewrite reconcile_db. apply upsert_all_keeps_keys. cbn [fst db].
    unfold start_of, clear, delete. destruct (opt_clear options); [|exact K].
    cbn [fst]. destruct K as [N B]. unfold keys_ok. cbn [trends next_pk].
    split.
    + clear B. induction (trends d) as [|t rows IH]; [constructor|].
      cbn [filter]. inversion N as [|? ? Hn Nr]; subst.
      destruct (negb _); [|now apply IH]. cbn [map]. constructor;
        [|now apply IH].
      intro X. apply Hn. apply in_map_iff in X. destruct X as (x & Ex & Hx).
      apply filter_In in Hx. apply in_map_iff. exists x. tauto.
    + apply Forall_forall. intros t Ht. apply filter_In in Ht.
      rewrite Forall_forall in B. now apply B.
  - intro C. unfold start_of. rewrite C, reconcile_db.
    apply (upsert_all_other_tables db_check clock (all_candidates results)
             (mkRun d 0 out, 0%Z, 0%Z)).
Qed.

End WholeRun.

(** ** Look-ups of the query service *)

Section Lookups.

Import models TrendService.
Local Open Scope Q_scope.

Lemma sorted_app_le {A : Type} (R : A -> A -> Prop) (l1 l2 : list A) :
  StronglySorted R (l1 ++ l2) ->
  forall x y, In x l1 -> In y l2 -> R x y.
Proof.
  induction l1 as [|a r IH]; intros S x y Hx Hy; [destruct Hx|].
  simpl in S. inversion S as [|? ? S' F]; subst.
  destruct Hx as [<-|Hx].
  - rewrite Forall_forall in F. apply F, in_or_app. now right.
  - now apply IH.
Qed.

(** The first [n] rows of a descending sort, and the rows behind them. *)
Lemma top_of_sorted {A : Type} (key : A -> Q) (n : nat) (l : list A) :
  StronglySorted (key_desc key) (firstn n (sort_desc key l)) /\
  Permutation l (firstn n (sort_desc key l) ++ skipn n (sort_desc key l)) /\
  forall x y, In x (firstn n (sort_desc key l)) ->
              In y (skipn n (sort_desc key l)) -> key y <= key x.
Proof.
  split; [|split].
  - apply firstn_sorted, sort_desc_sorted.
  - rewrite firstn_skipn. apply Permutation_sym, sort_desc_perm.
  - intros x y Hx Hy.
    apply (sorted_app_le (key_desc key) (firstn n (sort_desc key l))
             (skipn n (sort_desc key l)));
      [rewrite firstn_skipn; apply sort_desc_sorted | assumption..].
Qed.

Lemma limit_to_top (limit : Z) (rows : list Trend) :
  (0 <= limit)%Z ->
  exists top rest,
    limit_to limit (order_by_score_desc rows) = Returns top /\
    Z.of_nat (List.length top) = Z.min limit (Z.of_nat (List.length rows)) /\
    StronglySorted (key_desc score) top /\
    Permutation rows (top ++ rest) /\
    forall x y, In x top -> In y rest -> score y <= score x.
Proof.
  intro H. unfold limit_to, order_by_score_desc.
  assert ((limit <? 0)%Z = false) as -> by lia.
  destruct (top_of_sorted score (Z.to_nat limit) rows) as (S & P & T).
  eexists _, _. split; [reflexivity|]. split; [|split; [exact S|split; [exact P|exact T]]].
  rewrite length_firstn, (Permutation_length (sort_desc_perm score rows)). lia.
Qed.

Lemma filter_unique_key (key : Z) (l : list Trend) :
  NoDup (map pk l) ->
  filter (fun t => (pk t =? key)%Z) l = [] \/
  exists t, filter (fun t => (pk t =? key)%Z) l = [t].
Proof.
  induction l as [|x r IH]; intro N; [now left|].
  simpl in N. inversion N as [|? ? Hx N']; subst. simpl.
  destruct (pk x =? key)%Z eqn:E.
  - right. exists x. f_equal.
    apply Z.eqb_eq in E.
    destruct (filter (fun t => (pk t =? key)%Z) r) as [|y ?] eqn:F;
      [reflexivity|].
    exfalso. apply Hx.
    assert (In y (filter (fun t => (pk t =? key)%Z) r)) as Hy
      by (rewrite F; now left).
    apply filter_In in Hy. destruct Hy as [Hy K]. apply Z.eqb_eq in K.
    rewrite E, <- K. now apply in_map.
  - now apply IH.
Qed.

(** X15.  For a limit that is not negative, [get_top_trends] returns
    [min(limit, count)] rows in descending order of score, and no stored row
    that it leaves out has a larger score than a row that it returns: the
    stored rows are the returned ones followed by rows that score no
    higher. *)
Theorem get_top_trends_top (d : Database) (limit : Z) :
  (0 <= limit)%Z ->
  exists top rest,
    get_top_trends d limit = Returns top /\
    Z.of_nat (List.length top) = Z.min limit (count d) /\
    StronglySorted (key_desc score) top /\
    Permutation (trends d) (top ++ rest) /\
    forall x y, In x top -> In y rest -> score y <= score x.
Proof. intro H. unfold get_top_trends, count. now apply limit_to_top. Qed.

(** X16.  For a limit that is not negative, [get_related_trends] returns at
    most [limit] stored rows of the trend's category, never the trend
    itself, in descending order of score; they are the best of their kind:
    every other stored row of that category and another key scores no
    higher than each returned one. *)
Theorem get_related_trends_related (d : Database) (trend : Trend) (limit : Z) :
  (0 <= limit)%Z ->
  exists related rest,
    get_related_trends d trend limit = Returns related /\
    (Z.of_nat (List.length related) <= limit)%Z /\
    Forall (fun t => In t (trends d) /\ category t = category trend /\
                     pk t <> pk trend) related /\
    (In trend (trends d) -> ~ In trend related) /\
    StronglySorted (key_desc score) related /\
    Permutation
      (filter (fun t => String.eqb (category t) (category trend) &&
                        negb (pk t =? pk trend)%Z) (trends d))
      (related ++ rest) /\
    forall x y, In x related -> In y rest -> score y <= score x.
Proof.
  intro H. unfold get_related_trends. rewrite filter_filter.
  destruct (limit_to_top limit
              (filter (fun t => String.eqb (category t) (category trend) &&
                                negb (pk t =? pk trend)%Z) (trends d)) H)
    as (top & rest & E & L & S & P & T).
  exists top, rest. split; [exact E|].
  assert (forall t, In t top ->
            In t (trends d) /\ category t = category trend /\
            pk t <> pk trend) as K.
  { intros t Ht.
    assert (In t (top ++ rest)) as Ht' by (apply in_or_app; now left).
    apply (Permutation_in _ (Permutation_sym P)) in Ht'.
    apply filter_In in Ht'. destruct Ht' as [I B].
    apply andb_true_iff in B. destruct B as [B1 B2].
    apply String.eqb_eq in B1. apply negb_true_iff, Z.eqb_neq in B2.
    auto. }
  split; [lia|]. split; [now apply Forall_forall|].
  split; [|split; [exact S|split; [exact P|exact T]]].
  intros _ Ht. apply K in Ht. now destruct Ht as (_ & _ & Ht).
Qed.

(** X17.  When no two stored rows share a key, [get_trend_by_id] never
    raises: it returns the one row with the key, and [None] exactly when no
    row has it. *)
Theorem get_trend_by_id_unique (d : Database) (key : Z) :
  NoDup (map pk (trends d)) ->
  (forall t, get_trend_by_id d key = Returns (Some t)
             <-> In t (trends d) /\ pk t = key) /\
  (get_trend_by_id d key = Returns None <-> ~ In key (map pk (trends d))) /\
  (forall e, get_trend_by_id d key <> Raises e).
Proof.
  intro N. unfold get_trend_by_id, get.
  destruct (filter_unique_key key (trends d) N) as [E|[t E]]; rewrite E.
  - assert (forall t, In t (trends d) -> pk t <> key) as K.
    { intros t I K.
      assert (In t (filter (fun t => (pk t =? key)%Z) (trends d))) as F
        by (apply filter_In; split; [exact I | now apply Z.eqb_eq]).
      now rewrite E in F. }
    split; [|split].
    + intro t. split; [discriminate|]. intros [I P]. now apply K in I.
    + split; [|reflexivity]. intros _ I. apply in_map_iff in I.
      destruct I as (t & P & I). now apply K in I.
    + discriminate.
  - assert (In t (filter (fun t => (pk t =? key)%Z) (trends d))) as F
      by (rewrite E; now left).
    apply filter_In in F. destruct F as [I P]. apply Z.eqb_eq in P.
    split; [|split].
    + intro t'. split.
      * intro R. injection R as <-. now split.
      * intros [I' P'].
        assert (In t' (filter (fun t => (pk t =? key)%Z) (trends d))) as F
          by (apply filter_In; split; [exact I' | now apply Z.eqb_eq]).
        rewrite E in F. destruct F as [<-|[]]. reflexivity.
    + split; [discriminate|]. intro K. exfalso. apply K.
      rewrite <- P. now apply in_map.
    + discriminate.
Qed.

End Lookups.

(** ** Keywords of a question *)

Section KeywordProofs.

Import models TrendService.

Lemma append_nil_r (s : string) : (s ++ "")%string = s.
Proof. induction s; simpl; congruence. Qed.

Lemma append_assoc (a b c : string) :
  ((a ++ b) ++ c)%string = (a ++ (b ++ c))%string.
Proof. induction a; simpl; congruence. Qed.

Lemma prefix_app (n h : string) :
  prefix n h = true <-> exists b, h = (n ++ b)%string.
Proof.
  revert h. induction n as [|c n IH]; intro h.
  - split; [intros _; now exists h | intros _; now destruct h].
  - destruct h as [|c' h]; simpl.
    + split; [discriminate | intros [b B]; discriminate].
    + destruct (Ascii.ascii_dec c c') as [<-|D].
      * rewrite IH. split; intros [b B]; exists b; congruence.
      * split; [discriminate | intros [b B]; congruence].
Qed.

(** [needle in hay] finds exactly the substrings. *)
Lemma contains_app (n h : string) :
  PyStr.contains n h = true <-> exists a b, h = (a ++ n ++ b)%string.
Proof.
  induction h as [|c h IH].
  - cbn [PyStr.contains]. rewrite orb_false_r, prefix_app. split.
    + intros [b B]. now exists ""%string, b.
    + intros (a & b & B). destruct a; [now exists b|discriminate].
  - cbn [PyStr.contains]. rewrite orb_true_iff, prefix_app, IH. split.
    + intros [[b B]|(a & b & B)].
      * now exists ""%string, b.
      * exists (String c a), b. simpl. congruence.
    + intros (a & b & B). destruct a as [|c' a].
      * left. now exists b.
      * right. exists a, b. simpl in B. congruence.
Qed.

Lemma split_from_app (cur s w : string) :
  In w (PyStr.split_from cur s) ->
  exists a b, (cur ++ s)%string = (a ++ w ++ b)%string.
Proof.
  revert cur. induction s as [|c r IH]; intros cur H.
  - simpl in H. destruct (PyStr.truthy cur); [|destruct H].
    destruct H as [<-|[]]. exists ""%string, ""%string.
    simpl. now rewrite !append_nil_r.
  - cbn [PyStr.split_from] in H. destruct (PyStr.isspace c).
    + assert (In w (PyStr.split_from "" r) ->
              exists a b, (cur ++ String c r)%string = (a ++ w ++ b)%string)
        as K.
      { intro I. apply IH in I. destruct I as (a & b & E). simpl in E.
        exists (cur ++ String c a)%string, b.
        rewrite append_assoc. simpl. now rewrite E. }
      destruct (PyStr.truthy cur); [|now apply K].
      destruct H as [<-|H]; [|now apply K].
      now exists ""%string, (String c r).
    + apply IH in H. destruct H as (a & b & E). exists a, b.
      rewrite <- E, append_assoc. reflexivity.
Qed.

Lemma split_contains (s w : string) :
  In w (PyStr.split s) -> PyStr.contains w s = true.
Proof.
  intro H. apply split_from_app in H. now apply contains_app.
Qed.

Lemma filter_nothing {A : Type} (p : A -> bool) (l : list A) :
  (forall x, In x l -> p x = false) -> filter p l = [].
Proof.
  induction l as [|x r IH]; intro H; [reflexivity|]. simpl.
  rewrite (H x) by now left. apply IH. intros y I. apply H. now right.
Qed.

Lemma mem_In (x : string) (l : list string) : mem x l = true <-> In x l.
Proof.
  unfold mem. rewrite existsb_exists. split.
  - intros (y & I & E). apply String.eqb_eq in E. now subst.
  - intro I. exists x. split; [exact I | apply String.eqb_refl].
Qed.

Variable list_of_set : list string -> list string.

Hypothesis list_of_set_distinct : forall l, NoDup (list_of_set l).
Hypothesis list_of_set_elements :
  forall l x, In x (list_of_set l) <-> In x l.

(** X18.  Whatever order the set is listed in, [extract_trend_keywords]
    returns at most ten keywords, all different; each one occurs in the
    lower-cased question, and is either one of the fixed trend terms or a
    whitespace-delimited word of the lower-cased question that has more than
    three characters and is no stop word.  A question without such terms and
    words yields no keyword. *)
Theorem extract_trend_keywords_sound (question : string) :
  let keywords := extract_trend_keywords list_of_set question in
  (List.length keywords <= 10)%nat /\
  NoDup keywords /\
  (forall kw, In kw keywords ->
     PyStr.contains kw (PyStr.lower question) = true /\
     (In kw trend_terms \/
      (In kw (PyStr.split (PyStr.lower question)) /\
       (3 < String.length kw)%nat /\ ~ In kw stopwords))) /\
  ((forall term, In term trend_terms ->
      PyStr.contains term (PyStr.lower question) = false) ->
   (forall w, In w (PyStr.split (PyStr.lower question)) ->
      (String.length w <= 3)%nat \/ In w stopwords) ->
   keywords = []).
Proof.
  unfold extract_trend_keywords.
  set (q := PyStr.lower question).
  set (found := (filter (fun term => PyStr.contains term q) trend_terms ++
                 filter (fun w => (3 <? String.length w)%nat &&
                                  negb (mem w stopwords))
                        (PyStr.split q))%list).
  cbv zeta. split; [|split; [|split]].
  - apply firstn_le_length.
  - pose proof (list_of_set_distinct found) as N.
    rewrite <- (firstn_skipn 10 (list_of_set found)) in N.
    now apply NoDup_app_remove_r in N.
  - intros kw H. apply firstn_incl in H.
    apply (proj1 (list_of_set_elements _ _)) in H.
    subst found. apply in_app_or in H. destruct H as [H|H];
      apply filter_In in H; destruct H as [I B].
    + split; [exact B | now left].
    + apply andb_true_iff in B. destruct B as [B1 B2].
      apply Nat.ltb_lt in B1. apply negb_true_iff in B2.
      split; [now apply split_contains|]. right.
      split; [exact I|]. split; [exact B1|].
      intro M. apply mem_In in M. congruence.
  - intros T W.
    assert (found = []) as ->.
    { subst found.
      assert (filter (fun term => PyStr.contains term q) trend_terms = [])
        as ->.
      { apply filter_nothing. intros x I. now apply T. }
      apply filter_nothing. intros w I. destruct (W w I) as [L|S].
      - assert ((3 <? String.length w)%nat = false) as ->
          by (apply Nat.ltb_ge; lia). reflexivity.
      - apply mem_In in S. rewrite S. apply andb_false_r. }
    destruct (list_of_set []) as [|x r] eqn:E; [reflexivity|].
    exfalso. apply (proj1 (list_of_set_elements [] x)). rewrite E. now left.
Qed.

End KeywordProofs.

(** ** The Gemini service *)

Section GeminiCalls.

Import models TrendService gemini_service.

(** The loop answers with the first model that does not fail for a reason
    other than the quota. *)
Lemma try_models_first (generate : GenerativeModel) (sys_text prompt : string)
    (pre post : list string) (m : string) (last_error : option exn) :
  Forall (fun m' => exists e,
            generate_content generate sys_text prompt m' = Raises e /\
            quota_exhausted e = false) pre ->
  (forall text,
     generate_content generate sys_text prompt m = Returns text ->
     fst (try_models generate sys_text prompt (pre ++ m :: post) last_error)
     = Some text) /\
  (forall e,
     generate_content generate sys_text prompt m = Raises e ->
     quota_exhausted e = true ->
     fst (try_models generate sys_text prompt (pre ++ m :: post) last_error)
     = Some "__QUOTA_EXHAUSTED__"%string).
Proof.
  revert last_error. induction pre as [|m' pre IH]; intros last_error F.
  - cbn [app try_models]. split.
    + intros text ->. reflexivity.
    + intros e -> ->. reflexivity.
  - inversion F as [|? ? (e' & E' & Q') F']; subst.
    cbn [app try_models]. rewrite E', Q'.
    destruct (IH (Some e') F') as [A B]. split.
    + intros text E. specialize (A text E).
      destruct (try_models generate sys_text prompt (pre ++ m :: post)
                  (Some e')). exact A.
    + intros e E Q. specialize (B e E Q).
      destruct (try_models generate sys_text prompt (pre ++ m :: post)
                  (Some e')). exact B.
Qed.

Lemma try_models_none (generate : GenerativeModel) (sys_text prompt : string)
    (models : list string) (last_error : option exn) :
  Forall (fun m' => exists e,
            generate_content generate sys_text prompt m' = Raises e /\
            quota_exhausted e = false) models ->
  fst (try_models generate sys_text prompt models last_error) = None /\
  List.length (snd (try_models generate sys_text prompt models last_error))
  = S (List.length models).
Proof.
  revert last_error. induction models as [|m' models IH];
    intros last_error F.
  - split; reflexivity.
  - inversion F as [|? ? (e' & E' & Q') F']; subst.
    cbn [try_models]. rewrite E', Q'.
    destruct (IH (Some e') F') as [A B].
    destruct (try_models generate sys_text prompt models (Some e')).
    cbn [fst snd List.length] in *. split; congruence.
Qed.

(** X19.  [_call_gemini] asks the models in the order gemini-2.0-flash,
    gemini-1.5-flash, gemini-pro.  Without the library, or when configuring
    it fails, it answers [None] and logs once.  Otherwise, as long as the
    models asked so far failed for another reason than the quota, the next
    model decides: its text is the answer; its quota error ends the search
    with the sentinel ['__QUOTA_EXHAUSTED__'], whatever the models after it
    would say.  When all three fail for other reasons the answer is [None],
    after four log records. *)
Theorem _call_gemini_preference (g : Gemini) (prompt : string)
    (system_instruction : option string) :
  (forall e, genai g = Raises e ->
     exists record,
       _call_gemini g prompt system_instruction = (None, [record])) /\
  (forall generate, genai g = Returns generate ->
     let attempt :=
       generate_content generate (sys_text_of system_instruction) prompt in
     let failed m' :=
       exists e, attempt m' = Raises e /\ quota_exhausted e = false in
     (forall pre m post, models_to_try = (pre ++ m :: post)%list ->
        Forall failed pre ->
        (forall text, attempt m = Returns text ->
           fst (_call_gemini g prompt system_instruction) = Some text) /\
        (forall e, attempt m = Raises e -> quota_exhausted e = true ->
           fst (_call_gemini g prompt system_instruction)
           = Some "__QUOTA_EXHAUSTED__"%string)) /\
     (Forall failed models_to_try ->
        fst (_call_gemini g prompt system_instruction) = None /\
        List.length (snd (_call_gemini g prompt system_instruction))
        = 4%nat)).
Proof.
  split.
  - intros e E. unfold _call_gemini. rewrite E.
    destruct e; eexists; reflexivity.
  - intros generate E attempt failed. unfold _call_gemini. rewrite E.
    split.
    + intros pre m post -> F. now apply try_models_first.
    + intro F. now apply try_models_none.
Qed.

End GeminiCalls.

Section GeminiAnswers.

Import models TrendService gemini_service GeminiService.

Variable repr : Q -> string.
Variable list_of_set : list string -> list string.

Lemma or_else_truthy (result : option string) (fallback : string) :
  fallback <> ""%string -> or_else result fallback <> ""%string.
Proof.
  intro F. unfold or_else. destruct result as [[|c r]|]; cbn; congruence.
Qed.

Lemma or_else_not_sentinel (result : option string) (fallback : string) :
  is_quota result = false ->
  fallback <> "__QUOTA_EXHAUSTED__"%string ->
  or_else result fallback <> "__QUOTA_EXHAUSTED__"%string.
Proof.
  intros Q F. unfold or_else, is_quota in *.
  destruct result as [text|]; [|exact F].
  apply String.eqb_neq in Q. destruct (PyStr.truthy text); assumption.
Qed.




Lemma _mock_trend_explanation_text (trend : Trend) (quota : bool) :
  _mock_trend_explanation trend quota <> ""%string /\
  _mock_trend_explanation trend quota <> "__QUOTA_EXHAUSTED__"%string.
Proof. unfold _mock_trend_explanation. split; discriminate. Qed.

Lemma _mock_creator_insights_text (trend : Trend) :
  _mock_creator_insights trend <> ""%string.
Proof. unfold _mock_creator_insights. discriminate. Qed.

(** A quota error of the first model ends every call with the sentinel. *)
Lemma call_quota_at_once (g : Gemini) (generate : GenerativeModel) (e : exn)
    (prompt : string) (system : option string) :
  genai g = Returns generate ->
  (forall system prompt,
     generate "gemini-2.0-flash"%string system prompt = Raises e) ->
  quota_exhausted e = true ->
  fst (_call_gemini g prompt system) = Some "__QUOTA_EXHAUSTED__"%string.
Proof.
  intros G F Q. unfold _call_gemini. rewrite G.
  apply (try_models_first generate (sys_text_of system) prompt []
           ["gemini-1.5-flash"; "gemini-pro"]%string
           "gemini-2.0-flash" None (Forall_nil _)) with (e := e);
    [|exact Q].
  unfold generate_content.
  replace (String.eqb "gemini-2.0-flash" "gemini-pro") with false
    by reflexivity.
  apply F.
Qed.

Lemma get_creator_insights_sentinel (g : Gemini) (trend : Trend)
    (generate : GenerativeModel) (e : exn) :
  PyStr.truthy (GEMINI_API_KEY g) = true ->
  genai g = Returns generate ->
  (forall system prompt,
     generate "gemini-2.0-flash"%string system prompt = Raises e) ->
  quota_exhausted e = true ->
  fst (get_creator_insights repr g trend) = "__QUOTA_EXHAUSTED__"%string.
Proof.
  intros K G F Q. unfold get_creator_insights. rewrite K. cbn [negb].
  match goal with
  | |- context [_call_gemini g ?p ?s] =>
      pose proof (call_quota_at_once g generate e p s G F Q) as C;
      destruct (_call_gemini g p s) as [result log]
  end.
  cbn [fst] in *. subst result. reflexivity.
Qed.

Lemma get_creator_insights_text (g : Gemini) (trend : Trend) :
  fst (get_creator_insights repr g trend) <> ""%string.
Proof.
  unfold get_creator_insights.
  destruct (negb (PyStr.truthy (GEMINI_API_KEY g)));
    [apply _mock_creator_insights_text|].
  match goal with
  | |- context [_call_gemini g ?p ?s] =>
      destruct (_call_gemini g p s) as [result log]
  end.
  cbn [fst]. apply or_else_truthy, _mock_creator_insights_text.
Qed.


(** X21.  The two texts of a trend page treat an exhausted quota
    differently.  [explain_trend] never shows an empty text or the sentinel:
    it falls back to the mock explanation.  [get_creator_insights] never
    shows an empty text either, but it has no test for the sentinel: with an
    API key set, when the first model fails with a quota error, the text it
    returns as insights is ['__QUOTA_EXHAUSTED__'] itself. *)
Theorem quota_sentinel_handling (g : Gemini) (trend : Trend) :
  (fst (explain_trend repr g trend) <> ""%string /\
   fst (explain_trend repr g trend) <> "__QUOTA_EXHAUSTED__"%string) /\
  fst (get_creator_insights repr g trend) <> ""%string /\
  (forall generate e,
     PyStr.truthy (GEMINI_API_KEY g) = true ->
     genai g = Returns generate ->
     (forall system prompt,
        generate "gemini-2.0-flash"%string system prompt = Raises e) ->
     quota_exhausted e = true ->
     fst (get_creator_insights repr g trend) = "__QUOTA_EXHAUSTED__"%string /\
     fst (explain_trend repr g trend) = _mock_trend_explanation trend true).
Proof.
  split; [|split].
  - unfold explain_trend.
    destruct (negb (PyStr.truthy (GEMINI_API_KEY g)));
      [apply _mock_trend_explanation_text|].
    match goal with
    | |- context [_call_gemini g ?p ?s] =>
        destruct (_call_gemini g p s) as [result log]
    end.
    destruct (is_quota result) eqn:Q; cbn [fst].
    + apply _mock_trend_explanation_text.
    + split.
      * apply or_else_truthy, _mock_trend_explanation_text.
      * apply or_else_not_sentinel;
          [exact Q | apply _mock_trend_explanation_text].
  - apply get_creator_insights_text.
  - intros generate e K G F Q. split.
    + now apply (get_creator_insights_sentinel g trend generate e).
    + unfold explain_trend. rewrite K. cbn [negb].
      match goal with
      | |- context [_call_gemini g ?p ?s] =>
          pose proof (call_quota_at_once g generate e p s G F Q) as C;
          destruct (_call_gemini g p s) as [result log]
      end.
      cbn [fst] in *. subst result. reflexivity.
Qed.

End GeminiAnswers.

(** ** The views *)

Section SavingTrends.

Import models TrendService gemini_service views.

Lemma nodup_map_inj {A B : Type} (f : A -> B) (l : list A) (x y : A) :
  NoDup (map f l) -> In x l -> In y l -> f x = f y -> x = y.
Proof.
  induction l as [|a r IH]; intros N Hx Hy E; [destruct Hx|].
  simpl in N. inversion N as [|? ? Na N']; subst.
  destruct Hx as [<-|Hx], Hy as [<-|Hy]; auto.
  - exfalso. apply Na. rewrite E. now apply in_map.
  - exfalso. apply Na. rewrite <- E. now apply in_map.
Qed.

Lemma filter_at_most_one {Row Key : Type} (f : Row -> Key)
    (p : Row -> bool) (l : list Row) (distinct : NoDup (map f l)) :
  (forall x y, In x l -> In y l -> p x = true -> p y = true -> f x = f y) ->
  filter p l = [] \/ exists x, filter p l = [x].
Proof.
  intro K. pose proof distinct as N.
  destruct (filter p l) as [|x [|y rest]] eqn:F; [now left | right; eauto|].
  exfalso.
  assert (In x (filter p l) /\ In y (filter p l)) as [Hx Hy]
    by (rewrite F; simpl; auto).
  apply filter_In in Hx, Hy. destruct Hx as [Hx Px], Hy as [Hy Py].
  assert (x = y) as <-
    by (apply (nodup_map_inj f l); auto).
  assert (NoDup (filter p l)) as N'.
  { apply NoDup_filter. now apply NoDup_map_inv in N. }
  rewrite F in N'. inversion N' as [|? ? Nx _]. apply Nx. now left.
Qed.

(** Rows that pass a test keep keys that are pairwise different. *)
Lemma filter_keeps_keys {Row Key : Type} (keep : Row -> bool)
    (key : Row -> Key) (rows : list Row) (distinct : NoDup (map key rows)) :
  NoDup (map key (filter keep rows)).
Proof.
  induction rows as [|row rest IH]; [constructor|].
  cbn [map] in distinct. inversion distinct as [|? ? fresh distinct'].
  subst. cbn [filter].
  destruct (keep row); [|now apply IH]. cbn [map].
  constructor; [|now apply IH].
  intro I. apply fresh. apply in_map_iff in I. destruct I as (x & E & I).
  apply filter_In in I. rewrite <- E. apply in_map. tauto.
Qed.

Lemma existsb_filter {A : Type} (p q : A -> bool) (l : list A) :
  existsb q (filter p l) = existsb (fun x => p x && q x) l.
Proof.
  induction l as [|a r IH]; [reflexivity|]. simpl.
  destruct (p a); simpl; now rewrite IH.
Qed.

Lemma existsb_same {A : Type} (p q : A -> bool) (l : list A) :
  (forall x, In x l -> p x = q x) -> existsb p l = existsb q l.
Proof.
  induction l as [|a r IH]; intro H; [reflexivity|]. simpl.
  rewrite (H a) by now left. f_equal. apply IH. intros x I. apply H.
  now right.
Qed.

Lemma get_Found (key : Z) (d : Database) (trend : Trend) :
  get (fun t => pk t =? key) d = Found trend ->
  In trend (trends d) /\ pk trend = key.
Proof.
  unfold get. intro G.
  destruct (filter (fun t => pk t =? key) (trends d)) as [|t [|t' rest]]
    eqn:F; try discriminate.
  injection G as ->.
  assert (In trend (filter (fun t => pk t =? key) (trends d))) as I
    by (rewrite F; now left).
  apply filter_In in I. destruct I as [I P]. apply Z.eqb_eq in P. auto.
Qed.

(** X22.  [toggle_save_trend] is a switch.  For a logged-in user who posts
    to a stored trend, while no user has saved a trend twice and keys are
    unique: the request succeeds; afterwards the user has the trend saved
    exactly when they had not before; what any other user has saved, and
    which other trends this user has saved, is unchanged; the trends and
    the comments are unchanged; the answer reports the new state; and the
    table is sound again, so that a second request undoes the first. *)
Theorem toggle_save_trend_flips (now : Z) (site : Site)
    (request : HttpRequest) (key : Z) (u : User) (trend : Trend) :
  user request = Some u ->
  method request = "POST"%string ->
  get (fun t => pk t =? key) (tables site) = Found trend ->
  saved_ok site ->
  exists message site',
    toggle_save_trend now site request key
    = (Returns (JsonResponse
                  [("saved"%string,
                    JBool (is_saved site' (user_pk u) (pk trend)));
                   ("message"%string, JString message)] 200), site') /\
    trends (tables site') = trends (tables site) /\
    trend_comments (tables site') = trend_comments (tables site) /\
    saved_ok site' /\
    forall u' p',
      is_saved site' u' p'
      = if (u' =? user_pk u) && (p' =? pk trend)
        then negb (is_saved site u' p') else is_saved site u' p'.
Proof.
  intros U M G (Npk & Below & Npair).
  unfold toggle_save_trend, post_on_trend. rewrite U, M, G.
  cbn [String.eqb Ascii.eqb Bool.eqb negb andb].
  set (saved := saved_trends (tables site)) in *.
  assert (forall s u' p',
            saved_by u trend s = true ->
            (st_user s =? u') && (st_trend s =? p')
            = (u' =? user_pk u) && (p' =? pk trend)) as Same.
  { intros s u' p' S. unfold saved_by in S.
    apply andb_true_iff in S. destruct S as [S1 S2].
    apply Z.eqb_eq in S1, S2. rewrite S1, S2.
    now rewrite (Z.eqb_sym (user_pk u)), (Z.eqb_sym (pk trend)). }
  assert (forall s u' p',
            saved_by u trend s = false ->
            (u' =? user_pk u) && (p' =? pk trend) = true ->
            (st_user s =? u') && (st_trend s =? p') = false) as Other.
  { intros s u' p' S E. apply andb_true_iff in E. destruct E as [E1 E2].
    apply Z.eqb_eq in E1, E2. subst u' p'. exact S. }
  destruct (filter_at_most_one (fun s => (st_user s, st_trend s))
              (saved_by u trend) saved Npair) as [F|[s F]].
  { intros x y _ _ Px Py. unfold saved_by in *.
    apply andb_true_iff in Px, Py. destruct Px as [X1 X2], Py as [Y1 Y2].
    apply Z.eqb_eq in X1, X2, Y1, Y2. congruence. }
  - (* not saved so far: a row is created *)
    rewrite F.
    assert (forall x, In x saved -> saved_by u trend x = false) as None.
    { intros x I. destruct (saved_by u trend x) eqn:S; [|reflexivity].
      assert (In x (filter (saved_by u trend) saved)) as I'
        by (apply filter_In; auto).
      rewrite F in I'. destruct I'. }
    assert (is_saved site (user_pk u) (pk trend) = false) as Before.
    { unfold is_saved. fold saved.
      rewrite (existsb_same _ (saved_by u trend)) by reflexivity.
      rewrite (existsb_same _ (fun _ => false)) by exact None.
      clear. induction saved; simpl; auto. }
    cbv beta iota zeta.
    match goal with
    | |- exists message site', (_, ?S) = _ /\ _ =>
        exists "Trend saved successfully"%string, S
    end.
    split; [|split; [reflexivity|split; [reflexivity|split]]].
    + match goal with
      | |- context [JBool (is_saved ?S ?a ?b)] =>
          replace (is_saved S a b) with true; [reflexivity|]
      end.
      unfold is_saved. cbn [tables saved_trends]. fold saved.
      rewrite existsb_app. cbn [existsb st_user st_trend].
      rewrite !Z.eqb_refl. cbn [andb orb]. now rewrite orb_true_r.
    + unfold saved_ok. cbn [tables saved_trends next_saved_pk]. fold saved.
      rewrite !map_app. cbn [map st_pk st_user st_trend].
      split; [|split].
      * apply NoDup_app; [exact Npk | repeat constructor; intros [] |].
        intros k I [<-|[]]. apply in_map_iff in I.
        destruct I as (x & E & I). rewrite Forall_forall in Below.
        specialize (Below x I). lia.
      * apply Forall_app. split.
        -- eapply Forall_impl; [|exact Below]. cbn. intros; lia.
        -- repeat constructor. cbn. lia.
      * apply NoDup_app; [exact Npair | repeat constructor; intros [] |].
        intros k I [<-|[]]. apply in_map_iff in I.
        destruct I as (x & E & I). specialize (None x I).
        unfold saved_by in None. injection E as E1 E2.
        rewrite E1, E2, !Z.eqb_refl in None. discriminate.
    + intros u' p'. unfold is_saved at 1. cbn [tables saved_trends].
      fold saved. rewrite existsb_app. cbn [existsb st_user st_trend].
      rewrite orb_false_r.
      rewrite (Z.eqb_sym (user_pk u)), (Z.eqb_sym (pk trend)).
      destruct ((u' =? user_pk u) && (p' =? pk trend)) eqn:E.
      * apply andb_true_iff in E. destruct E as [E1 E2].
        apply Z.eqb_eq in E1, E2. subst u' p'. rewrite Before.
        apply orb_true_r.
      * apply orb_false_r.
  - (* saved: the row is deleted *)
    rewrite F.
    assert (In s saved /\ saved_by u trend s = true) as [Is Ss].
    { assert (In s (filter (saved_by u trend) saved)) as I
        by (rewrite F; now left).
      now apply filter_In in I. }
    assert (forall x, In x saved -> saved_by u trend x = true -> x = s)
      as Only.
    { intros x I S.
      assert (In x (filter (saved_by u trend) saved)) as I'
        by (apply filter_In; auto).
      rewrite F in I'. destruct I' as [->|[]]. reflexivity. }
    assert (forall x, In x saved ->
              negb (st_pk x =? st_pk s) = negb (saved_by u trend x)) as Del.
    { intros x I. destruct (saved_by u trend x) eqn:S.
      - rewrite (Only x I S), Z.eqb_refl. reflexivity.
      - destruct (st_pk x =? st_pk s) eqn:E; [|reflexivity].
        apply Z.eqb_eq in E.
        rewrite (nodup_map_inj st_pk saved x s Npk I Is E) in S. congruence. }
    assert (forall u' p',
              existsb (fun x => (st_user x =? u') && (st_trend x =? p'))
                (filter (fun x => negb (st_pk x =? st_pk s)) saved)
              = if (u' =? user_pk u) && (p' =? pk trend)
                then negb (is_saved site u' p') else is_saved site u' p')
      as Flip.
    { intros u' p'. rewrite existsb_filter. unfold is_saved. fold saved.
      destruct ((u' =? user_pk u) && (p' =? pk trend)) eqn:E.
      - assert (existsb (fun x => (st_user x =? u') && (st_trend x =? p'))
                  saved = true) as ->.
        { apply existsb_exists. exists s. split; [exact Is|].
          now rewrite (Same s u' p' Ss). }
        rewrite (existsb_same _ (fun _ => false)).
        + clear. induction saved; simpl; auto.
        + intros x I. rewrite (Del x I).
          destruct (saved_by u trend x) eqn:S; [reflexivity|].
          cbn [negb andb]. now apply Other.
      - apply existsb_same. intros x I. rewrite (Del x I).
        destruct (saved_by u trend x) eqn:S; [|reflexivity].
        cbn [negb andb]. now rewrite (Same x u' p' S), E. }
    cbv beta iota zeta.
    match goal with
    | |- exists message site', (_, ?S) = _ /\ _ =>
        exists "Trend removed from saved"%string, S
    end.
    split; [|split; [reflexivity|split; [reflexivity|split]]].
    + match goal with
      | |- context [JBool (is_saved ?S ?a ?b)] =>
          replace (is_saved S a b) with false; [reflexivity|]
      end.
      unfold is_saved at 1, with_tables. cbn [tables saved_trends].
      fold saved.
      rewrite (Flip (user_pk u) (pk trend)), !Z.eqb_refl. cbn [andb].
      assert (is_saved site (user_pk u) (pk trend) = true) as ->.
      { apply existsb_exists. exists s. split; [exact Is|].
        rewrite (Same s _ _ Ss), !Z.eqb_refl. reflexivity. }
      reflexivity.
    + unfold saved_ok, with_tables.
      cbn [tables saved_trends next_saved_pk]. fold saved.
      split; [|split].
      * now apply filter_keeps_keys.
      * apply Forall_forall. intros x I. apply filter_In in I.
        rewrite Forall_forall in Below. apply Below. tauto.
      * now apply filter_keeps_keys.
    + intros u' p'. unfold is_saved at 1, with_tables.
      cbn [tables saved_trends]. fold saved. apply Flip.
Qed.

End SavingTrends.

Section Commenting.

Import models TrendService gemini_service views.

Variable display_name : Z -> string.
Variable strftime : Z -> string.

(** X23.  What [add_comment] stores.  Either the request changes nothing
    and is not answered with status 200; or it is a POST of a logged-in
    user to a stored trend, the tables gain exactly one comment, at the
    end, on that trend and by that user, whose text is the posted text
    without the surrounding whitespace, not empty and at most 1000
    characters long, and the answer has status 200. *)
Theorem add_comment_stores_valid (now : Z) (site : Site)
    (request : HttpRequest) (key : Z) :
  let result := add_comment display_name strftime now site request key in
  (snd result = site /\
   forall data, fst result <> Returns (JsonResponse data 200)) \/
  (exists u trend c data,
     user request = Some u /\ method request = "POST"%string /\
     In trend (trends (tables site)) /\ pk trend = key /\
     c = mkComment (next_comment_pk site) key (user_pk u)
           (PyStr.strip (get_or_empty "text" (POST request))) now /\
     cm_text c <> ""%string /\ (String.length (cm_text c) <= 1000)%nat /\
     trend_comments (tables (snd result))
     = (trend_comments (tables site) ++ [c])%list /\
     trends (tables (snd result)) = trends (tables site) /\
     saved_trends (tables (snd result)) = saved_trends (tables site) /\
     next_comment_pk (snd result) = next_comment_pk site + 1 /\
     next_saved_pk (snd result) = next_saved_pk site /\
     fst result = Returns (JsonResponse data 200)).
Proof.
  cbv zeta. unfold add_comment, post_on_trend.
  destruct (user request) as [u|] eqn:U;
    [|left; split; [reflexivity | discriminate]].
  destruct (String.eqb (method request) "POST") eqn:M; cbn [negb];
    [|left; split; [reflexivity | discriminate]].
  apply String.eqb_eq in M.
  destruct (get (fun t => pk t =? key) (tables site)) as [trend| |n] eqn:G;
    [|left; split; [reflexivity | discriminate]..].
  apply get_Found in G. destruct G as [I P].
  set (text := PyStr.strip (get_or_empty "text" (POST request))).
  destruct (PyStr.truthy text) eqn:T; cbn [negb];
    [|left; split; [reflexivity | discriminate]].
  destruct (1000 <? String.length text)%nat eqn:L;
    [left; split; [reflexivity | discriminate]|].
  apply Nat.ltb_ge in L.
  right. eexists u, trend, _, _.
  split; [reflexivity|]. split; [exact M|]. split; [exact I|].
  split; [exact P|]. split; [reflexivity|].
  cbn [cm_text fst snd tables trend_comments trends saved_trends
       next_comment_pk next_saved_pk].
  split; [intro E; fold text in E; rewrite E in T; discriminate|].
  split; [exact L|].
  rewrite P. repeat (split; [reflexivity|]). reflexivity.
Qed.

End Commenting.

Section RateLimit.

Import models TrendService gemini_service views.
Local Open Scope Q_scope.

Variable repr : Q -> string.
Variable list_of_set : list string -> list string.

Lemma recent_later (now now' t : Q) :
  now <= now' -> recent now' t = true -> recent now t = true.
Proof.
  unfold recent. intros H R. apply Qlt_bool_iff in R. apply Qlt_bool_iff.
  lra.
Qed.

Lemma recent_self (now : Q) : recent now now = true.
Proof. unfold recent. apply Qlt_bool_iff. lra. Qed.

Lemma filter_filter_later (now now' : Q) (l : list Q) :
  now <= now' ->
  filter (recent now') (filter (recent now) l) = filter (recent now') l.
Proof.
  intro H. rewrite filter_filter. apply filter_ext. intro t.
  destruct (recent now' t) eqn:R; [|apply andb_false_r].
  now rewrite (recent_later now now' t H R).
Qed.

(** One post: the limiter refuses exactly when twenty stored times are
    younger than a minute; otherwise the time of the post is stored behind
    them, whatever becomes of the request afterwards. *)
Lemma post_limiter (now : Q) (g : Gemini) (d : Database)
    (request : HttpRequest) :
  let result := ChatbotView.post repr list_of_set now g d request in
  let young := filter (recent now) (chatbot_timestamps request) in
  match user request with
  | None =>
      fst result = (Returns redirect_to_login, []) /\
      snd result = chatbot_timestamps request
  | Some _ =>
      if (20 <=? List.length young)%nat
      then (exists data, fst result = (Returns (JsonResponse data 429), [])) /\
           snd result = chatbot_timestamps request
      else counted (fst (fst result)) = true /\
           snd result = (young ++ [now])%list
  end.
Proof.
  cbv zeta. unfold ChatbotView.post, ChatbotView.RATE_LIMIT.
  destruct (user request) as [u|]; [|split; reflexivity].
  fold (recent now).
  destruct (20 <=? List.length
              (filter (recent now) (chatbot_timestamps request)))%nat.
  - split; [eexists; reflexivity | reflexivity].
  - destruct (body request) as [|question history];
      [split; reflexivity|].
    destruct (negb (PyStr.truthy _)); [split; reflexivity|].
    destruct (GeminiService.chatbot_response _ _ _ _ _ _) as [[text|e] log];
      split; reflexivity.
Qed.

Lemma admitted_window
    (calls : list (Q * Gemini * Database * HttpRequest))
    (session before : list Q) (floor : Q) :
  StronglySorted Qle (floor :: map (fun c => fst (fst (fst c))) calls) ->
  (forall now, floor <= now ->
     filter (recent now) session = filter (recent now) before) ->
  forall pre now post,
    admitted repr list_of_set calls session = (pre ++ now :: post)%list ->
    (List.length (filter (recent now) (before ++ pre)) < 20)%nat.
Proof.
  revert session before floor.
  induction calls as [|[[[t g] d] request] rest IH];
    intros session before floor S Inv pre now post E.
  - destruct pre; discriminate.
  - cbn [admitted] in E. cbn [map fst] in S.
    inversion S as [|? ? S' Ft]; subst.
    inversion Ft as [|? ? Lt _]; subst.
    pose proof (post_limiter t g d (with_session request session)) as P.
    cbv zeta in P. cbn [with_session user chatbot_timestamps] in P.
    destruct (ChatbotView.post repr list_of_set t g d
                (with_session request session)) as [r session'].
    cbn [fst snd] in *.
    assert (forall now', t <= now' ->
              filter (recent now') session = filter (recent now') before)
      as Inv' by (intros now' H; apply Inv; lra).
    destruct (user request) as [u|].
    + destruct (20 <=? List.length (filter (recent t) session))%nat eqn:Full.
      * destruct P as [[data ->] ->]. cbn [counted fst] in E.
        apply (IH session before t S' Inv' pre now post E).
      * destruct P as [C ->]. rewrite C in E.
        apply Nat.leb_gt in Full.
        destruct pre as [|t' pre]; cbn [app] in E; injection E as <- E.
        -- rewrite app_nil_r, <- Inv by exact Lt. exact Full.
        -- replace (before ++ t :: pre)%list
             with ((before ++ [t]) ++ pre)%list
             by (rewrite <- app_assoc; reflexivity).
           apply (IH (filter (recent t) session ++ [t])%list
                    (before ++ [t])%list t S') with (post := post);
             [|exact E].
           intros now' H. rewrite !filter_app.
           rewrite filter_filter_later by exact H.
           now rewrite Inv' by exact H.
    + destruct P as [-> ->]. cbn [counted fst] in E.
      apply (IH session before t S' Inv' pre now post E).
Qed.

(** X24.  The limiter of the chatbot keeps its promise over a
    conversation.  When posts arrive at times that do not decrease, starting
    with an empty session that each post hands to the next, then for every
    post that passes the limiter (one that is neither sent to the login page
    nor answered with status 429) fewer than twenty of the posts that
    passed before it are younger than sixty seconds: it is at most the
    twentieth within its minute. *)
Theorem chatbot_rate_limit
    (calls : list (Q * Gemini * Database * HttpRequest))
    (pre post : list Q) (now : Q) :
  StronglySorted Qle (map (fun c => fst (fst (fst c))) calls) ->
  admitted repr list_of_set calls [] = (pre ++ now :: post)%list ->
  (List.length (filter (recent now) pre) < 20)%nat.
Proof.
  intros S E.
  destruct calls as [|c rest]; [destruct pre; discriminate|].
  apply (admitted_window (c :: rest) [] [] (fst (fst (fst c)))
           ltac:(constructor;
                 [exact S | inversion S; subst; constructor;
                            [apply Qle_refl | assumption]])
           (fun _ _ => eq_refl) pre now post E).
Qed.

End RateLimit.

Section Pagination.

Import models TrendService gemini_service views.
Local Open Scope Z_scope.

Lemma firstn_plus {A : Type} (a b : nat) (l : list A) :
  firstn (a + b) l = (firstn a l ++ firstn b (skipn a l))%list.
Proof.
  revert l. induction a as [|a IH]; intro l; [reflexivity|].
  destruct l as [|x r]; [now rewrite !firstn_nil|].
  cbn [Nat.add firstn skipn app]. now rewrite IH.
Qed.

Lemma chunks_concat {A : Type} (p : nat) (l : list A) (n : nat) :
  List.concat (map (chunk p l) (seq 0 n)) = firstn (n * p) l.
Proof.
  induction n as [|n IH]; [reflexivity|].
  rewrite seq_S, map_app, concat_app, IH. cbn [map List.concat plus].
  rewrite app_nil_r. unfold chunk.
  replace (S n * p)%nat with (n * p + p)%nat by lia.
  now rewrite firstn_plus.
Qed.

Lemma num_pages_bounds {A : Type} (objects : list A) (per_page : Z) :
  0 < per_page ->
  1 <= Paginator.num_pages objects per_page /\
  Paginator.count objects
  <= Paginator.num_pages objects per_page * per_page.
Proof.
  intro H. unfold Paginator.num_pages, Paginator.count.
  set (hits := Z.max 1 (Z.of_nat (List.length objects) - 0)).
  assert (1 <= hits /\ Z.of_nat (List.length objects) <= hits) as [H1 H2]
    by (subst hits; lia).
  pose proof (Z.div_mod (hits + per_page - 1) per_page ltac:(lia)) as D.
  pose proof (Z.mod_pos_bound (hits + per_page - 1) per_page H) as B.
  set (q := (hits + per_page - 1) / per_page) in *.
  split; nia.
Qed.

(** A page that passes [validate_number] is the run of its number. *)
Lemma page_chunk {A : Type} (objects : list A) (per_page n : Z) :
  0 < per_page -> 1 <= n <= Paginator.num_pages objects per_page ->
  Paginator.page objects per_page (Some n)
  = inl (Paginator.mkPage
           (chunk (Z.to_nat per_page) objects (Z.to_nat (n - 1))) n).
Proof.
  intros H R. unfold Paginator.page, Paginator.validate_number.
  assert ((n <? 1) = false) as -> by lia.
  assert ((Paginator.num_pages objects per_page <? n) = false) as -> by lia.
  f_equal. f_equal. unfold Paginator.slice, chunk, Paginator.count.
  replace (Z.to_nat ((n - 1) * per_page))
    with (Z.to_nat (n - 1) * Z.to_nat per_page)%nat by nia.
  set (bottom := (Z.to_nat (n - 1) * Z.to_nat per_page)%nat).
  assert ((n - 1) * per_page = Z.of_nat bottom) as -> by (subst bottom; nia).
  pose proof (length_skipn bottom objects) as L.
  destruct (Z.of_nat (List.length objects)
            <=? Z.of_nat bottom + per_page + 0) eqn:E.
  - rewrite !firstn_all2; [reflexivity | lia | lia].
  - f_equal. lia.
Qed.

Lemma get_page_chunk {A : Type} (objects : list A) (per_page : Z)
    (number : option Z) :
  0 < per_page ->
  exists n,
    Paginator.get_page objects per_page number
    = inl (Paginator.mkPage
             (chunk (Z.to_nat per_page) objects (Z.to_nat (n - 1))) n) /\
    1 <= n <= Paginator.num_pages objects per_page /\
    (forall m, number = Some m ->
       1 <= m <= Paginator.num_pages objects per_page -> n = m).
Proof.
  intro H. destruct (num_pages_bounds objects per_page H) as [N1 _].
  unfold Paginator.get_page, Paginator.validate_number.
  destruct number as [m|].
  - destruct (m <? 1) eqn:E1; [|destruct (_ <? m) eqn:E2].
    + exists (Paginator.num_pages objects per_page).
      split; [apply page_chunk; lia|]. split; [lia|]. intros ? [= <-]. lia.
    + exists (Paginator.num_pages objects per_page).
      split; [apply page_chunk; lia|]. split; [lia|]. intros ? [= <-]. lia.
    + exists m. split; [apply page_chunk; lia|]. split; [lia|].
      now intros ? [= <-].
  - exists 1. split; [apply page_chunk; lia|]. split; [lia|]. discriminate.
Qed.

Variable int : string -> option Z.

Lemma dashboard_get (d : Database) (request : HttpRequest) :
  let found := filtered d request in
  exists context n,
    DashboardView.get int d request = Returns context /\
    DashboardView.page_obj context
    = Paginator.mkPage (chunk 20 found (Z.to_nat (n - 1))) n /\
    1 <= n <= Paginator.num_pages found 20 /\
    (forall s m, dict_get "page" (GET request) = Some s -> int s = Some m ->
       1 <= m <= Paginator.num_pages found 20 -> n = m) /\
    get_top_trends d 10 = Returns (DashboardView.top_trends context).
Proof.
  cbv zeta. unfold DashboardView.get, filtered.
  set (found := get_filtered_trends d _ _ _ _).
  assert (exists top, get_top_trends d 10 = Returns top) as [top T]
    by (unfold get_top_trends, limit_to; cbn [Z.ltb Z.compare]; eauto).
  rewrite T.
  destruct (get_page_chunk found 20
              match dict_get "page" (GET request) with
              | Some s => int s
              | None => Some 1
              end ltac:(lia)) as (n & E & R & K).
  rewrite E. eexists _, n. split; [reflexivity|].
  cbn [DashboardView.page_obj DashboardView.top_trends].
  split; [reflexivity|]. split; [exact R|]. split; [|reflexivity].
  intros s m G I. rewrite G in K. now apply K.
Qed.

Lemma chunk_incl {A : Type} (p : nat) (l : list A) (k : nat) (x : A) :
  In x (chunk p l k) -> In x l.
Proof.
  unfold chunk. intro H. apply firstn_incl in H.
  rewrite <- (firstn_skipn (k * p) l). apply in_or_app. now right.
Qed.

Lemma skipn_sorted {A : Type} (R : A -> A -> Prop) (n : nat) (l : list A) :
  StronglySorted R l -> StronglySorted R (skipn n l).
Proof.
  revert l. induction n as [|n IH]; intros l S; [exact S|].
  destruct l as [|x r]; [constructor|]. cbn [skipn]. apply IH.
  now inversion S.
Qed.

(** X25.  The dashboard always shows a page: for any query string, [get]
    returns a context whose page holds at most twenty stored trends, each
    passing all the selected filters, in descending order of score, and
    whose page number lies between 1 and the number of pages.  Going
    through the pages 1, 2, ... up to the last lists the result of
    [get_filtered_trends] once: every matching trend is on exactly one
    page, and the pages follow the order of the scores. *)
Theorem dashboard_pages (d : Database) (request : HttpRequest) :
  let found := filtered d request in
  (exists context,
     DashboardView.get int d request = Returns context /\
     let shown := DashboardView.page_obj context in
     1 <= Paginator.number shown <= Paginator.num_pages found 20 /\
     (List.length (Paginator.object_list shown) <= 20)%nat /\
     Forall (fun t => In t (trends d) /\ selected request t = true)
            (Paginator.object_list shown) /\
     StronglySorted (key_desc score) (Paginator.object_list shown)) /\
  (forall pages,
     map int pages
     = map (fun k => Some (Z.of_nat k))
           (seq 1 (Z.to_nat (Paginator.num_pages found 20))) ->
     List.concat (map (fun s => listed int d (with_page request s)) pages)
     = found).
Proof.
  cbv zeta. split.
  - destruct (dashboard_get d request) as (context & n & E & P & R & _ & _).
    exists context. split; [exact E|]. cbv zeta. rewrite P.
    cbn [Paginator.number Paginator.object_list].
    split; [exact R|]. split; [apply firstn_le_length|]. split.
    + apply Forall_forall. intros t I. apply chunk_incl in I.
      unfold filtered in I. rewrite get_filtered_trends_eq in I. unfold order_by_score_desc in I.
      apply (Permutation_in _ (sort_desc_perm score _)) in I.
      apply filter_In in I. exact I.
    + unfold chunk, filtered. apply firstn_sorted, skipn_sorted.
      rewrite get_filtered_trends_eq. apply sort_desc_sorted.
  - intros pages E.
    set (found := filtered d request) in *.
    set (N := Paginator.num_pages found 20) in *.
    assert (forall s, In s pages ->
              listed int d (with_page request s)
              = match int s with
                | Some n => chunk 20 found (Z.to_nat (n - 1))
                | None => []
                end) as L.
    { intros s I.
      assert (In (int s) (map int pages)) as I' by now apply in_map.
      rewrite E in I'. apply in_map_iff in I'.
      destruct I' as (k & Ek & Ik). apply in_seq in Ik.
      unfold listed.
      destruct (dashboard_get d (with_page request s))
        as (context & n & G & P & _ & K & _).
      cbv zeta in *. rewrite G, P. cbn [Paginator.object_list].
      assert (filtered d (with_page request s) = found) as Same.
      { subst found. unfold filtered, get_or_empty.
        cbn [with_page GET]. rewrite !dict_get_set. reflexivity. }
      rewrite Same in *. fold N in K.
      cbn [with_page GET] in K. rewrite dict_get_set in K.
      cbn [String.eqb Ascii.eqb Bool.eqb] in K.
      rewrite <- Ek. rewrite (K s (Z.of_nat k) eq_refl (eq_sym Ek));
        [reflexivity | lia]. }
    rewrite (map_ext_in _ _ _ L).
    rewrite <- (map_map int (fun o => match o with
                                       | Some n =>
                                           chunk 20 found (Z.to_nat (n - 1))
                                       | None => []
                                       end)).
    rewrite E, map_map, <- seq_shift, map_map.
    rewrite (map_ext _ (chunk 20 found))
      by (intro k; f_equal; lia).
    rewrite chunks_concat. apply firstn_all2.
    destruct (num_pages_bounds found 20 ltac:(lia)) as [_ B].
    unfold Paginator.count in B. fold N in B. lia.
Qed.

End Pagination.

Section DetailPage.

Import models TrendService gemini_service views.

Variable repr : Q -> string.

(** X27.  The page of a trend.  When no two stored trends share a key, the
    view answers 404 exactly when no trend has the key, and never fails.
    Otherwise its context holds the trend with the key; as related trends
    exactly what [TrendService.get_related_trends] returns for that trend
    and the limit 5; at most fifty comments, all on this trend, the newest
    first; and the flag [is_saved] says whether the user of the request has
    saved the trend, as [toggle_save_trend] left it. *)
Theorem trend_detail_page (g : Gemini) (d : Database)
    (request : HttpRequest) (key : Z) :
  NoDup (map pk (trends d)) ->
  (fst (TrendDetailView.get repr g d request key) = Returns None
   <-> ~ In key (map pk (trends d))) /\
  (forall e, fst (TrendDetailView.get repr g d request key) <> Raises e) /\
  (forall context,
     fst (TrendDetailView.get repr g d request key) = Returns (Some context) ->
     In (TrendDetailView.trend context) (trends d) /\
     pk (TrendDetailView.trend context) = key /\
     get_related_trends d (TrendDetailView.trend context) 5
     = Returns (TrendDetailView.related_trends context) /\
     (List.length (TrendDetailView.comments context) <= 50)%nat /\
     Forall (fun c => In c (trend_comments d) /\ cm_trend c = key)
            (TrendDetailView.comments context) /\
     StronglySorted (key_desc (fun c => inject_Z (cm_created_at c)))
                    (TrendDetailView.comments context) /\
     TrendDetailView.is_saved context
     = match user request with
       | Some u => is_saved (mkSite d 0 0) (user_pk u) key
       | None => false
       end).
Proof.
  intro N. unfold TrendDetailView.get, get.
  destruct (filter_unique_key key (trends d) N) as [E|[t E]]; rewrite E.
  - split; [|split; [discriminate|discriminate]].
    split; [|reflexivity]. intros _ I. apply in_map_iff in I.
    destruct I as (t & P & I).
    assert (In t (filter (fun t => (pk t =? key)%Z) (trends d))) as F
      by (apply filter_In; split; [exact I | now apply Z.eqb_eq]).
    now rewrite E in F.
  - assert (In t (filter (fun t => (pk t =? key)%Z) (trends d))) as F
      by (rewrite E; now left).
    apply filter_In in F. destruct F as [I P]. apply Z.eqb_eq in P.
    destruct (GeminiService.explain_trend repr g t) as [text log].
    match goal with
    | |- context [firstn 50 ?l] => set (shown := firstn 50 l)
    end.
    match goal with
    | |- context [firstn 5 ?l] => set (related := firstn 5 l)
    end.
    cbn [fst]. split; [|split; [discriminate|]].
    + split; [discriminate|]. intro K. exfalso. apply K. rewrite <- P.
      now apply in_map.
    + intros context [= <-].
      cbn [TrendDetailView.trend TrendDetailView.related_trends
           TrendDetailView.comments TrendDetailView.is_saved].
      split; [exact I|]. split; [exact P|]. split.
      { unfold get_related_trends, limit_to. rewrite P. reflexivity. }
      subst shown.
      split; [apply firstn_le_length|]. split.
      { apply Forall_forall. intros c J. apply firstn_incl in J.
        apply (Permutation_in _ (sort_desc_perm _ _)) in J.
        apply filter_In in J. destruct J as [J Q]. apply Z.eqb_eq in Q.
        split; [exact J | congruence]. }
      split; [apply firstn_sorted, sort_desc_sorted|].
      destruct (user request) as [u|]; [|reflexivity].
      unfold is_saved, saved_by. cbn [tables]. now rewrite P.
Qed.

End DetailPage.

Section ChatbotAnswers.

Import models TrendService gemini_service views.
Local Open Scope Q_scope.

Variable repr : Q -> string.
Variable list_of_set : list string -> list string.


End ChatbotAnswers.

Section InsightsPage.

Import models TrendService gemini_service views.

Variable repr : Q -> string.

(** X30.  The page of creator insights.  Anonymous users are sent to the
    login page and users without a premium account to the upgrade page,
    before any trend is looked up and without a call of Gemini.  For a
    premium user and a stored trend the page shows a text that is not
    empty; with an API key set, when the first model fails with a quota
    error, that text is the sentinel ['__QUOTA_EXHAUSTED__'] itself. *)
Theorem creator_insights_page (g : Gemini) (d : Database)
    (request : HttpRequest) (key : Z) :
  (forall u, user request = Some u -> is_premium u = false ->
     CreatorInsightsView.get repr g d request key
     = (Returns (CreatorInsightsView.redirect "upgrade"), [])) /\
  (user request = None ->
     CreatorInsightsView.get repr g d request key
     = (Returns CreatorInsightsView.login, [])) /\
  (forall u trend,
     user request = Some u -> is_premium u = true ->
     get (fun t => pk t =? key) d = Found trend ->
     exists insights,
       fst (CreatorInsightsView.get repr g d request key)
       = Returns (CreatorInsightsView.render trend insights) /\
       insights <> ""%string /\
       (forall generate e,
          PyStr.truthy (GEMINI_API_KEY g) = true ->
          genai g = Returns generate ->
          (forall system prompt,
             generate "gemini-2.0-flash"%string system prompt = Raises e) ->
          quota_exhausted e = true ->
          insights = "__QUOTA_EXHAUSTED__"%string)).
Proof.
  unfold CreatorInsightsView.get. split; [|split].
  - intros u -> ->. reflexivity.
  - intros ->. reflexivity.
  - intros u trend -> -> ->. cbn [negb].
    pose proof (get_creator_insights_text repr g trend) as T.
    pose proof (get_creator_insights_sentinel repr g trend) as S.
    destruct (GeminiService.get_creator_insights repr g trend)
      as [insights log].
    cbn [fst] in *. exists insights. split; [reflexivity|].
    split; [exact T|]. intros generate e K G F Q.
    now apply (S generate e).
Qed.

End InsightsPage.

(** ** The seeding command *)

Section Seeding.

Import models seed_trends.

Variable clock : nat -> Z.

Lemma SAMPLE_TRENDS_titles : NoDup (map s_title SAMPLE_TRENDS).
Proof.
  assert (nodup string_dec (map s_title SAMPLE_TRENDS)
          = map s_title SAMPLE_TRENDS) as <- by (vm_compute; reflexivity).
  apply NoDup_nodup.
Qed.

Lemma existsb_length {A : Type} (p : A -> bool) (l : list A) :
  existsb p l = false <-> filter p l = [].
Proof.
  induction l as [|x r IH]; simpl; [tauto|].
  destruct (p x); simpl; [split; discriminate | exact IH].
Qed.

Lemma get_or_create_cases (now : Z) (d : Database) (sample : Sample) :
  (List.length (filter (has_title (s_title sample)) (trends d)) <= 1)%nat ->
  (missing d sample = true /\
   get_or_create now d sample
   = Returns ({| trends := (trends d ++ [create now d sample])%list;
                 saved_trends := saved_trends d;
                 trend_comments := trend_comments d;
                 next_pk := next_pk d + 1 |}, create now d sample, true)) \/
  (missing d sample = false /\
   exists t, filter (has_title (s_title sample)) (trends d) = [t] /\
             get_or_create now d sample = Returns (d, t, false)).
Proof.
  intro L. unfold get_or_create, get, missing.
  fold (has_title (s_title sample)).
  destruct (filter (has_title (s_title sample)) (trends d))
    as [|t [|t' rest]] eqn:F.
  - left. split; [|reflexivity].
    apply negb_true_iff, existsb_length. exact F.
  - right. split; [|eauto].
    apply negb_false_iff. apply existsb_exists. exists t.
    apply filter_In. rewrite F. now left.
  - cbn in L. lia.
Qed.

Lemma filter_other_title (l : list Sample) (d : Database) (t : Trend) :
  ~ In (title t) (map s_title l) ->
  filter (missing {| trends := (trends d ++ [t])%list;
                     saved_trends := saved_trends d;
                     trend_comments := trend_comments d;
                     next_pk := next_pk d + 1 |}) l
  = filter (missing d) l.
Proof.
  intro N. apply filter_ext_in. intros s I. unfold missing.
  cbn [trends]. rewrite existsb_app. cbn [existsb].
  assert (has_title (s_title s) t = false) as ->.
  { unfold has_title. apply String.eqb_neq. intro E. apply N.
    rewrite E. now apply in_map. }
  now rewrite !orb_false_r.
Qed.

(** The loop creates, in their order, the samples whose title is not
    stored, and nothing else. *)
Lemma seed_creates (l : list Sample) (n : nat) (r : Run) :
  NoDup (map s_title l) ->
  (forall s, In s l ->
     (List.length (filter (has_title (s_title s)) (trends (db r))) <= 1)%nat) ->
  exists r' new,
    seed clock n l r = (r', None) /\
    trends (db r') = (trends (db r) ++ new)%list /\
    map title new = map s_title (filter (missing (db r)) l) /\
    Forall (fun t => hand_made t = true) new /\
    created_count r' = created_count r + Z.of_nat (List.length new) /\
    saved_trends (db r') = saved_trends (db r) /\
    trend_comments (db r') = trend_comments (db r).
Proof.
  revert n r. induction l as [|s rest IH]; intros n r N U.
  - exists r, []. cbn [seed filter map List.length].
    rewrite app_nil_r, Z.add_0_r. repeat split; constructor.
  - cbn [map] in N. inversion N as [|? ? Ns N']; subst.
    cbn [seed].
    destruct (get_or_create_cases (clock n) (db r) s (U s (or_introl eq_refl)))
      as [[M ->]|[M (t & F & ->)]].
    + (* created *)
      set (d1 := {| trends := (trends (db r)
                               ++ [create (clock n) (db r) s])%list;
                    saved_trends := saved_trends (db r);
                    trend_comments := trend_comments (db r);
                    next_pk := next_pk (db r) + 1 |}).
      match goal with
      | |- context [seed clock (S n) rest ?R] => set (r1 := R)
      end.
      destruct (IH (S n) r1 N') as (r' & new & E & T & Ti & H & C & Sv & Cm).
      { intros s' I. subst r1 d1. cbn [db trends]. rewrite filter_app.
        cbn [filter].
        assert (has_title (s_title s') (create (clock n) (db r) s) = false)
          as ->.
        { unfold has_title. cbn [create title]. apply String.eqb_neq.
          intro E. apply Ns. rewrite E. now apply in_map. }
        rewrite app_nil_r. apply U. now right. }
      exists r', (create (clock n) (db r) s :: new).
      split; [exact E|]. subst r1. cbn [db created_count] in *.
      split; [rewrite T; subst d1; cbn [trends];
              now rewrite <- app_assoc|].
      split.
      { cbn [filter]. rewrite M. cbn [map]. f_equal.
        rewrite Ti. f_equal. subst d1.
        apply (filter_other_title rest (db r)). exact Ns. }
      split; [constructor; [reflexivity | exact H]|].
      split; [rewrite C; cbn [List.length]; lia|].
      split; [rewrite Sv | rewrite Cm]; reflexivity.
    + (* already there *)
      match goal with
      | |- context [seed clock (S n) rest ?R] => set (r1 := R)
      end.
      destruct (IH (S n) r1 N') as (r' & new & E & T & Ti & H & C & Sv & Cm).
      { intros s' I. subst r1. cbn [db]. apply U. now right. }
      exists r', new. split; [exact E|]. subst r1.
      cbn [db created_count] in *.
      split; [exact T|]. split; [cbn [filter]; rewrite M; exact Ti|].
      split; [exact H|]. split; [exact C|]. split; assumption.
Qed.

(** With every title stored once, the loop writes nothing. *)
Lemma seed_idle (l : list Sample) (n : nat) (r : Run) :
  (forall s, In s l ->
     List.length (filter (has_title (s_title s)) (trends (db r))) = 1%nat) ->
  exists out,
    seed clock n l r
    = ({| db := db r; created_count := created_count r; stdout := out |},
       None).
Proof.
  revert n r. induction l as [|s rest IH]; intros n r U.
  - exists (stdout r). now destruct r.
  - cbn [seed].
    destruct (get_or_create_cases (clock n) (db r) s) as [[M _]|[_ (t & _ & ->)]].
    + rewrite (U s (or_introl eq_refl)). lia.
    + exfalso. unfold missing in M. apply negb_true_iff, existsb_length in M.
      pose proof (U s (or_introl eq_refl)) as L. rewrite M in L.
      discriminate.
    + destruct (IH (S n)
                  {| db := db r; created_count := created_count r;
                     stdout := (stdout r ++ [("  — Already exists: "
                                              ++ title t)%string])%list |})
        as [out E].
      { intros s' I. cbn [db]. apply U. now right. }
      exists out. exact E.
Qed.

(** Every row is an old one or has a key from the old counter on. *)
Lemma seed_keys (l : list Sample) (n : nat) (r : Run) :
  Forall (fun t => In t (trends (db r)) \/ (next_pk (db r) <= pk t)%Z)
         (trends (db (fst (seed clock n l r)))) /\
  (next_pk (db r) <= next_pk (db (fst (seed clock n l r))))%Z.
Proof.
  revert n r. induction l as [|s rest IH]; intros n r.
  - cbn [seed fst]. split; [|lia]. apply Forall_forall. auto.
  - cbn [seed]. unfold get_or_create.
    destruct (get (fun t => String.eqb (title t) (s_title s)) (db r))
      as [t| |k].
    + match goal with
      | |- context [seed clock (S n) rest ?R] => exact (IH (S n) R)
      end.
    + match goal with
      | |- context [seed clock (S n) rest ?R] =>
          destruct (IH (S n) R) as [F L]
      end.
      cbn [db trends next_pk] in *. split; [|lia].
      eapply Forall_impl; [|exact F]. cbn beta. intros t [I|K]; [|right; lia].
      apply in_app_or in I. destruct I as [I|[<-|[]]]; [now left|].
      right. cbn [create pk]. lia.
    + cbn [fst]. split; [|lia]. apply Forall_forall. auto.
Qed.

End Seeding.

Section SeedingTwice.

Import models seed_trends.

(** X26.  Seeding is idempotent.  On a store in which no title of a sample
    occurs twice, [seed_trends] without [--clear] does not fail; it keeps
    every stored row, the saved trends and the comments, and appends, in
    the order of [SAMPLE_TRENDS], one trend for each sample whose title was
    not stored, each with source ['manual'] and no identifier, and counts
    them.  Afterwards every sample title is stored exactly once, so that a
    second run, at any time, creates nothing and leaves the tables as they
    are. *)
Theorem seed_trends_idempotent (clock clock' : nat -> Z) (d : Database) :
  titles_unique d ->
  exists r new,
    handle clock false d = (r, None) /\
    trends (db r) = (trends d ++ new)%list /\
    map title new = map s_title (filter (missing d) SAMPLE_TRENDS) /\
    Forall (fun t => hand_made t = true) new /\
    created_count r = Z.of_nat (List.length new) /\
    saved_trends (db r) = saved_trends d /\
    trend_comments (db r) = trend_comments d /\
    (forall sample, In sample SAMPLE_TRENDS ->
       List.length (filter (has_title (s_title sample)) (trends (db r)))
       = 1%nat) /\
    exists r',
      handle clock' false (db r) = (r', None) /\
      db r' = db r /\ created_count r' = 0.
Proof.
  intro U. unfold handle.
  destruct (seed_creates clock SAMPLE_TRENDS 0
              {| db := d; created_count := 0; stdout := [] |}
              SAMPLE_TRENDS_titles U)
    as (r1 & new & E & T & Ti & H & C & Sv & Cm).
  cbn [db created_count] in *. rewrite E.
  eexists _, new. split; [reflexivity|]. cbn [db created_count].
  split; [exact T|]. split; [exact Ti|]. split; [exact H|].
  split; [lia|]. split; [exact Sv|]. split; [exact Cm|].
  assert (forall sample, In sample SAMPLE_TRENDS ->
            List.length (filter (has_title (s_title sample)) (trends (db r1)))
            = 1%nat) as Once.
  { intros s I. rewrite T, filter_app, length_app.
    pose proof (U s I) as L.
    assert (In (s_title s) (map title new) <-> missing d s = true) as K.
    { rewrite Ti. split.
      - intro J. apply in_map_iff in J. destruct J as (s' & Es & J).
        apply filter_In in J. destruct J as [_ J]. unfold missing in *.
        now rewrite <- Es.
      - intro M. apply in_map. apply filter_In. auto. }
    assert (NoDup (map title new)) as Nn.
    { rewrite Ti. apply filter_keeps_keys.
      exact SAMPLE_TRENDS_titles. }
    destruct (missing d s) eqn:M.
    - pose proof M as M'. unfold missing in M'.
      apply negb_true_iff, existsb_length in M'. rewrite M'.
      cbn [List.length plus].
      assert (In (s_title s) (map title new)) as J by now apply K.
      apply in_map_iff in J. destruct J as (t & Et & J).
      destruct (filter_at_most_one title (has_title (s_title s)) new Nn)
        as [F|[x F]].
      + intros x y _ _ Px Py. unfold has_title in *.
        apply String.eqb_eq in Px, Py. congruence.
      + exfalso.
        assert (In t (filter (has_title (s_title s)) new)) as J'
          by (apply filter_In; split;
              [exact J | now apply String.eqb_eq]).
        now rewrite F in J'.
      + now rewrite F.
    - assert (filter (has_title (s_title s)) new = []) as ->.
      { apply filter_nothing. intros t J. unfold has_title.
        apply String.eqb_neq. intro Et.
        assert (In (s_title s) (map title new)) as J'
          by (rewrite <- Et; now apply in_map).
        apply K in J'. discriminate. }
      cbn [List.length]. rewrite Nat.add_0_r.
      unfold missing in M. apply negb_false_iff, existsb_exists in M.
      destruct M as (t & J & P).
      assert (In t (filter (has_title (s_title s)) (trends d))) as J'
        by (apply filter_In; auto).
      destruct (filter (has_title (s_title s)) (trends d)) as [|? [|? ?]];
        [destruct J' | reflexivity | cbn in L; lia]. }
  split; [exact Once|].
  destruct (seed_idle clock' SAMPLE_TRENDS 0
              {| db := db r1; created_count := 0; stdout := [] |} Once)
    as [out ->].
  eexists. split; [reflexivity|]. split; reflexivity.
Qed.

End SeedingTwice.

Section SeedingAfresh.

Import models seed_trends.

(** X28.  With [--clear] the seeding command resets the trends: whatever
    the store held, it does not fail, and afterwards the trends are exactly
    the twelve samples, in the order of [SAMPLE_TRENDS], each with source
    ['manual'] and no identifier, under keys that no deleted trend had; no
    saved trend and no comment is left that referenced a deleted trend. *)
Theorem seed_trends_clear_resets (clock : nat -> Z) (d : Database) :
  exists r,
    handle clock true d = (r, None) /\
    map title (trends (db r)) = map s_title SAMPLE_TRENDS /\
    Forall (fun t => hand_made t = true /\ (next_pk d <= pk t)%Z)
           (trends (db r)) /\
    created_count r = 12 /\
    Forall (fun s => references (trends d) (st_trend s) = false)
           (saved_trends (db r)) /\
    Forall (fun c => references (trends d) (cm_trend c) = false)
           (trend_comments (db r)).
Proof.
  unfold handle.
  set (emptied := fst (delete (fun _ => true) d)).
  assert (trends emptied = []) as Empty.
  { subst emptied. unfold delete. cbn [fst trends].
    apply filter_nothing. reflexivity. }
  destruct (seed_creates clock SAMPLE_TRENDS 0
              {| db := emptied; created_count := 0;
                 stdout := ["Cleared existing trends."%string] |}
              SAMPLE_TRENDS_titles)
    as (r1 & new & E & T & Ti & H & C & Sv & Cm).
  { intros s _. cbn [db]. rewrite Empty. cbn. lia. }
  cbn [db created_count] in *. rewrite E.
  eexists. split; [reflexivity|]. cbn [db created_count].
  rewrite Empty in T. cbn [app] in T.
  assert (filter (missing emptied) SAMPLE_TRENDS = SAMPLE_TRENDS) as All.
  { rewrite <- (filter_all SAMPLE_TRENDS) at 2. apply filter_ext.
    intro s. unfold missing. now rewrite Empty. }
  rewrite All in Ti.
  split; [now rewrite T|]. split.
  { rewrite T. apply Forall_forall. intros t I.
    rewrite Forall_forall in H. split; [now apply H|].
    pose proof (proj1 (seed_keys clock SAMPLE_TRENDS 0
                         {| db := emptied; created_count := 0;
                            stdout := ["Cleared existing trends."%string] |}))
      as K.
    rewrite E in K. cbn [fst db] in K. rewrite Forall_forall in K.
    rewrite T in K. specialize (K t I). rewrite Empty in K.
    destruct K as [[]|K]. subst emptied. unfold delete in K.
    cbn [fst next_pk] in K. exact K. }
  split.
  { rewrite C. rewrite <- (length_map title), Ti, length_map. reflexivity. }
  rewrite Sv, Cm. subst emptied. unfold delete.
  cbn [fst saved_trends trend_comments].
  rewrite !filter_all.
  split; apply Forall_forall; intros x I; apply filter_In in I;
    destruct I as [_ I]; now apply negb_true_iff in I.
Qed.

End SeedingAfresh.

(** ** The further properties at work on concrete inputs *)

Section FurtherWitnesses.

Import models live_data_service TrendService Command.
Local Open Scope Q_scope.

Lemma stored_db_keys : keys_ok stored_db.
Proof.
  split.
  - repeat (constructor; [simpl; intuition discriminate|]). constructor.
  - repeat constructor; simpl; lia.
Qed.

Lemma reconcile_keeps_keys_witness :
  keys_ok (db_of (reconcile accept_all (fun n => Z.of_nat n)
                    (mkRun stored_db 0 [], 0%Z, 0%Z)
                    [("news"%string, [gnews_item; rss_item])])).
Proof.
  apply (reconcile_keeps_keys accept_all (fun n => Z.of_nat n)
           (mkRun stored_db 0 [], 0%Z, 0%Z)).
  exact stored_db_keys.
Defined.

(** The headline of the feed overwrites the one of the API, written under
    the same identifier before it. *)
Lemma last_writer_wins_witness :
  exists t,
    filter (has_source_id "2d9d6d346e8dea8639403ad78075aed2")
      (trends (db_of (reconcile
                 (fun c => if String.eqb (c_source c) "stocks"
                           then Some (Exception "refused") else None)
                 (fun n => Z.of_nat n)
                 (mkRun empty_db 0 [], 0%Z, 0%Z)
                 [("news"%string, [gnews_item; rss_item])]))) = [t] /\
    title t = long_headline_upper.
Proof.
  destruct (last_writer_wins
              (fun c => if String.eqb (c_source c) "stocks"
                        then Some (Exception "refused") else None)
              (fun n => Z.of_nat n)
              (mkRun empty_db 0 [], 0%Z, 0%Z)
              [("news"%string, [gnews_item; rss_item])]
              [gnews_item] [] rss_item
              "2d9d6d346e8dea8639403ad78075aed2")
    as (t & F & O).
  - reflexivity.
  - vm_compute. reflexivity.
  - intros c' [].
  - unfold count_sid. simpl. lia.
  - exists t. split; [exact F|]. destruct O as (T & _). rewrite T.
    reflexivity.
Defined.

Lemma delete_keeps_references_witness :
  references_ok (fst (delete (fun t => (pk t =? 1)%Z) saved_db)) /\
  references_ok (fst (clear saved_db)).
Proof.
  apply (delete_keeps_references (fun t => (pk t =? 1)%Z) saved_db).
  split; repeat constructor.
Defined.

Lemma fetch_at_most_count_witness :
  (Z.of_nat (List.length (fst (StockTrendsFetcher.fetch example_world 2)))
   <= 2)%Z.
Proof.
  destruct (fetch_at_most_count example_world "united_states" 2)
    as (_ & S & _); [lia|]. exact S.
Defined.

Lemma fetched_candidates_well_formed_witness :
  exists trends log,
    never_raises (fun w => StockTrendsFetcher.fetch w 15) example_world
    = (Returns trends, log) /\
    List.length trends = 4%nat /\
    Forall (fun c => c_source c = "stocks"%string /\ well_formed c) trends.
Proof.
  destruct (never_raises (fun w => StockTrendsFetcher.fetch w 15)
              example_world) as [[trends|e] log] eqn:E;
    [|vm_compute in E; discriminate E].
  exists trends, log. split; [reflexivity|]. split.
  - vm_compute in E. injection E as <- _. reflexivity.
  - exact (fetched_candidates_well_formed "stocks"
             (never_raises (fun w => StockTrendsFetcher.fetch w 15))
             example_world trends log eq_refl E).
Defined.

Lemma aggregator_keys_witness :
  exists results log,
    fetch_all_live_trends two_fetchers example_world
      (Some ["A"; "B"; "B"; "C"]%string) = (Returns results, log) /\
    NoDup (map fst results) /\
    In "B"%string (map fst results) /\
    ~ In "C"%string (map fst results).
Proof.
  destruct (fetch_all_live_trends two_fetchers example_world
              (Some ["A"; "B"; "B"; "C"]%string)) as [[results|e] log] eqn:E;
    [|vm_compute in E; discriminate E].
  exists results, log. split; [reflexivity|].
  destruct (aggregator_keys two_fetchers example_world
              ["A"; "B"; "B"; "C"]%string results log E) as [N K].
  split; [exact N|]. split.
  - apply K. split; [simpl; auto | discriminate].
  - intro I. apply K in I. destruct I as [_ I]. now apply I.
Defined.

Lemma handle_clear_purges_witness :
  exists r log results,
    handle accept_all (fun n => Z.of_nat n) FETCHERS example_world
      (mkOptions (Some ["stocks"%string]) true) stored_db = (Returns r, log) /\
    map source (trends (db r))
    = ["manual"; "stocks"; "stocks"; "stocks"; "stocks"]%string /\
    Forall (fun t =>
              is_manual t = true \/
              exists c s, In c (all_candidates results) /\
                          writes accept_all c = Some s /\
                          source_id t = Some s)
           (trends (db r)).
Proof.
  destruct (handle accept_all (fun n => Z.of_nat n) FETCHERS example_world
              (mkOptions (Some ["stocks"%string]) true) stored_db)
    as [[r|e] log] eqn:E; [|vm_compute in E; discriminate E].
  destruct (handle_clear_purges accept_all (fun n => Z.of_nat n) FETCHERS
              example_world (mkOptions (Some ["stocks"%string]) true)
              stored_db r log eq_refl E) as (results & F & P).
  exists r, log, results. split; [reflexivity|]. split; [|exact P].
  vm_compute in E. injection E as <- _. reflexivity.
Defined.

Lemma handle_frame_witness :
  exists r log,
    handle accept_all (fun n => Z.of_nat n) FETCHERS example_world
      (mkOptions (Some ["stocks"%string]) true) stored_db = (Returns r, log) /\
    filter hand_made (trends (db r)) = [blank_trend 1 "manual" 10 1] /\
    keys_ok (db r).
Proof.
  destruct (handle accept_all (fun n => Z.of_nat n) FETCHERS example_world
              (mkOptions (Some ["stocks"%string]) true) stored_db)
    as [[r|e] log] eqn:E; [|vm_compute in E; discriminate E].
  exists r, log. split; [reflexivity|].
  destruct (handle_frame accept_all (fun n => Z.of_nat n) FETCHERS
              example_world (mkOptions (Some ["stocks"%string]) true)
              stored_db r log E) as (F & K & _).
  split; [rewrite F; reflexivity | exact (K stored_db_keys)].
Defined.

Lemma get_top_trends_top_witness :
  exists top,
    get_top_trends seeded_db 2 = Returns top /\ map pk top = [5; 4]%Z.
Proof.
  destruct (get_top_trends_top seeded_db 2) as (top & rest & E & _); [lia|].
  exists top. split; [exact E|].
  vm_compute in E. injection E as <-. reflexivity.
Defined.

Lemma get_related_trends_related_witness :
  exists related,
    get_related_trends seeded_db (blank_trend 3 "manual" 30 3) 2
    = Returns related /\ map pk related = [5; 4]%Z.
Proof.
  destruct (get_related_trends_related seeded_db
              (blank_trend 3 "manual" 30 3) 2)
    as (related & rest & E & _); [lia|].
  exists related. split; [exact E|].
  vm_compute in E. injection E as <-. reflexivity.
Defined.

Lemma get_trend_by_id_unique_witness :
  get_trend_by_id seeded_db 4 = Returns (Some (blank_trend 4 "stocks" 40 4)) /\
  get_trend_by_id seeded_db 9 = Returns None.
Proof.
  assert (NoDup (map pk (trends seeded_db))) as N.
  { repeat (constructor; [simpl; intuition discriminate|]). constructor. }
  split.
  - apply (get_trend_by_id_unique seeded_db 4 N). split; [simpl; auto|].
    reflexivity.
  - apply (get_trend_by_id_unique seeded_db 9 N). simpl. intuition discriminate.
Defined.

Lemma extract_trend_keywords_sound_witness :
  let keywords :=
    extract_trend_keywords (nodup string_dec)
      "What is trending on TikTok about music videos today?" in
  (List.length keywords <= 10)%nat /\ NoDup keywords.
Proof.
  destruct (extract_trend_keywords_sound (nodup string_dec)
              (NoDup_nodup string_dec) (fun l x => nodup_In string_dec l x)
              "What is trending on TikTok about music videos today?")
    as (L & N & _).
  split; [exact L | exact N].
Defined.


End FurtherWitnesses.

Section ViewWitnesses.

Import models live_data_service TrendService gemini_service views.
Local Open Scope Q_scope.

Lemma call_gemini_preference_witness :
  fst (_call_gemini (mkGemini "key" (Returns pro_only)) "hello" None)
  = Some "An answer."%string /\
  fst (_call_gemini (mkGemini "key" (Returns out_of_quota)) "hello" None)
  = Some "__QUOTA_EXHAUSTED__"%string.
Proof.
  split.
  - destruct (_call_gemini_preference (mkGemini "key" (Returns pro_only))
                "hello" None) as [_ K].
    destruct (K pro_only eq_refl) as [K' _].
    apply (K' ["gemini-2.0-flash"; "gemini-1.5-flash"]%string
              "gemini-pro"%string [] eq_refl); [|reflexivity].
    repeat constructor; eexists; split; reflexivity.
  - destruct (_call_gemini_preference
                (mkGemini "key" (Returns out_of_quota)) "hello" None)
      as [_ K].
    destruct (K out_of_quota eq_refl) as [K' _].
    apply (K' [] "gemini-2.0-flash"%string
              ["gemini-1.5-flash"; "gemini-pro"]%string eq_refl
              (Forall_nil _))
      with (e := Exception "429 ResourceExhausted: quota exceeded");
      reflexivity.
Defined.

Lemma quota_sentinel_handling_witness :
  fst (GeminiService.get_creator_insights (PyFormat.fixed 1)
         (mkGemini "key" (Returns out_of_quota)) stored_row)
  = "__QUOTA_EXHAUSTED__"%string.
Proof.
  destruct (quota_sentinel_handling (PyFormat.fixed 1)
              (mkGemini "key" (Returns out_of_quota)) stored_row)
    as (_ & _ & K).
  apply (K out_of_quota (Exception "429 ResourceExhausted: quota exceeded"));
    reflexivity.
Defined.

Lemma toggle_save_trend_flips_witness :
  exists message site',
    toggle_save_trend 100 seeded_site (post_by (Some alice) []) 4
    = (Returns (JsonResponse [("saved"%string, JBool true);
                              ("message"%string, JString message)] 200),
       site') /\
    is_saved site' 7 4 = true /\ is_saved site' 7 5 = false /\
    is_saved site' 8 4 = false.
Proof.
  destruct (toggle_save_trend_flips 100 seeded_site
              (post_by (Some alice) []) 4 alice
              (blank_trend 4 "stocks" (inject_Z 40) 4)
              eq_refl eq_refl eq_refl)
    as (message & site' & E & _ & _ & _ & Flip).
  { repeat split; constructor. }
  exists message, site'.
  pose proof (Flip 7%Z 4%Z) as F1. pose proof (Flip 7%Z 5%Z) as F2.
  pose proof (Flip 8%Z 4%Z) as F3.
  cbn in F1, F2, F3. cbn [user_pk alice pk blank_trend] in E.
  rewrite F1 in E. auto.
Defined.

Lemma add_comment_stores_valid_witness :
  trend_comments
    (tables (snd (add_comment (fun _ => "Alice"%string)
                    (fun _ => "Nov 03, 2026 09:00"%string) 100 seeded_site
                    (post_by (Some alice) [("text", "  nice one  ")]%string)
                    4)))
  = [mkComment 1 4 7 "nice one" 100].
Proof.
  destruct (add_comment_stores_valid (fun _ => "Alice"%string)
              (fun _ => "Nov 03, 2026 09:00"%string) 100 seeded_site
              (post_by (Some alice) [("text", "  nice one  ")]%string) 4)
    as [[_ N]|(u & trend & c & data & U & _ & _ & _ & C & _ & _ & T & _)].
  - exfalso. eapply N. reflexivity.
  - rewrite T, C. injection U as <-. reflexivity.
Defined.

Lemma chatbot_rate_limit_witness :
  (List.length (filter (recent 10%Q) [0%Q; 10%Q]) < 20)%nat.
Proof.
  apply (chatbot_rate_limit (PyFormat.fixed 1) (nodup string_dec)
           [(0, no_key, sample_db, chat_request);
            (10, no_key, sample_db, chat_request);
            (10, no_key, sample_db, chat_request)]
           [0; 10] [] 10).
  - repeat constructor; unfold Qle; simpl; lia.
  - vm_compute. reflexivity.
Defined.

Lemma dashboard_pages_witness :
  exists context,
    DashboardView.get (fun _ => Some 7%Z) seeded_db
      (mkHttpRequest "GET" None [("source", "manual"); ("page", "7")]%string
         [] JSONDecodeError []) = Returns context /\
    Paginator.number (DashboardView.page_obj context) = 1%Z /\
    map pk (Paginator.object_list (DashboardView.page_obj context))
    = [5; 3; 1]%Z.
Proof.
  destruct (dashboard_pages (fun _ => Some 7%Z) seeded_db
              (mkHttpRequest "GET" None
                 [("source", "manual"); ("page", "7")]%string [] 
                 JSONDecodeError []))
    as [(context & E & _) _].
  exists context. split; [exact E|].
  vm_compute in E. injection E as <-. split; reflexivity.
Defined.

Lemma seed_trends_idempotent_witness :
  exists r r',
    seed_trends.handle (fun n => Z.of_nat n) false empty_db = (r, None) /\
    seed_trends.created_count r = 12%Z /\
    seed_trends.handle (fun n => (Z.of_nat n + 100)%Z) false
      (seed_trends.db r) = (r', None) /\
    seed_trends.db r' = seed_trends.db r /\
    seed_trends.created_count r' = 0%Z.
Proof.
  destruct (seed_trends_idempotent (fun n => Z.of_nat n)
              (fun n => (Z.of_nat n + 100)%Z) empty_db)
    as (r & new & E & _ & T & _ & C & _ & _ & _ & r' & E' & D & C').
  { intros sample _. cbn. lia. }
  exists r, r'. split; [exact E|]. split; [|auto].
  rewrite C. rewrite <- (length_map title), T, length_map.
  vm_compute. reflexivity.
Defined.

Lemma trend_detail_page_witness :
  fst (TrendDetailView.get (PyFormat.fixed 1) no_key saved_db
         (post_by (Some alice) []) 9) = Returns None /\
  exists context,
    fst (TrendDetailView.get (PyFormat.fixed 1) no_key saved_db
           (post_by (Some alice) []) 1) = Returns (Some context) /\
    TrendDetailView.is_saved context = true /\
    TrendDetailView.related_trends context = [].
Proof.
  assert (NoDup (map pk (trends saved_db))) as N
    by (repeat constructor; intros []).
  split.
  - apply (trend_detail_page (PyFormat.fixed 1) no_key saved_db
             (post_by (Some alice) []) 9 N).
    cbn. intuition discriminate.
  - destruct (fst (TrendDetailView.get (PyFormat.fixed 1) no_key saved_db
                     (post_by (Some alice) []) 1))
      as [[context|]|e] eqn:E; try (vm_compute in E; discriminate E).
    exists context. split; [reflexivity|].
    destruct (trend_detail_page (PyFormat.fixed 1) no_key saved_db
                (post_by (Some alice) []) 1 N) as (_ & _ & K).
    destruct (K context E) as (_ & _ & _ & _ & _ & _ & S).
    split; [rewrite S; reflexivity|].
    vm_compute in E. injection E as <-. reflexivity.
Defined.


Lemma creator_insights_page_witness :
  fst (CreatorInsightsView.get (PyFormat.fixed 1)
         (mkGemini "key" (Returns out_of_quota)) saved_db
         (post_by (Some bob) []) 1)
  = Returns (CreatorInsightsView.render (blank_trend 1 "news" 20 1)
               "__QUOTA_EXHAUSTED__") /\
  CreatorInsightsView.get (PyFormat.fixed 1)
    (mkGemini "key" (Returns out_of_quota)) saved_db
    (post_by (Some alice) []) 1
  = (Returns (CreatorInsightsView.redirect "upgrade"), []).
Proof.
  split.
  - destruct (creator_insights_page (PyFormat.fixed 1)
                (mkGemini "key" (Returns out_of_quota)) saved_db
                (post_by (Some bob) []) 1) as (_ & _ & K).
    destruct (K bob (blank_trend 1 "news" 20 1) eq_refl eq_refl eq_refl)
      as (insights & E & _ & Q).
    rewrite E.
    rewrite (Q out_of_quota
               (Exception "429 ResourceExhausted: quota exceeded")
               eq_refl eq_refl (fun _ _ => eq_refl) eq_refl).
    reflexivity.
  - destruct (creator_insights_page (PyFormat.fixed 1)
                (mkGemini "key" (Returns out_of_quota)) saved_db
                (post_by (Some alice) []) 1) as (K & _).
    exact (K alice eq_refl eq_refl).
Defined.

End ViewWitnesses.
